(** * wenet_speaker/bin/train.py: the distributed training driver

    A shallow embedding of [train] (src/wenet_speaker/bin/train.py) and the
    properties of its sequencing: rank-gated directory creation, barriers,
    the epoch loop, checkpointing and the final symlink.

    The script is a sequence of calls into Python's runtime, PyTorch and the
    rest of the package.  Each such call is an [event] of the process; whether
    it raises is decided by the [World] the process runs in.  The script's own
    control flow (conditions on the rank, the loop bounds, the save condition,
    the single [try]/[except]) is translated statement by statement. *)

From Stdlib Require Import Ascii String QArith SpecFloat.
From stdpp Require Import gmap strings list pretty.

Local Open Scope string_scope.
Local Open Scope Z_scope.

(** ** Python values and built-ins used by the script *)

Module Py.

(** The exception classes that occur.  In Python 3 [IOError] is an alias
    of [OSError], whose subclasses here are [FileExistsError] and
    [PermissionError]. *)
Inductive pyclass :=
| BaseException | Exception
| OSError | FileExistsError | PermissionError
| LookupError | KeyError | IndexError
| ArithmeticError | ZeroDivisionError | OverflowError
| ValueError | RuntimeError
| OtherError (name : string).

Definition is_OSError_class (c : pyclass) : bool :=
  match c with
  | OSError | FileExistsError | PermissionError => true
  | _ => false
  end.

(** A raised exception: [SystemExit] carries the exit status. *)
Inductive exn :=
| SystemExit (code : Z)
| Err (cls : pyclass) (arg : string).

(** [except IOError] catches exactly the instances of [OSError]. *)
Definition isinstance_IOError (e : exn) : bool :=
  match e with
  | SystemExit _ => false
  | Err c _ => is_OSError_class c
  end.

(** [str(n)] for an integer. *)
Definition str (n : Z) : string := pretty n.

(** [int(s)] for a string: surrounding whitespace is dropped, then an
    optional sign and decimal digits, single underscores allowed between
    digits.  [None] stands for [ValueError]. *)
Definition is_space (a : ascii) : bool :=
  let n := nat_of_ascii a in
  ((9 <=? n)%nat && (n <=? 13)%nat) || (n =? 32)%nat.

Fixpoint lstrip (s : string) : string :=
  match s with
  | String a r => if is_space a then lstrip r else s
  | EmptyString => EmptyString
  end.

Fixpoint rstrip (s : string) : string :=
  match s with
  | String a r =>
      match rstrip r with
      | EmptyString => if is_space a then EmptyString else String a EmptyString
      | r' => String a r'
      end
  | EmptyString => EmptyString
  end.

Definition digit_val (a : ascii) : option Z :=
  let n := nat_of_ascii a in
  if ((48 <=? n)%nat && (n <=? 57)%nat) then Some (Z.of_nat (n - 48)) else None.

Fixpoint digits (acc : Z) (after_digit : bool) (s : string) : option Z :=
  match s with
  | EmptyString => if after_digit then Some acc else None
  | String a r =>
      if Ascii.eqb a "_"%char
      then (if after_digit then digits acc false r else None)
      else match digit_val a with
           | Some d => digits (acc * 10 + d) true r
           | None => None
           end
  end.

Definition int_of_str (s : string) : option Z :=
  match rstrip (lstrip s) with
  | String "-" r => Z.opp <$> digits 0 false r
  | String "+" r => digits 0 false r
  | r => digits 0 false r
  end.

(** [l[i]] on a list, negative indices counting from the end.  [None]
    stands for [IndexError]. *)
Definition index {A} (l : list A) (i : Z) : option A :=
  if 0 <=? i then l !! Z.to_nat i
  else if - Z.of_nat (length l) <=? i then l !! Z.to_nat (Z.of_nat (length l) + i)
  else None.

(** [range(lo, hi)]. *)
Definition range (lo hi : Z) : list Z := seqZ lo (hi - lo).

(** [a % b] on integers: the result has the sign of the divisor, as
    [Z.modulo]; [None] stands for [ZeroDivisionError]. *)
Definition mod_ (a b : Z) : option Z :=
  if b =? 0 then None else Some (a mod b).

(** A float is an IEEE 754 binary64 number: [spec_float] with 53 bits of
    precision and [emax = 1024], whose operations round to nearest, ties to
    even. *)
Definition float : Type := spec_float.
Definition prec : Z := 53.
Definition emax : Z := 1024.

(** [0.0] and [1.0] (the latter is [2^52 * 2^-52]). *)
Definition float_zero : float := S754_zero false.
Definition float_one : float := S754_finite false 4503599627370496 (-52).

Definition is_zero (x : float) : bool :=
  match x with
  | S754_zero _ => true
  | _ => false
  end.

(** [a - b] on floats. *)
Definition fsub (a b : float) : float := SFsub prec emax a b.

(** The float of an integer, as the arithmetic operators convert it: the
    nearest float, [OverflowError] when that is beyond the largest one. *)
Definition float_of_int (n : Z) : exn + float :=
  match binary_normalize prec emax n 0 false with
  | S754_infinity _ => inl (Err OverflowError "int too large to convert to float")
  | x => inr x
  end.

(** [n / d] for an integer [n] and a float [d]: the integer is converted,
    then a zero divisor raises [ZeroDivisionError]. *)
Definition truediv (n : Z) (d : float) : exn + float :=
  match float_of_int n with
  | inl e => inl e
  | inr x =>
      if is_zero d then inl (Err ZeroDivisionError "float division by zero")
      else inr (SFdiv prec emax x d)
  end.

(** [int(x)] for a float truncates towards zero; it raises [ValueError] on
    a NaN and [OverflowError] on an infinity.  The value of a finite float
    is [m * 2^e], and [Z.shiftl] with a negative [e] shifts right. *)
Definition int_of_float (x : float) : exn + Z :=
  match x with
  | S754_nan => inl (Err ValueError "cannot convert float NaN to integer")
  | S754_infinity _ => inl (Err OverflowError "cannot convert float infinity to integer")
  | S754_zero _ => inr 0
  | S754_finite s m e => inr (cond_Zopp s (Z.shiftl (Z.pos m) e))
  end.

(** [os.path.join(a, b)] (posixpath). *)
Fixpoint endswith_sep (a : string) : bool :=
  match a with
  | EmptyString => false
  | String c EmptyString => Ascii.eqb c "/"%char
  | String _ r => endswith_sep r
  end.

Definition startswith_sep (b : string) : bool :=
  match b with
  | String c _ => Ascii.eqb c "/"%char
  | EmptyString => false
  end.

Definition path_join (a b : string) : string :=
  if startswith_sep b then b
  else if (String.length a =? 0)%nat || endswith_sep a then a ++ b
  else a ++ "/" ++ b.

End Py.

(** ** The configuration dictionary

    [configs] is the nested dictionary that [parse_config_or_kwargs] returns.
    The script reads and writes a fixed set of its keys; they are the fields
    below, named after the keys.  A key the script assigns before it was ever
    present ([configs['projection_args']['num_class']] and the like) is an
    [option].  The remaining keys are only handed on to the framework. *)

(** [aug_prob] is the float that line 123 subtracts from [1.0]: the float of
    the configuration, or the float of the integer there. *)
Record DatasetArgs := {
  train_scp : string;
  train_label : string;
  speed_perturb : bool;
  aug_prob : Py.float }.

Record FeatureArgs := { fa_feat_dim : option Z }.

Record ModelArgs := { feat_dim : Z; embed_dim : Z }.

Record ProjectionArgs := { pa_embed_dim : option Z; num_class : option Z }.

Record OptimizerArgs := { lr : option Q }.

Record SchedulerArgs := {
  initial_lr : Q;
  sa_num_epochs : option Z;
  sa_epoch_iter : option Z;
  process_num : option Z }.

Record TrainConfigs := {
  num_epochs : Z;
  log_batch_interval : Z;
  save_epoch_interval : Z }.

Record MarginUpdate := { mu_epoch_iter : option Z }.

Record Config := {
  exp_dir : string;
  gpus : list Z;
  seed : Z;
  model : string;
  model_init : option string;
  loss : string;
  optimizer : string;
  scheduler : string;
  num_avg : Z;
  dataset_args : DatasetArgs;
  feature_args : FeatureArgs;
  model_args : ModelArgs;
  projection_args : ProjectionArgs;
  optimizer_args : OptimizerArgs;
  scheduler_args : SchedulerArgs;
  train_configs : TrainConfigs;
  margin_update : MarginUpdate }.

(** Assignments [configs[k] = v] to a sub-dictionary. *)
Definition set_feature_args (v : FeatureArgs) (c : Config) : Config :=
  {| exp_dir := exp_dir c; gpus := gpus c; seed := seed c; model := model c;
     model_init := model_init c; loss := loss c; optimizer := optimizer c;
     scheduler := scheduler c; num_avg := num_avg c;
     dataset_args := dataset_args c; feature_args := v;
     model_args := model_args c; projection_args := projection_args c;
     optimizer_args := optimizer_args c; scheduler_args := scheduler_args c;
     train_configs := train_configs c; margin_update := margin_update c |}.

Definition set_projection_args (v : ProjectionArgs) (c : Config) : Config :=
  {| exp_dir := exp_dir c; gpus := gpus c; seed := seed c; model := model c;
     model_init := model_init c; loss := loss c; optimizer := optimizer c;
     scheduler := scheduler c; num_avg := num_avg c;
     dataset_args := dataset_args c; feature_args := feature_args c;
     model_args := model_args c; projection_args := v;
     optimizer_args := optimizer_args c; scheduler_args := scheduler_args c;
     train_configs := train_configs c; margin_update := margin_update c |}.

Definition set_optimizer_args (v : OptimizerArgs) (c : Config) : Config :=
  {| exp_dir := exp_dir c; gpus := gpus c; seed := seed c; model := model c;
     model_init := model_init c; loss := loss c; optimizer := optimizer c;
     scheduler := scheduler c; num_avg := num_avg c;
     dataset_args := dataset_args c; feature_args := feature_args c;
     model_args := model_args c; projection_args := projection_args c;
     optimizer_args := v; scheduler_args := scheduler_args c;
     train_configs := train_configs c; margin_update := margin_update c |}.

Definition set_scheduler_args (v : SchedulerArgs) (c : Config) : Config :=
  {| exp_dir := exp_dir c; gpus := gpus c; seed := seed c; model := model c;
     model_init := model_init c; loss := loss c; optimizer := optimizer c;
     scheduler := scheduler c; num_avg := num_avg c;
     dataset_args := dataset_args c; feature_args := feature_args c;
     model_args := model_args c; projection_args := projection_args c;
     optimizer_args := optimizer_args c; scheduler_args := v;
     train_configs := train_configs c; margin_update := margin_update c |}.

Definition set_train_configs (v : TrainConfigs) (c : Config) : Config :=
  {| exp_dir := exp_dir c; gpus := gpus c; seed := seed c; model := model c;
     model_init := model_init c; loss := loss c; optimizer := optimizer c;
     scheduler := scheduler c; num_avg := num_avg c;
     dataset_args := dataset_args c; feature_args := feature_args c;
     model_args := model_args c; projection_args := projection_args c;
     optimizer_args := optimizer_args c; scheduler_args := scheduler_args c;
     train_configs := v; margin_update := margin_update c |}.

Definition set_margin_update (v : MarginUpdate) (c : Config) : Config :=
  {| exp_dir := exp_dir c; gpus := gpus c; seed := seed c; model := model c;
     model_init := model_init c; loss := loss c; optimizer := optimizer c;
     scheduler := scheduler c; num_avg := num_avg c;
     dataset_args := dataset_args c; feature_args := feature_args c;
     model_args := model_args c; projection_args := projection_args c;
     optimizer_args := optimizer_args c; scheduler_args := scheduler_args c;
     train_configs := train_configs c; margin_update := v |}.

(** Assignments to one key of a sub-dictionary. *)
Definition set_pa_embed_dim (v : Z) (p : ProjectionArgs) : ProjectionArgs :=
  {| pa_embed_dim := Some v; num_class := num_class p |}.

Definition set_num_class (v : Z) (p : ProjectionArgs) : ProjectionArgs :=
  {| pa_embed_dim := pa_embed_dim p; num_class := Some v |}.

(** [p['num_class'] *= k] *)
Definition imul_num_class (k : Z) (p : ProjectionArgs) : ProjectionArgs :=
  {| pa_embed_dim := pa_embed_dim p; num_class := (λ v, v * k) <$> num_class p |}.

Definition set_sa_num_epochs (v : Z) (a : SchedulerArgs) : SchedulerArgs :=
  {| initial_lr := initial_lr a; sa_num_epochs := Some v;
     sa_epoch_iter := sa_epoch_iter a; process_num := process_num a |}.

Definition set_sa_epoch_iter (v : Z) (a : SchedulerArgs) : SchedulerArgs :=
  {| initial_lr := initial_lr a; sa_num_epochs := sa_num_epochs a;
     sa_epoch_iter := Some v; process_num := process_num a |}.

Definition set_process_num (v : Z) (a : SchedulerArgs) : SchedulerArgs :=
  {| initial_lr := initial_lr a; sa_num_epochs := sa_num_epochs a;
     sa_epoch_iter := sa_epoch_iter a; process_num := Some v |}.

Definition set_num_epochs (v : Z) (t : TrainConfigs) : TrainConfigs :=
  {| num_epochs := v; log_batch_interval := log_batch_interval t;
     save_epoch_interval := save_epoch_interval t |}.

(** ** Events of a process *)

(** The calls the script makes into code it does not define, with the
    arguments that depend on the script's own computations. *)
Inductive call :=
| parse_config_or_kwargs (config : string)
| init_process_group (backend : string)
| makedirs (path : string)
| barrier
| genlogger (dir name : string)
| set_seed (s : Z)
| read_scp (path : string)
| FeatList_LableDict_Dataset (fa : FeatureArgs) (da : DatasetArgs)
| DistributedSampler
| DataLoader
| build_model (name : string) (ma : ModelArgs)
| load_checkpoint (path : string)
| get_projection (pa : ProjectionArgs)
| add_module (name : string)
| cuda
| DistributedDataParallel
| device (name : string)
| build_criterion (name : string)
| build_optimizer (name : string) (oa : OptimizerArgs)
| build_scheduler (name : string) (sa : SchedulerArgs)
| MarginScheduler (mu : MarginUpdate)
| open_w (path : string)
| yaml_dump (c : Config)
| file_write (data : string)
| set_epoch (epoch : Z)
| runepoch (epoch : Z) (log_interval : Z)
| save_checkpoint (path : string)
| symlink (src dst : string).

Inductive event :=
| Ext (c : call) (raised : option Py.exn)
| Getenv (key : string)
| Setenv (key value : string)
| Print (msg : string)
| Log (msg : string).

(** ** The world a process runs in *)

Record World := {
  (** [os.environ] at start *)
  w_environ : gmap string string;
  (** the paths that exist at start *)
  w_exists : string → bool;
  (** what [parse_config_or_kwargs] returns *)
  w_configs : Config;
  (** whether a call raises, given everything the process did before *)
  w_raises : list event → call → option Py.exn;
  (** the [utt value] lines [read_scp] returns for a file *)
  w_scp : string → list (string * string);
  (** [len(train_dataloader)] *)
  w_epoch_iter : Z;
  (** the lines of [pformat(configs)] and of [pformat(model)] *)
  w_pformat_configs : Config → list string;
  w_pformat_model : list string;
  (** the lines of [tp.header(header, ...)] and [tp.bottom(...)] *)
  w_tp_header : list string;
  w_tp_bottom : string;
  (** the text [yaml.dump(configs)] returns *)
  w_yaml : Config → string }.

Record State := {
  trace : list event;
  environ : gmap string string }.

Inductive res (A : Type) :=
| Ok (a : A)
| Raise (e : Py.exn).
Arguments Ok {A} a.
Arguments Raise {A} e.

(** How one run of the script ends. *)
Inductive outcome :=
| Returned
| Raised (e : Py.exn).

Definition outcome_of {A} (r : res A) : outcome :=
  match r with Ok _ => Returned | Raise e => Raised e end.

(** Modelled from the spec: [spk2id] (wenet_speaker/utils/utils.py) is not
    among the sources.  It gives every distinct speaker of the label list an
    id, so that [len(spk2id_dict)] is the number of distinct speakers in the
    label file. *)
Definition spk2id (utt_spk_list : list (string * string)) : gmap string Z :=
  list_to_map (imap (λ i spk, (spk, Z.of_nat i)) (remove_dups (utt_spk_list.*2))).

Definition len {A} (l : list A) : Z := Z.of_nat (length l).
Definition dict_len {V} (d : gmap string V) : Z := Z.of_nat (size d).

(** ** The process monad: state, exceptions and the event trace *)

Definition M (A : Type) : Type := State → res A * State.

Definition ret {A} (a : A) : M A := λ s, (Ok a, s).

Definition bind {A B} (m : M A) (k : A → M B) : M B :=
  λ s, match m s with
       | (Ok a, s') => k a s'
       | (Raise e, s') => (Raise e, s')
       end.

Declare Scope proc_scope.
Delimit Scope proc_scope with proc.
Notation "x <- m ;; k" := (bind m (λ x, k))
  (at level 100, m at next level, right associativity) : proc_scope.
Notation "m ;; k" := (bind m (λ _, k))
  (at level 100, right associativity) : proc_scope.
Local Open Scope proc_scope.

Definition raise {A} (e : Py.exn) : M A := λ s, (Raise e, s).

Definition emit_state (ev : event) (s : State) : State :=
  {| trace := trace s ++ [ev]; environ := environ s |}.

Definition emit (ev : event) : M unit := λ s, (Ok tt, emit_state ev s).

(** [option] results of the built-ins, turned into the exception they stand
    for. *)
Definition or_raise {A} (o : option A) (e : Py.exn) : M A :=
  match o with
  | Some a => ret a
  | None => raise e
  end.

(** The result of a built-in that names its exception. *)
Definition result {A} (r : Py.exn + A) : M A :=
  match r with
  | inr a => ret a
  | inl e => raise e
  end.

(** [if b: m] *)
Definition when (b : bool) (m : M unit) : M unit :=
  if b then m else ret tt.

(** [try: m except IOError: h] *)
Definition try_except_IOError (m : M unit) (h : M unit) : M unit :=
  λ s, match m s with
       | (Ok a, s') => (Ok a, s')
       | (Raise e, s') => if Py.isinstance_IOError e then h s' else (Raise e, s')
       end.

(** [for x in l: body] *)
Fixpoint for_each {A} (l : list A) (body : A → M unit) : M unit :=
  match l with
  | [] => ret tt
  | x :: l' => body x ;; for_each l' body
  end.

(** [exit(code)] raises [SystemExit]. *)
Definition exit (code : Z) : M unit := raise (Py.SystemExit code).

Definition print (msg : string) : M unit := emit (Print msg).

(** [logger.info(msg)] *)
Definition logger_info (msg : string) : M unit := emit (Log msg).

Section Process.

Variable w : World.

(** A call into the framework: it is recorded, and raises when the world
    says so. *)
Definition ext (c : call) : M unit :=
  λ s, match w_raises w (trace s) c with
       | None => (Ok tt, emit_state (Ext c None) s)
       | Some e => (Raise e, emit_state (Ext c (Some e)) s)
       end.

(** [os.environ[key]] *)
Definition os_environ_get (key : string) : M string :=
  emit (Getenv key) ;;
  λ s, match environ s !! key with
       | Some v => (Ok v, s)
       | None => (Raise (Py.Err Py.KeyError key), s)
       end.

(** [os.environ[key] = value] *)
Definition os_environ_set (key value : string) : M unit :=
  λ s, (Ok tt, {| trace := trace s ++ [Setenv key value];
                  environ := <[key := value]> (environ s) |}).

(** [os.makedirs(path)]: fails when the path exists. *)
Definition os_makedirs (path : string) : M unit :=
  if w_exists w path
  then (λ s, let e := Py.Err Py.FileExistsError path in
             (Raise e, emit_state (Ext (makedirs path) (Some e)) s))
  else ext (makedirs path).

Definition int (s : string) : M Z :=
  or_raise (Py.int_of_str s) (Py.Err Py.ValueError s).

(** The dictionary comprehension of line 73: one entry after the other,
    [KeyError] ([None]) when a speaker has no id. *)
Definition add_utt (spk2id_dict : gmap string Z) (acc : option (gmap string Z))
    (utt_spk : string * string) : option (gmap string Z) :=
  match acc, spk2id_dict !! utt_spk.2 with
  | Some d, Some i => Some (<[utt_spk.1 := i]> d)
  | _, _ => None
  end.

Definition utt2spkid (spk2id_dict : gmap string Z)
    (utt_spk_list : list (string * string)) : option (gmap string Z) :=
  foldl (add_utt spk2id_dict) (Some ∅) utt_spk_list.

(** The assignments to [configs] of lines 79, 96-99, 116, 123-126 and
    132. *)
Definition with_feat_dim (c : Config) : Config :=
  set_feature_args {| fa_feat_dim := Some (feat_dim (model_args c)) |} c.

Definition with_projection (n_spk : Z) (c : Config) : Config :=
  let c := set_projection_args
             (set_pa_embed_dim (embed_dim (model_args c)) (projection_args c)) c in
  let c := set_projection_args (set_num_class n_spk (projection_args c)) c in
  if speed_perturb (dataset_args c)
  then set_projection_args (imul_num_class 3 (projection_args c)) c
  else c.

Definition with_lr (c : Config) : Config :=
  set_optimizer_args {| lr := Some (initial_lr (scheduler_args c)) |} c.

Definition with_schedule (n world_size : Z) (c : Config) : Config :=
  let c := set_train_configs (set_num_epochs n (train_configs c)) c in
  let c := set_scheduler_args
             (set_sa_num_epochs (num_epochs (train_configs c)) (scheduler_args c)) c in
  let c := set_scheduler_args
             (set_sa_epoch_iter (w_epoch_iter w) (scheduler_args c)) c in
  set_scheduler_args (set_process_num world_size (scheduler_args c)) c.

Definition with_margin (c : Config) : Config :=
  set_margin_update {| mu_epoch_iter := Some (w_epoch_iter w) |} c.

(** Line 123: [int(num_epochs / (1.0 - aug_prob))], or the exception it
    raises. *)
Definition line_123 (configs : Config) : Py.exn + Z :=
  match Py.truediv (num_epochs (train_configs configs))
                   (Py.fsub Py.float_one (aug_prob (dataset_args configs))) with
  | inl e => inl e
  | inr q => Py.int_of_float q
  end.

(** The number of epochs line 123 stores, when it does not raise. *)
Definition scaled_num_epochs (configs : Config) : option Z :=
  match line_123 configs with
  | inr n => Some n
  | inl _ => None
  end.

(** Line 159: the condition under which rank 0 saves after an epoch. *)
Definition save_condition (configs : Config) (epoch : Z) : option bool :=
  (λ r, (r =? 0) || (num_epochs (train_configs configs) - num_avg configs <=? epoch))
    <$> Py.mod_ epoch (save_epoch_interval (train_configs configs)).

Definition checkpoint_name (epoch : Z) : string :=
  "model_" ++ Py.str epoch ++ ".pt".

(** Lines 153-160: one iteration of the epoch loop. *)
Definition epoch_body (configs : Config) (rank : Z) (model_dir : string)
    (epoch : Z) : M unit :=
  ext (set_epoch epoch) ;;
  ext (runepoch epoch (log_batch_interval (train_configs configs))) ;;
  when (rank =? 0)
    (save <- or_raise (save_condition configs epoch)
                      (Py.Err Py.ZeroDivisionError "integer division or modulo by zero") ;;
     when save
       (ext (save_checkpoint (Py.path_join model_dir (checkpoint_name epoch))))).

(** [train(config, **kwargs)], statement by statement; the numbers are the
    lines of train.py. *)
Definition train (config : string) : M unit :=
  (* 30 *)
  ext (parse_config_or_kwargs config) ;;
  let configs := w_configs w in
  (* 33-37 *)
  rank_str <- os_environ_get "LOCAL_RANK" ;;
  rank <- int rank_str ;;
  world_size_str <- os_environ_get "WORLD_SIZE" ;;
  world_size <- int world_size_str ;;
  gpu <- or_raise (Py.index (gpus configs) rank)
                  (Py.Err Py.IndexError "list index out of range") ;;
  os_environ_set "CUDA_VISIBLE_DEVICES" (Py.str gpu) ;;
  ext (init_process_group "nccl") ;;
  (* 39-46 *)
  let model_dir := Py.path_join (exp_dir configs) "models" in
  when (rank =? 0)
    (try_except_IOError
       (os_makedirs model_dir)
       (print (model_dir ++ " already exists !!!") ;; exit 1)) ;;
  ext barrier ;;
  (* 48-57 *)
  ext (genlogger (exp_dir configs) "train.log") ;;
  when (1 <? world_size)
    (logger_info ("training on multiple gpus, this gpu " ++ Py.str gpu)) ;;
  when (rank =? 0)
    (logger_info ("exp_dir is: " ++ exp_dir configs) ;;
     logger_info "<== Passed Arguments ==>" ;;
     for_each (w_pformat_configs w configs) logger_info) ;;
  (* 60 *)
  ext (set_seed (seed configs + rank)) ;;
  (* 63-68 *)
  ext (read_scp (train_scp (dataset_args configs))) ;;
  let train_utt_wav_list := w_scp w (train_scp (dataset_args configs)) in
  when (rank =? 0)
    (logger_info "<== Feature ==>" ;;
     logger_info ("train wav/feat num: " ++ Py.str (len train_utt_wav_list))) ;;
  (* 71-76 *)
  ext (read_scp (train_label (dataset_args configs))) ;;
  let train_utt_spk_list := w_scp w (train_label (dataset_args configs)) in
  let spk2id_dict := spk2id train_utt_spk_list in
  train_utt2spkid_dict <-
    or_raise (utt2spkid spk2id_dict train_utt_spk_list)
             (Py.Err Py.KeyError "spk") ;;
  when (rank =? 0)
    (logger_info "<== Labels ==>" ;;
     logger_info ("train label num: " ++ Py.str (dict_len train_utt2spkid_dict)
                  ++ ", spk num: " ++ Py.str (dict_len spk2id_dict))) ;;
  (* 79-85 *)
  let configs := with_feat_dim configs in
  ext (FeatList_LableDict_Dataset (feature_args configs) (dataset_args configs)) ;;
  ext DistributedSampler ;;
  ext DataLoader ;;
  when (rank =? 0)
    (logger_info "<== Dataloaders ==>" ;;
     logger_info "train dataloaders created") ;;
  (* 88-101 *)
  logger_info "<== Model ==>" ;;
  ext (build_model (model configs) (model_args configs)) ;;
  configs <-
    match model_init configs with
    | Some path =>
        logger_info ("Load intial model from " ++ path) ;;
        ext (load_checkpoint path) ;;
        ret configs
    | None =>
        logger_info "Train model from scratch..." ;;
        let configs := with_projection (dict_len spk2id_dict) configs in
        ext (get_projection (projection_args configs)) ;;
        ext (add_module "projection") ;;
        ret configs
    end ;;
  (* 102-104 *)
  when (rank =? 0) (for_each (w_pformat_model w) logger_info) ;;
  (* 107-114 *)
  ext cuda ;;
  ext DistributedDataParallel ;;
  ext (device "cuda") ;;
  ext (build_criterion (loss configs)) ;;
  when (rank =? 0)
    (logger_info "<== Loss ==>" ;;
     logger_info ("loss criterion is: " ++ loss configs)) ;;
  (* 116-120 *)
  let configs := with_lr configs in
  ext (build_optimizer (optimizer configs) (optimizer_args configs)) ;;
  when (rank =? 0)
    (logger_info "<== Optimizer ==>" ;;
     logger_info ("optimizer is: " ++ optimizer configs)) ;;
  (* 122-130 *)
  n <- result (line_123 configs) ;;
  let configs := with_schedule n world_size configs in
  ext (build_scheduler (scheduler configs) (scheduler_args configs)) ;;
  when (rank =? 0)
    (logger_info "<== Scheduler ==>" ;;
     logger_info ("scheduler is: " ++ scheduler configs)) ;;
  (* 132-135 *)
  let configs := with_margin configs in
  ext (MarginScheduler (margin_update configs)) ;;
  when (rank =? 0) (logger_info "<== MarginScheduler ==>") ;;
  (* 138-142 *)
  when (rank =? 0)
    (ext (open_w (Py.path_join (exp_dir configs) "config.yaml")) ;;
     ext (yaml_dump configs) ;;
     ext (file_write (w_yaml w configs))) ;;
  (* 145-151 *)
  ext barrier ;;
  when (rank =? 0)
    (logger_info "<========== Training process ==========>" ;;
     for_each (w_tp_header w) logger_info) ;;
  ext barrier ;;
  (* 153-160 *)
  for_each (Py.range 1 (num_epochs (train_configs configs) + 1))
    (epoch_body configs rank model_dir) ;;
  (* 162-164 *)
  when (rank =? 0)
    (ext (symlink (checkpoint_name (num_epochs (train_configs configs)))
                  (Py.path_join model_dir "final_model.pt")) ;;
     logger_info (w_tp_bottom w)).

Definition init_state : State := {| trace := []; environ := w_environ w |}.

(** One run of the script in the world [w]. *)
Definition run (config : string) : outcome * list event :=
  let (r, s) := train config init_state in (outcome_of r, trace s).

End Process.

(** ** The schedule of a process

    What a process does depends on the world in two ways: through the data
    it reads (environment, configuration, label file), and through the calls
    that raise.  The first fixes a list of [action]s, the _schedule_; the
    second only decides where along the schedule the run stops.  [schedule]
    is derived from [train] ([train_schedule] below proves that running it is
    running [train]), and the properties of runs are read off it. *)

Inductive action :=
| Do (c : call)
| Info (msg : string)
| ReadEnv (key : string)
| SetEnv (key value : string)
| Fail (e : Py.exn)
| MkdirOrExit (path : string).

Definition exists_msg (path : string) : string := path ++ " already exists !!!".

Section Schedule.

Variable w : World.

Definition act (a : action) : M unit :=
  match a with
  | Do c => ext w c
  | Info msg => logger_info msg
  | ReadEnv key => emit (Getenv key)
  | SetEnv key value => os_environ_set key value
  | Fail e => raise e
  | MkdirOrExit path =>
      try_except_IOError (os_makedirs w path) (print (exists_msg path) ;; exit 1)
  end.

Definition exec (l : list action) : M unit := for_each l act.

Definition zero_division (what : string) : Py.exn := Py.Err Py.ZeroDivisionError what.

Definition epoch_actions (configs : Config) (rank : Z) (model_dir : string)
    (epoch : Z) : list action :=
  [Do (set_epoch epoch);
   Do (runepoch epoch (log_batch_interval (train_configs configs)))] ++
  (if rank =? 0 then
     match save_condition configs epoch with
     | None => [Fail (zero_division "integer division or modulo by zero")]
     | Some true =>
         [Do (save_checkpoint (Py.path_join model_dir (checkpoint_name epoch)))]
     | Some false => []
     end
   else []).

Definition on_rank0 {A} (rank : Z) (l : list A) : list A :=
  if rank =? 0 then l else [].

Definition model_dir_of (c : Config) : string := Py.path_join (exp_dir c) "models".

(** Lines 36-46: up to the first barrier. *)
Definition startup (rank gpu : Z) : list action :=
  let configs := w_configs w in
  [SetEnv "CUDA_VISIBLE_DEVICES" (Py.str gpu); Do (init_process_group "nccl")] ++
  on_rank0 rank [MkdirOrExit (model_dir_of configs)].

(** Lines 46-71: the first barrier, logging, seed and the two list
    files. *)
Definition read_data (rank world_size gpu : Z) : list action :=
  let configs := w_configs w in
  [Do barrier; Do (genlogger (exp_dir configs) "train.log")] ++
  (if 1 <? world_size
   then [Info ("training on multiple gpus, this gpu " ++ Py.str gpu)] else []) ++
  on_rank0 rank
    ([Info ("exp_dir is: " ++ exp_dir configs); Info "<== Passed Arguments ==>"] ++
     map Info (w_pformat_configs w configs)) ++
  [Do (set_seed (seed configs + rank));
   Do (read_scp (train_scp (dataset_args configs)))] ++
  on_rank0 rank
    [Info "<== Feature ==>";
     Info ("train wav/feat num: " ++
           Py.str (len (w_scp w (train_scp (dataset_args configs)))))] ++
  [Do (read_scp (train_label (dataset_args configs)))].

(** Lines 74-120: dataset, model, loss and optimizer. *)
Definition build (rank : Z) (spk2id_dict train_utt2spkid_dict : gmap string Z)
    : list action :=
  let c1 := with_feat_dim (w_configs w) in
  let c2 := match model_init c1 with
            | Some _ => c1
            | None => with_projection (dict_len spk2id_dict) c1
            end in
  let c3 := with_lr c2 in
  on_rank0 rank
    [Info "<== Labels ==>";
     Info ("train label num: " ++ Py.str (dict_len train_utt2spkid_dict)
           ++ ", spk num: " ++ Py.str (dict_len spk2id_dict))] ++
  [Do (FeatList_LableDict_Dataset (feature_args c1) (dataset_args c1));
   Do DistributedSampler; Do DataLoader] ++
  on_rank0 rank [Info "<== Dataloaders ==>"; Info "train dataloaders created"] ++
  [Info "<== Model ==>"; Do (build_model (model c1) (model_args c1))] ++
  match model_init c1 with
  | Some path => [Info ("Load intial model from " ++ path); Do (load_checkpoint path)]
  | None => [Info "Train model from scratch..."; Do (get_projection (projection_args c2));
             Do (add_module "projection")]
  end ++
  on_rank0 rank (map Info (w_pformat_model w)) ++
  [Do cuda; Do DistributedDataParallel; Do (device "cuda");
   Do (build_criterion (loss c2))] ++
  on_rank0 rank [Info "<== Loss ==>"; Info ("loss criterion is: " ++ loss c2)] ++
  [Do (build_optimizer (optimizer c3) (optimizer_args c3))] ++
  on_rank0 rank [Info "<== Optimizer ==>"; Info ("optimizer is: " ++ optimizer c3)].

(** The configuration at line 122. *)
Definition configs_at_122 (spk2id_dict : gmap string Z) : Config :=
  let c1 := with_feat_dim (w_configs w) in
  with_lr (match model_init c1 with
           | Some _ => c1
           | None => with_projection (dict_len spk2id_dict) c1
           end).

(** Lines 127-151: schedulers, the saved configuration and the two
    barriers around the table header; [c] is the configuration after line
    126. *)
Definition schedulers (rank : Z) (c : Config) : list action :=
  let c' := with_margin w c in
  [Do (build_scheduler (scheduler c) (scheduler_args c))] ++
  on_rank0 rank [Info "<== Scheduler ==>"; Info ("scheduler is: " ++ scheduler c)] ++
  [Do (MarginScheduler (margin_update c'))] ++
  on_rank0 rank [Info "<== MarginScheduler ==>"] ++
  on_rank0 rank
    [Do (open_w (Py.path_join (exp_dir c') "config.yaml"));
     Do (yaml_dump c'); Do (file_write (w_yaml w c'))] ++
  [Do barrier] ++
  on_rank0 rank
    ([Info "<========== Training process ==========>"] ++ map Info (w_tp_header w)) ++
  [Do barrier].

(** Lines 153-160; [c] is the final configuration. *)
Definition epochs (rank : Z) (model_dir : string) (c : Config) : list action :=
  flat_map (epoch_actions c rank model_dir)
           (Py.range 1 (num_epochs (train_configs c) + 1)).

(** Lines 162-164. *)
Definition finish (rank : Z) (model_dir : string) (c : Config) : list action :=
  on_rank0 rank
    [Do (symlink (checkpoint_name (num_epochs (train_configs c)))
                 (Py.path_join model_dir "final_model.pt"));
     Info (w_tp_bottom w)].

(** From the first barrier on, for a process that read its rank, world
    size and device. *)
Definition after_startup (rank world_size gpu : Z) : list action :=
  let spk2id_dict := spk2id (w_scp w (train_label (dataset_args (w_configs w)))) in
  read_data rank world_size gpu ++
  match utt2spkid spk2id_dict (w_scp w (train_label (dataset_args (w_configs w)))) with
  | None => [Fail (Py.Err Py.KeyError "spk")]
  | Some train_utt2spkid_dict =>
      build rank spk2id_dict train_utt2spkid_dict ++
      match line_123 (configs_at_122 spk2id_dict) with
      | inl e => [Fail e]
      | inr n =>
          let c := with_schedule w n world_size (configs_at_122 spk2id_dict) in
          let c' := with_margin w c in
          schedulers rank c ++
          epochs rank (model_dir_of (w_configs w)) c' ++
          finish rank (model_dir_of (w_configs w)) c'
      end
  end.

(** Lines 33-35: what the process reads of its environment. *)
Definition env_int (key : string) : option (option Z) :=
  Py.int_of_str <$> (w_environ w !! key).

Definition schedule (config : string) : list action :=
  [Do (parse_config_or_kwargs config); ReadEnv "LOCAL_RANK"] ++
  match w_environ w !! "LOCAL_RANK" with
  | None => [Fail (Py.Err Py.KeyError "LOCAL_RANK")]
  | Some rank_str =>
      match Py.int_of_str rank_str with
      | None => [Fail (Py.Err Py.ValueError rank_str)]
      | Some rank =>
          [ReadEnv "WORLD_SIZE"] ++
          match w_environ w !! "WORLD_SIZE" with
          | None => [Fail (Py.Err Py.KeyError "WORLD_SIZE")]
          | Some world_size_str =>
              match Py.int_of_str world_size_str with
              | None => [Fail (Py.Err Py.ValueError world_size_str)]
              | Some world_size =>
                  match Py.index (gpus (w_configs w)) rank with
                  | None => [Fail (Py.Err Py.IndexError "list index out of range")]
                  | Some gpu =>
                      startup rank gpu ++ after_startup rank world_size gpu
                  end
              end
          end
      end
  end.

End Schedule.

(** ** Runs against the schedule *)

(** The event an action leaves when it completes. *)
Definition done_event (a : action) : option event :=
  match a with
  | Do c => Some (Ext c None)
  | Info msg => Some (Log msg)
  | ReadEnv key => Some (Getenv key)
  | SetEnv key value => Some (Setenv key value)
  | Fail _ => None
  | MkdirOrExit path => Some (Ext (makedirs path) None)
  end.

Definition events_of (l : list action) : list event := omap done_event l.

(** The call an action makes into the framework, if any. *)
Definition action_call (a : action) : option call :=
  match a with
  | Do c => Some c
  | MkdirOrExit path => Some (makedirs path)
  | _ => None
  end.

Definition sched_calls (l : list action) : list call := omap action_call l.

Definition call_of (ev : event) : option call :=
  match ev with
  | Ext c _ => Some c
  | _ => None
  end.

(** The calls of a trace, in order, whether they returned or raised. *)
Definition calls (tr : list event) : list call := omap call_of tr.

Section Runs.

Variable w : World.

(** [m] does what the actions [l] do, from every state; [runs_env] from
    the states in which [os.environ] is still [E]. *)
Definition runs_as (m : M unit) (l : list action) : Prop :=
  ∀ s, m s = exec w l s.

Definition runs_env (E : gmap string string) (m : M unit) (l : list action) : Prop :=
  ∀ s, environ s = E → m s = exec w l s.

(** An action the run can get past. *)
Definition passable (a : action) : Prop :=
  match a with
  | Fail _ => False
  | MkdirOrExit path => w_exists w path = false
  | _ => True
  end.

(** [Stops l o tail]: a run that has the actions [l] left ends with outcome
    [o] after the events [tail]. *)
Inductive Stops : list action → outcome → list event → Prop :=
| stops_end : Stops [] Returned []
| stops_raise c e l : Stops (Do c :: l) (Raised e) [Ext c (Some e)]
| stops_fail e l : Stops (Fail e :: l) (Raised e) []
| stops_mkdir_raise path e l :
    Py.isinstance_IOError e = false →
    w_exists w path = false →
    Stops (MkdirOrExit path :: l) (Raised e) [Ext (makedirs path) (Some e)]
| stops_mkdir_exit path e l :
    Py.isinstance_IOError e = true →
    (w_exists w path = true → e = Py.Err Py.FileExistsError path) →
    Stops (MkdirOrExit path :: l) (Raised (Py.SystemExit 1))
          [Ext (makedirs path) (Some e); Print (exists_msg path)].

(** What the process reads at lines 33-35. *)
Definition rank_of : option Z := w_environ w !! "LOCAL_RANK" ≫= Py.int_of_str.

Definition world_size_of : option Z := w_environ w !! "WORLD_SIZE" ≫= Py.int_of_str.

Definition gpu_of : option Z := rank_of ≫= Py.index (gpus (w_configs w)).

(** The speakers of the label file and their number. *)
Definition speakers : list string :=
  remove_dups ((w_scp w (train_label (dataset_args (w_configs w)))).*2).

Definition spk2id_dict : gmap string Z :=
  spk2id (w_scp w (train_label (dataset_args (w_configs w)))).

(** [configs] when the epoch loop starts: [n] is the [num_epochs] of line
    123. *)
Definition final_configs (world_size n : Z) : Config :=
  with_margin w (with_schedule w n world_size (configs_at_122 w spk2id_dict)).

Definition model_dir : string := model_dir_of (w_configs w).

Definition checkpoint_path (epoch : Z) : string :=
  Py.path_join model_dir (checkpoint_name epoch).

(** Whether line 159 holds for [epoch], with the [num_epochs] [n] of line
    123; [false] also when the modulus fails. *)
Definition save_due (n epoch : Z) : bool :=
  match Py.mod_ epoch (save_epoch_interval (train_configs (w_configs w))) with
  | Some r => (r =? 0) || (n - num_avg (w_configs w) <=? epoch)
  | None => false
  end.

(** The calls of one iteration, of the loop, and of the whole script up to
    the loop. *)
Definition epoch_calls (rank n epoch : Z) : list call :=
  [set_epoch epoch;
   runepoch epoch (log_batch_interval (train_configs (w_configs w)))] ++
  (if (rank =? 0) && save_due n epoch
   then [save_checkpoint (checkpoint_path epoch)] else []).

Definition loop_calls (rank n : Z) : list call :=
  flat_map (epoch_calls rank n) (Py.range 1 (n + 1)).

Definition data_calls (rank : Z) : list call :=
  let c := w_configs w in
  [barrier; genlogger (exp_dir c) "train.log"; set_seed (seed c + rank);
   read_scp (train_scp (dataset_args c)); read_scp (train_label (dataset_args c))].

Definition build_calls : list call :=
  let c1 := with_feat_dim (w_configs w) in
  let c2 := match model_init c1 with
            | Some _ => c1
            | None => with_projection (dict_len spk2id_dict) c1
            end in
  let c3 := with_lr c2 in
  [FeatList_LableDict_Dataset (feature_args c1) (dataset_args c1);
   DistributedSampler; DataLoader; build_model (model c1) (model_args c1)] ++
  match model_init c1 with
  | Some path => [load_checkpoint path]
  | None => [get_projection (projection_args c2); add_module "projection"]
  end ++
  [cuda; DistributedDataParallel; device "cuda"; build_criterion (loss c2);
   build_optimizer (optimizer c3) (optimizer_args c3)].

Definition scheduler_calls (rank world_size n : Z) : list call :=
  let c := with_schedule w n world_size (configs_at_122 w spk2id_dict) in
  let c' := final_configs world_size n in
  [build_scheduler (scheduler c) (scheduler_args c); MarginScheduler (margin_update c')] ++
  on_rank0 rank
    [open_w (Py.path_join (exp_dir c') "config.yaml"); yaml_dump c';
     file_write (w_yaml w c')] ++
  [barrier; barrier].

Definition final_calls (rank n : Z) : list call :=
  on_rank0 rank [symlink (checkpoint_name n) (Py.path_join model_dir "final_model.pt")].

(** The calls up to the epoch loop. *)
Definition setup_calls (config : string) (rank world_size n : Z) : list call :=
  [parse_config_or_kwargs config; init_process_group "nccl"] ++
  on_rank0 rank [makedirs model_dir] ++
  data_calls rank ++ build_calls ++ scheduler_calls rank world_size n.

(** The calls a process makes when none raises. *)
Definition call_plan (config : string) : list call :=
  parse_config_or_kwargs config ::
  match rank_of, world_size_of, gpu_of with
  | Some rank, Some world_size, Some _ =>
      [init_process_group "nccl"] ++ on_rank0 rank [makedirs model_dir] ++
      data_calls rank ++ build_calls ++
      match scaled_num_epochs (w_configs w) with
      | Some n =>
          scheduler_calls rank world_size n ++ loop_calls rank n ++ final_calls rank n
      | None => []
      end
  | _, _, _ => []
  end.

End Runs.

(** ** What a trace shows *)

Definition barrier_passed (ev : event) : bool :=
  match ev with
  | Ext barrier None => true
  | _ => false
  end.

Definition raised_event (ev : event) : bool :=
  match ev with
  | Ext _ (Some _) => true
  | _ => false
  end.

Definition is_barrier (c : call) : bool :=
  match c with
  | barrier => true
  | _ => false
  end.

Definition is_symlink (c : call) : bool :=
  match c with
  | symlink _ _ => true
  | _ => false
  end.


(** The calls of the epoch loop. *)
Definition epoch_call (c : call) : bool :=
  match c with
  | set_epoch _ | runepoch _ _ | save_checkpoint _ => true
  | _ => false
  end.

Definition epoch_event (ev : event) : bool :=
  match ev with
  | Ext c _ => epoch_call c
  | _ => false
  end.

Fixpoint count {A} (p : A → bool) (l : list A) : nat :=
  match l with
  | [] => 0
  | x :: l' => (if p x then 1 else 0) + count p l'
  end.





(** ** Several processes and the barrier

    A process is the trace it would produce if no barrier ever held it up,
    and how much of it it has performed.  A process whose next event is a
    returning [barrier] call waits: the call returns only when every process
    of the group is at a barrier, and then for all of them at once. *)

Record Proc := {
  p_trace : list event;
  p_done : nat }.

Definition performed (p : Proc) : list event := take (p_done p) (p_trace p).

Definition next_event (p : Proc) : option event := p_trace p !! p_done p.

Definition advance (p : Proc) : Proc :=
  {| p_trace := p_trace p; p_done := S (p_done p) |}.

Definition at_barrier (p : Proc) : Prop := next_event p = Some (Ext barrier None).

Inductive group_step : list Proc → list Proc → Prop :=
| step_local ps i p ev :
    ps !! i = Some p →
    next_event p = Some ev →
    barrier_passed ev = false →
    group_step ps (<[i := advance p]> ps)
| step_barrier ps :
    Forall at_barrier ps →
    group_step ps (advance <$> ps).

Definition start (config : string) (w : World) : Proc :=
  {| p_trace := (run w config).2; p_done := 0 |}.

(** The states a group of processes, one per world, can reach. *)
Inductive reachable (config : string) (ws : list World) : list Proc → Prop :=
| reach_start : reachable config ws (start config <$> ws)
| reach_step ps ps' :
    reachable config ws ps → group_step ps ps' → reachable config ws ps'.

Definition began_epoch (p : Proc) : Prop := ∃ ev, ev ∈ performed p ∧ epoch_event ev = true.

(** What holds of every process of a reachable state: it runs the script, and
    has passed [n] barriers. *)
Definition in_step (config : string) (n : nat) (p : Proc) : Prop :=
  count barrier_passed (performed p) = n ∧ ∃ w, p_trace p = (run w config).2.

(** ** Sample worlds *)

Definition sample_configs : Config := {|
  exp_dir := "exp/run1";
  gpus := [0; 1];
  seed := 42;
  model := "ResNet34";
  model_init := None;
  loss := "CrossEntropyLoss";
  optimizer := "SGD";
  scheduler := "ExponentialDecrease";
  num_avg := 1;
  dataset_args := {| train_scp := "data/wav.scp"; train_label := "data/utt2spk";
                     speed_perturb := true; aug_prob := Py.float_zero |};
  feature_args := {| fa_feat_dim := None |};
  model_args := {| feat_dim := 80; embed_dim := 256 |};
  projection_args := {| pa_embed_dim := None; num_class := None |};
  optimizer_args := {| lr := None |};
  scheduler_args := {| initial_lr := 1 # 10; sa_num_epochs := None;
                       sa_epoch_iter := None; process_num := None |};
  train_configs := {| num_epochs := 3; log_batch_interval := 100;
                      save_epoch_interval := 2 |};
  margin_update := {| mu_epoch_iter := None |} |}.

(** The same with another number of epochs, augmentation probability and
    initial model. *)
Definition sample_configs_with (epochs : Z) (aug : Py.float) (init : option string)
    : Config :=
  {| exp_dir := exp_dir sample_configs; gpus := gpus sample_configs;
     seed := seed sample_configs; model := model sample_configs;
     model_init := init; loss := loss sample_configs;
     optimizer := optimizer sample_configs; scheduler := scheduler sample_configs;
     num_avg := num_avg sample_configs;
     dataset_args := {| train_scp := "data/wav.scp"; train_label := "data/utt2spk";
                        speed_perturb := true; aug_prob := aug |};
     feature_args := feature_args sample_configs;
     model_args := model_args sample_configs;
     projection_args := projection_args sample_configs;
     optimizer_args := optimizer_args sample_configs;
     scheduler_args := scheduler_args sample_configs;
     train_configs := {| num_epochs := epochs; log_batch_interval := 100;
                         save_epoch_interval := 2 |};
     margin_update := margin_update sample_configs |}.

(** No call raises. *)
Definition calm : list event → call → option Py.exn := λ _ _, None.

(** The executor runs out of memory in the second epoch. *)
Definition out_of_memory : list event → call → option Py.exn :=
  λ _ c, match c with
         | runepoch 2 _ => Some (Py.Err Py.RuntimeError "CUDA out of memory")
         | _ => None
         end.

(** A process of a two-process group: three utterances of two speakers. *)
Definition sample_world (rank : string) (model_dir_exists : bool) (configs : Config)
    (raises : list event → call → option Py.exn) : World := {|
  w_environ := {[ "LOCAL_RANK" := rank; "WORLD_SIZE" := "2" ]};
  w_exists := λ path, model_dir_exists && String.eqb path "exp/run1/models";
  w_configs := configs;
  w_raises := raises;
  w_scp := λ path, if String.eqb path "data/utt2spk"
                   then [("utt1", "alice"); ("utt2", "bob"); ("utt3", "alice")]
                   else [("utt1", "a.wav"); ("utt2", "b.wav"); ("utt3", "c.wav")];
  w_epoch_iter := 10;
  w_pformat_configs := λ _, ["{...}"];
  w_pformat_model := ["ResNet34(...)"];
  w_tp_header := ["+-------+"; "| Epoch |"; "+-------+"];
  w_tp_bottom := "+-------+";
  w_yaml := λ _, "exp_dir: exp/run1" |}.

Definition rank0_world : World := sample_world "0" false sample_configs calm.
Definition rank1_world : World := sample_world "1" false sample_configs calm.
Definition rank1_out_of_memory : World := sample_world "1" false sample_configs out_of_memory.
Definition rank0_no_epochs : World :=
  sample_world "0" false (sample_configs_with 0 Py.float_zero None) calm.

(** The float [0.7], [0x1.6666666666666p-1]. *)
Definition seven_tenths : Py.float := S754_finite false 6305039478318694 (-53).

Definition rank0_fine_tuning : World :=
  sample_world "0" false
    (sample_configs_with 3 Py.float_zero (Some "exp/run0/models/final_model.pt")) calm.


Definition sample_config_path : string := "conf/config.yaml".

(** ** More of what a trace shows *)


Definition printed (tr : list event) : list string :=
  omap (λ ev, match ev with Print msg => Some msg | _ => None end) tr.

(** The paths that [save_checkpoint] was called with. *)
Definition save_of (c : call) : option string :=
  match c with
  | save_checkpoint path => Some path
  | _ => None
  end.

Definition saved (tr : list event) : list string := omap save_of (calls tr).




(** The file-system calls of the script itself: the model directory, the
    saved configuration, the checkpoints and the symlink.  (The log file is
    the logger's.) *)
Definition writes_files (c : call) : bool :=
  match c with
  | makedirs _ | open_w _ | yaml_dump _ | file_write _
  | save_checkpoint _ | symlink _ _ => true
  | _ => false
  end.

Definition is_fail (a : action) : bool :=
  match a with
  | Fail _ => true
  | _ => false
  end.



(** ** More sample worlds *)

(** [os.makedirs] is refused, though the directory does not exist. *)
Definition permission_denied : list event → call → option Py.exn :=
  λ _ c, match c with
         | makedirs path => Some (Py.Err Py.PermissionError path)
         | _ => None
         end.

Definition rank0_permission_denied : World :=
  sample_world "0" false sample_configs permission_denied.

(** Started without a launcher: no [LOCAL_RANK]. *)
Definition unlaunched_world : World := {|
  w_environ := {[ "WORLD_SIZE" := "2" ]};
  w_exists := w_exists rank0_world;
  w_configs := sample_configs;
  w_raises := calm;
  w_scp := w_scp rank0_world;
  w_epoch_iter := 10;
  w_pformat_configs := w_pformat_configs rank0_world;
  w_pformat_model := w_pformat_model rank0_world;
  w_tp_header := w_tp_header rank0_world;
  w_tp_bottom := w_tp_bottom rank0_world;
  w_yaml := w_yaml rank0_world |}.

Definition misnamed_rank_world : World := sample_world "cuda:0" false sample_configs calm.

(** A third process, with two devices configured. *)
Definition rank2_world : World := sample_world "2" false sample_configs calm.

(** Checkpoints every 0 epochs. *)
Definition rank0_no_interval : World :=
  sample_world "0" false
    (set_train_configs {| num_epochs := 3; log_batch_interval := 100;
                          save_epoch_interval := 0 |} sample_configs) calm.

Definition rank1_fine_tuning : World :=
  sample_world "1" false
    (sample_configs_with 3 Py.float_zero (Some "exp/run0/models/final_model.pt")) calm.

(** A configuration that already has a learning rate for the optimizer. *)
Definition rank1_with_lr : World :=
  sample_world "1" false (set_optimizer_args {| lr := Some (1 # 1000) |} sample_configs) calm.

(** An action that is not a bare [os.makedirs] call: the script calls it
    only inside the [try] of line 41. *)
Definition guarded (a : action) : bool :=
  match a with
  | Do (makedirs _) => false
  | _ => true
  end.

(** * Properties *)

Local Open Scope list_scope.

(** ** Running the schedule is running the script *)

Section Schedule_correct.

Variable w : World.

Lemma exec_app l1 l2 s :
  exec w (l1 ++ l2) s =
  match exec w l1 s with
  | (Ok _, s') => exec w l2 s'
  | (Raise e, s') => (Raise e, s')
  end.
Proof.
  unfold exec. revert s. induction l1 as [|a l1 IH]; intros s; [reflexivity|].
  cbn [for_each app]. unfold bind.
  destruct (act w a s) as [[[]|e] s']; [apply IH | reflexivity].
Qed.

Lemma runs_as_nil : runs_as w (ret tt) [].
Proof. intros s. reflexivity. Qed.

Lemma runs_as_one a : runs_as w (act w a) [a].
Proof.
  intros s. unfold exec. cbn [for_each]. unfold bind, ret.
  destruct (act w a s) as [[[]|e] s']; reflexivity.
Qed.

Lemma runs_as_bind m k l1 l2 :
  runs_as w m l1 → runs_as w (k tt) l2 → runs_as w (bind m k) (l1 ++ l2).
Proof.
  intros H1 H2 s. rewrite exec_app. unfold bind. rewrite H1.
  destruct (exec w l1 s) as [[[]|e] s']; [apply H2 | reflexivity].
Qed.

Lemma runs_as_cons a k l :
  runs_as w (k tt) l → runs_as w (bind (act w a) k) (a :: l).
Proof. intros H. apply (runs_as_bind _ _ [a] l); [apply runs_as_one | exact H]. Qed.

Lemma runs_as_when b m l :
  runs_as w m l → runs_as w (when b m) (if b then l else []).
Proof. intros H. destruct b; [exact H | apply runs_as_nil]. Qed.

Lemma runs_as_infos lines : runs_as w (for_each lines logger_info) (map Info lines).
Proof.
  induction lines as [|m ls IH]; [apply runs_as_nil|].
  cbn [for_each map]. apply (runs_as_cons (Info m)). exact IH.
Qed.

Lemma runs_as_or_raise {A} (o : option A) e (k : A → M unit) (L : A → list action) :
  (∀ x, o = Some x → runs_as w (k x) (L x)) →
  runs_as w (bind (or_raise o e) k)
            (match o with None => [Fail e] | Some x => L x end).
Proof.
  intros H. destruct o as [x|]; [apply H; reflexivity | intros s; reflexivity].
Qed.

Lemma runs_as_result {A} (r : Py.exn + A) (k : A → M unit) (L : A → list action) :
  (∀ x, r = inr x → runs_as w (k x) (L x)) →
  runs_as w (bind (result r) k)
            (match r with inl e => [Fail e] | inr x => L x end).
Proof.
  intros H. destruct r as [e|x]; [intros s; reflexivity | apply H; reflexivity].
Qed.

Lemma runs_as_assoc {A B} (m : M A) (f : A → M B) (g : B → M unit) l :
  runs_as w (bind m (λ x, bind (f x) g)) l → runs_as w (bind (bind m f) g) l.
Proof.
  intros H s. rewrite <- H. unfold bind.
  destruct (m s) as [[x|e] s']; reflexivity.
Qed.

Lemma runs_as_ret {A} (x : A) (k : A → M unit) l :
  runs_as w (k x) l → runs_as w (bind (ret x) k) l.
Proof. intros H s. apply H. Qed.

Lemma runs_as_epoch c rank d e :
  runs_as w (epoch_body w c rank d e) (epoch_actions c rank d e).
Proof.
  unfold epoch_body, epoch_actions.
  apply (runs_as_cons (Do _)). apply (runs_as_cons (Do _)).
  apply runs_as_when.
  destruct (save_condition c e) as [[]|];
    [apply (runs_as_one (Do _)) | |]; intros s; reflexivity.
Qed.

Lemma runs_as_for_each {A} (l : list A) body acts :
  (∀ x, runs_as w (body x) (acts x)) →
  runs_as w (for_each l body) (flat_map acts l).
Proof.
  intros H. induction l as [|x l IH]; [apply runs_as_nil|].
  cbn [for_each flat_map]. apply runs_as_bind; [apply H | exact IH].
Qed.

Lemma runs_env_weaken E m l : runs_as w m l → runs_env w E m l.
Proof. intros H s _. apply H. Qed.

Lemma runs_env_do E c k l :
  runs_env w E (k tt) l → runs_env w E (bind (ext w c) k) (Do c :: l).
Proof.
  intros H s Hs. unfold exec. cbn [for_each act]. unfold bind, ext.
  destruct (w_raises w (trace s) c); [reflexivity|]. apply H. exact Hs.
Qed.

Lemma runs_env_get E key k (L : string → list action) :
  (∀ v, runs_env w E (k v) (L v)) →
  runs_env w E (bind (os_environ_get key) k)
    (ReadEnv key :: match E !! key with
                    | None => [Fail (Py.Err Py.KeyError key)]
                    | Some v => L v
                    end).
Proof.
  intros H s Hs. unfold exec. cbn [for_each act].
  unfold bind, os_environ_get, emit, bind. cbn [environ emit_state]. rewrite Hs.
  destruct (E !! key) as [v|]; [|reflexivity].
  apply (H v). exact Hs.
Qed.

Lemma runs_env_or_raise {A} E (o : option A) e (k : A → M unit) (L : A → list action) :
  (∀ x, runs_env w E (k x) (L x)) →
  runs_env w E (bind (or_raise o e) k)
               (match o with None => [Fail e] | Some x => L x end).
Proof.
  intros H. destruct o as [x|]; [apply H | intros s _; reflexivity].
Qed.

Ltac sched_norm :=
  cbv beta zeta delta [on_rank0];
  rewrite <- ?app_assoc; cbn [app].

Ltac sched_step :=
  sched_norm;
  lazymatch goal with
  | |- runs_as _ (bind (bind _ _) _) _ => apply runs_as_assoc
  | |- runs_as _ (bind (ret _) _) _ => apply runs_as_ret
  | |- runs_as _ (bind (when _ _) _) ((if _ then _ else _) ++ _) =>
      apply runs_as_bind; [apply runs_as_when|]
  | |- runs_as _ (when _ _) (if _ then _ else _) => apply runs_as_when
  | |- runs_as _ (bind (or_raise _ _) _) _ => apply runs_as_or_raise; intros ? ?
  | |- runs_as _ (bind (result _) _) _ => apply runs_as_result; intros ? ?
  | |- runs_as _ (bind (for_each _ logger_info) _) (map Info _ ++ _) =>
      apply runs_as_bind; [apply runs_as_infos|]
  | |- runs_as _ (for_each _ logger_info) (map Info _) => apply runs_as_infos
  | |- runs_as _ (bind (for_each _ (epoch_body _ _ _ _)) _) _ =>
      apply runs_as_bind; [apply runs_as_for_each; intros ?; apply runs_as_epoch|]
  | |- runs_as _ (bind _ _) (?a :: _) => apply (runs_as_cons a)
  | |- runs_as _ _ [?a] => apply (runs_as_one a)
  | |- runs_as _ (ret tt) [] => apply runs_as_nil
  end.

(** The schedule is the script. *)
Lemma train_schedule config :
  train w config (init_state w) = exec w (schedule w config) (init_state w).
Proof.
  cut (runs_env w (w_environ w) (train w config) (schedule w config)).
  { intros H. apply H. reflexivity. }
  unfold train, schedule, int. cbv zeta. cbn [app].
  apply runs_env_do. apply runs_env_get; intros rank_str.
  apply runs_env_or_raise; intros rank.
  apply runs_env_get; intros world_size_str.
  apply runs_env_or_raise; intros world_size.
  apply runs_env_or_raise; intros gpu.
  apply runs_env_weaken.
  unfold startup, after_startup, read_data, build, schedulers, epochs, finish,
    configs_at_122, model_dir_of, exists_msg, zero_division.
  repeat sched_step.
  destruct (model_init (with_feat_dim (w_configs w))) as [path|]; cbv beta iota.
  all: repeat sched_step.
Qed.

(** Every run of a list of actions goes through a prefix of it and stops
    at the next action. *)
Lemma exec_shape l : ∀ s r s',
  exec w l s = (r, s') →
  ∃ l1 l2 tail,
    l = l1 ++ l2 ∧ trace s' = trace s ++ events_of l1 ++ tail ∧
    Stops w l2 (outcome_of r) tail ∧ Forall (passable w) l1.
Proof.
  induction l as [|a l IH]; intros s r s' H.
  - injection H as <- <-. exists [], [], []. rewrite !app_nil_r.
    repeat split; [constructor | constructor].
  - unfold exec in H. cbn [for_each] in H. unfold bind in H.
    assert (Hok : ∀ ev s1, passable w a → done_event a = Some ev →
              trace s1 = trace s ++ [ev] →
              for_each l (act w) s1 = (r, s') →
              ∃ l1 l2 tail,
                a :: l = l1 ++ l2 ∧ trace s' = trace s ++ events_of l1 ++ tail ∧
                Stops w l2 (outcome_of r) tail ∧ Forall (passable w) l1).
    { intros ev s1 Hp Hev Hs1 Hrun.
      destruct (IH _ _ _ Hrun) as (l1 & l2 & tail & -> & Ht & Hs & Hf).
      exists (a :: l1), l2, tail. repeat split; [| exact Hs | by constructor].
      rewrite Ht, Hs1. unfold events_of. simpl. rewrite Hev.
      simpl. by rewrite <- app_assoc. }
    assert (Hexit : ∀ p e, a = MkdirOrExit p → Py.isinstance_IOError e = true →
              (w_exists w p = true → e = Py.Err Py.FileExistsError p) →
              r = Raise (Py.SystemExit 1) →
              trace s' = trace s ++ [Ext (makedirs p) (Some e); Print (exists_msg p)] →
              ∃ l1 l2 tail,
                a :: l = l1 ++ l2 ∧ trace s' = trace s ++ events_of l1 ++ tail ∧
                Stops w l2 (outcome_of r) tail ∧ Forall (passable w) l1).
    { intros p e -> He Hex -> Ht.
      exists [], (MkdirOrExit p :: l), [Ext (makedirs p) (Some e); Print (exists_msg p)].
      repeat split; [exact Ht | by constructor | constructor]. }
    destruct a as [c|msg|key|key value|e|p]; cbn [act] in H.
    + unfold ext in H. destruct (w_raises w (trace s) c) as [e|].
      * injection H as <- <-. exists [], (Do c :: l), [Ext c (Some e)].
        repeat split; constructor.
      * by apply (Hok (Ext c None) (emit_state (Ext c None) s)).
    + by apply (Hok (Log msg) (emit_state (Log msg) s)).
    + by apply (Hok (Getenv key) (emit_state (Getenv key) s)).
    + by eapply (Hok (Setenv key value)); [..|exact H].
    + injection H as <- <-. exists [], (Fail e :: l), [].
      rewrite !app_nil_r. repeat split; constructor.
    + unfold try_except_IOError, os_makedirs, ext, print, exit, bind, emit, raise in H.
      destruct (w_exists w p) eqn:Hex.
      * cbn in H. injection H as <- <-.
        apply (Hexit p (Py.Err Py.FileExistsError p)); [done..|].
        cbn. by rewrite <- app_assoc.
      * destruct (w_raises w (trace s) (makedirs p)) as [e|].
        -- destruct (Py.isinstance_IOError e) eqn:He; injection H as <- <-.
           ++ apply (Hexit p e); [done | done | congruence | done |].
              cbn. by rewrite <- app_assoc.
           ++ exists [], (MkdirOrExit p :: l), [Ext (makedirs p) (Some e)].
              repeat split; [by constructor | constructor].
        -- by apply (Hok (Ext (makedirs p) None) (emit_state (Ext (makedirs p) None) s)).
Qed.

(** The same for a run of the script. *)
Lemma run_shape config o tr :
  run w config = (o, tr) →
  ∃ l1 l2 tail,
    schedule w config = l1 ++ l2 ∧ tr = events_of l1 ++ tail ∧
    Stops w l2 o tail ∧ Forall (passable w) l1.
Proof.
  unfold run. rewrite train_schedule.
  destruct (exec w (schedule w config) (init_state w)) as [r s'] eqn:H.
  intros [= <- <-]. exact (exec_shape _ _ _ _ H).
Qed.

End Schedule_correct.

(** ** What every run looks like *)

Section Run_facts.

Variable w : World.

Lemma events_of_app l1 l2 : events_of (l1 ++ l2) = events_of l1 ++ events_of l2.
Proof. apply omap_app. Qed.

Lemma sched_calls_app l1 l2 : sched_calls (l1 ++ l2) = sched_calls l1 ++ sched_calls l2.
Proof. apply omap_app. Qed.

Lemma calls_app t1 t2 : calls (t1 ++ t2) = calls t1 ++ calls t2.
Proof. apply omap_app. Qed.

Lemma calls_events_of l : calls (events_of l) = sched_calls l.
Proof.
  induction l as [|a l IH]; [reflexivity|].
  destruct a; simpl; unfold calls, events_of, sched_calls in *; simpl; congruence.
Qed.

Lemma In_events_of l ev :
  In ev (events_of l) ↔ ∃ a, In a l ∧ done_event a = Some ev.
Proof.
  unfold events_of. rewrite <- !list_elem_of_In, list_elem_of_omap.
  split; intros (a & Ha & Hev); exists a; by rewrite ?list_elem_of_In in *.
Qed.

(** Completed actions leave no failed call. *)
Lemma events_of_no_failure l c e : ¬ In (Ext c (Some e)) (events_of l).
Proof.
  rewrite In_events_of. intros (a & _ & Ha). by destruct a.
Qed.

Lemma In_sched_calls l c :
  In c (sched_calls l) ↔ ∃ a, In a l ∧ action_call a = Some c.
Proof.
  unfold sched_calls. rewrite <- !list_elem_of_In, list_elem_of_omap.
  split; intros (a & Ha & Hev); exists a; by rewrite ?list_elem_of_In in *.
Qed.

Lemma In_calls tr c : In c (calls tr) ↔ ∃ r, In (Ext c r) tr.
Proof.
  unfold calls. rewrite <- list_elem_of_In, list_elem_of_omap. split.
  - intros ([c' r| | | |] & Hin & [= <-]). exists r. by rewrite <- list_elem_of_In.
  - intros (r & Hin). exists (Ext c r). by rewrite list_elem_of_In.
Qed.

Lemma stops_calls l o tail :
  Stops w l o tail → calls tail `prefix_of` sched_calls l.
Proof.
  destruct 1; unfold calls, sched_calls; simpl;
    first [apply prefix_nil | apply prefix_cons, prefix_nil].
Qed.

Lemma stops_returned l tail : Stops w l Returned tail → l = [] ∧ tail = [].
Proof. inversion 1; auto. Qed.

(** The calls of a run are the first calls of the plan. *)
Lemma run_calls_prefix config o tr :
  run w config = (o, tr) → calls tr `prefix_of` sched_calls (schedule w config).
Proof.
  intros H. destruct (run_shape w _ _ _ H) as (l1 & l2 & tail & -> & -> & Hs & _).
  rewrite calls_app, calls_events_of, sched_calls_app.
  apply prefix_app, (stops_calls _ _ _ Hs).
Qed.

(** A run that returns has gone through the whole schedule. *)
Lemma run_returned config tr :
  run w config = (Returned, tr) →
  tr = events_of (schedule w config) ∧ Forall (passable w) (schedule w config).
Proof.
  intros H. destruct (run_shape w _ _ _ H) as (l1 & l2 & tail & -> & -> & Hs & Hp).
  destruct (stops_returned _ _ Hs) as [-> ->]. by rewrite !app_nil_r.
Qed.

(** A call that raised is the last thing the process did, but for the
    caught [makedirs]. *)
Lemma run_failure config o tr c e :
  run w config = (o, tr) → In (Ext c (Some e)) tr →
  (o = Raised e ∧ ∃ pre, tr = pre ++ [Ext c (Some e)]) ∨
  (∃ path, c = makedirs path ∧ Py.isinstance_IOError e = true ∧
     o = Raised (Py.SystemExit 1) ∧
     ∃ pre, tr = pre ++ [Ext c (Some e); Print (exists_msg path)]).
Proof.
  intros H Hin. destruct (run_shape w _ _ _ H) as (l1 & l2 & tail & _ & -> & Hs & _).
  apply in_app_or in Hin as [Hin|Hin]; [by apply events_of_no_failure in Hin|].
  destruct Hs; simpl in Hin; try done.
  - destruct Hin as [[= <- <-]|[]]. left. split; [done | by eexists].
  - destruct Hin as [[= <- <-]|[]]. left. split; [done | by eexists].
  - destruct Hin as [[= <- <-]|[[=]|[]]]. right. exists path.
    repeat split; [done | by eexists].
Qed.

(** A call that returned belongs to the schedule, and the run got past
    it. *)
Lemma run_success config o tr c :
  run w config = (o, tr) → In (Ext c None) tr →
  ∃ l1 l2 tail, schedule w config = l1 ++ l2 ∧ tr = events_of l1 ++ tail ∧
    Stops w l2 o tail ∧ Forall (passable w) l1 ∧
    ∃ a, In a l1 ∧ action_call a = Some c.
Proof.
  intros H Hin. destruct (run_shape w _ _ _ H) as (l1 & l2 & tail & Hl & -> & Hs & Hp).
  exists l1, l2, tail. repeat split; try done.
  apply in_app_or in Hin as [Hin|Hin].
  - apply In_events_of in Hin as (a & Ha & Hev). exists a. split; [done|].
    destruct a; simpl in *; congruence.
  - destruct Hs; simpl in Hin; intuition discriminate.
Qed.

End Run_facts.

(** ** The label dictionary *)

Lemma imap_keys {A B} (g : nat → B) (k : list A) :
  (imap (λ i x, (x, g i)) k).*1 = k.
Proof.
  revert g. induction k as [|x k IH]; intros g; [done|].
  simpl. f_equal. apply (IH (g ∘ S)).
Qed.

Lemma spk2id_lookup (l : list (string * string)) spk :
  spk ∈ l.*2 → is_Some (spk2id l !! spk).
Proof.
  intros Hin. unfold spk2id.
  destruct (list_to_map _ !! spk) eqn:E; [by eexists|].
  apply not_elem_of_list_to_map in E. rewrite (imap_keys Z.of_nat) in E.
  by rewrite elem_of_remove_dups in E.
Qed.

(** [len(spk2id_dict)] is the number of distinct speakers. *)
Lemma spk2id_len w : dict_len (spk2id_dict w) = len (speakers w).
Proof.
  unfold dict_len, len, spk2id_dict, speakers, spk2id. f_equal.
  rewrite map_size_list_to_map.
  - by rewrite length_imap.
  - rewrite (imap_keys Z.of_nat). apply NoDup_remove_dups.
Qed.

(** Line 73 never raises: every speaker of the list has an id. *)
Lemma utt2spkid_total (l : list (string * string)) : is_Some (utt2spkid (spk2id l) l).
Proof.
  unfold utt2spkid.
  assert (H : ∀ (k : list (string * string)) acc,
             (∀ us, us ∈ k → is_Some (spk2id l !! us.2)) → is_Some acc →
             is_Some (foldl (add_utt (spk2id l)) acc k)).
  { induction k as [|us k IH]; intros acc Hk [d ->]; [by eexists|].
    simpl. destruct (Hk us) as [i Hi]; [by left|].
    change (is_Some (foldl (add_utt (spk2id l)) (add_utt (spk2id l) (Some d) us) k)).
    unfold add_utt at 2. rewrite Hi.
    apply IH; [intros us' Hus'; apply Hk; by right | eexists; reflexivity]. }
  apply H; [|by eexists].
  intros us Hus. apply spk2id_lookup. apply list_elem_of_fmap. by exists us.
Qed.

(** ** The calls of the schedule *)

Section Plan.

Variable w : World.

Lemma sched_calls_infos lines : sched_calls (map Info lines) = [].
Proof. induction lines; [done|]. exact IHlines. Qed.

Lemma sched_calls_on_rank0 rank l :
  sched_calls (on_rank0 rank l) = on_rank0 rank (sched_calls l).
Proof. unfold on_rank0. by destruct (rank =? 0). Qed.

Lemma sched_calls_flat_map {A} (f : A → list action) (g : A → list call) l :
  (∀ x, sched_calls (f x) = g x) → sched_calls (flat_map f l) = flat_map g l.
Proof.
  intros H. induction l as [|x l IH]; [done|].
  simpl. by rewrite sched_calls_app, H, IH.
Qed.

(** The assignments of lines 79-132 leave the keys of the loop alone. *)
Lemma configs_at_122_line_123 d :
  line_123 (configs_at_122 w d) = line_123 (w_configs w).
Proof.
  unfold configs_at_122, with_lr, with_projection, with_feat_dim, line_123.
  destruct (model_init _); [done|]. simpl.
  destruct (speed_perturb (dataset_args (w_configs w))); reflexivity.
Qed.

Lemma configs_at_122_scaled d :
  scaled_num_epochs (configs_at_122 w d) = scaled_num_epochs (w_configs w).
Proof. unfold scaled_num_epochs. by rewrite configs_at_122_line_123. Qed.

(** Line 123 stores [n] exactly when it evaluates to [n]. *)
Lemma scaled_num_epochs_Some c n : scaled_num_epochs c = Some n ↔ line_123 c = inr n.
Proof.
  unfold scaled_num_epochs. destruct (line_123 c); split; intros H; by simplify_eq.
Qed.

Lemma final_configs_num_epochs world_size n :
  num_epochs (train_configs (final_configs w world_size n)) = n.
Proof. done. Qed.

Lemma final_configs_save_condition world_size n epoch :
  save_condition (final_configs w world_size n) epoch =
  (λ r, (r =? 0) || (n - num_avg (w_configs w) <=? epoch))
    <$> Py.mod_ epoch (save_epoch_interval (train_configs (w_configs w))).
Proof.
  unfold save_condition, final_configs, configs_at_122, with_margin, with_schedule,
    with_lr, with_projection, with_feat_dim.
  destruct (model_init _); [done|]. simpl.
  destruct (speed_perturb (dataset_args (w_configs w))); reflexivity.
Qed.

Lemma final_configs_log_interval world_size n :
  log_batch_interval (train_configs (final_configs w world_size n)) =
  log_batch_interval (train_configs (w_configs w)).
Proof.
  unfold final_configs, configs_at_122, with_margin, with_schedule,
    with_lr, with_projection, with_feat_dim.
  destruct (model_init _); [done|]. simpl.
  destruct (speed_perturb (dataset_args (w_configs w))); reflexivity.
Qed.

Lemma sched_calls_epoch rank world_size n epoch :
  sched_calls (epoch_actions (final_configs w world_size n) rank (model_dir w) epoch)
  = epoch_calls w rank n epoch.
Proof.
  unfold epoch_actions, epoch_calls, save_due, checkpoint_path.
  rewrite final_configs_save_condition, final_configs_log_interval.
  destruct (rank =? 0); [|done].
  destruct (Py.mod_ _ _) as [r|]; [|done]. simpl.
  by destruct ((r =? 0) || _).
Qed.

Lemma sched_calls_read_data rank world_size gpu :
  sched_calls (read_data w rank world_size gpu) = data_calls w rank.
Proof.
  unfold read_data, data_calls, on_rank0.
  rewrite !sched_calls_app.
  destruct (1 <? world_size), (rank =? 0);
    rewrite ?sched_calls_app, ?sched_calls_infos; reflexivity.
Qed.

Lemma sched_calls_build rank d :
  sched_calls (build w rank (spk2id_dict w) d) = build_calls w.
Proof.
  unfold build, build_calls, on_rank0.
  rewrite !sched_calls_app.
  destruct (rank =? 0), (model_init (with_feat_dim (w_configs w)));
    rewrite ?sched_calls_infos; reflexivity.
Qed.

Lemma sched_calls_schedulers rank world_size n :
  sched_calls
    (schedulers w rank (with_schedule w n world_size (configs_at_122 w (spk2id_dict w))))
  = scheduler_calls w rank world_size n.
Proof.
  unfold schedulers, scheduler_calls, final_configs, on_rank0.
  rewrite !sched_calls_app.
  destruct (rank =? 0); rewrite ?sched_calls_app, ?sched_calls_infos; reflexivity.
Qed.

Lemma sched_calls_epochs rank world_size n :
  sched_calls (epochs rank (model_dir w) (final_configs w world_size n))
  = loop_calls w rank n.
Proof.
  unfold epochs, loop_calls. rewrite final_configs_num_epochs.
  apply sched_calls_flat_map. intros e. apply sched_calls_epoch.
Qed.

Lemma sched_calls_finish rank world_size n :
  sched_calls (finish w rank (model_dir w) (final_configs w world_size n))
  = final_calls w rank n.
Proof.
  unfold finish, final_calls, on_rank0. by destruct (rank =? 0).
Qed.

Lemma sched_calls_schedule config :
  sched_calls (schedule w config) = call_plan w config.
Proof.
  unfold schedule, call_plan, gpu_of, rank_of, world_size_of, mbind, option_bind.
  destruct (w_environ w !! "LOCAL_RANK") as [rank_str|]; [|done].
  destruct (Py.int_of_str rank_str) as [rank|]; [|reflexivity].
  destruct (w_environ w !! "WORLD_SIZE") as [world_size_str|]; [|reflexivity].
  destruct (Py.int_of_str world_size_str) as [world_size|]; [|reflexivity].
  destruct (Py.index (gpus (w_configs w)) rank) as [gpu|]; [|reflexivity].
  f_equal. unfold startup, after_startup.
  destruct (utt2spkid_total (w_scp w (train_label (dataset_args (w_configs w)))))
    as [d ->].
  rewrite configs_at_122_line_123. unfold scaled_num_epochs.
  change (spk2id (w_scp w (train_label (dataset_args (w_configs w)))))
    with (spk2id_dict w).
  change (model_dir_of (w_configs w)) with (model_dir w).
  rewrite !sched_calls_app, sched_calls_read_data, sched_calls_build, sched_calls_on_rank0.
  cbn [app]. do 2 f_equal. unfold model_dir, model_dir_of. f_equal. f_equal.
  destruct (line_123 (w_configs w)) as [e|n]; [done|].
  change (with_margin w (with_schedule w n world_size (configs_at_122 w (spk2id_dict w))))
    with (final_configs w world_size n).
  by rewrite !sched_calls_app, sched_calls_schedulers, sched_calls_epochs,
    sched_calls_finish.
Qed.

(** The calls of a run are the first calls of the plan. *)
Lemma run_calls_plan config o tr :
  run w config = (o, tr) → calls tr `prefix_of` call_plan w config.
Proof. intros H. rewrite <- sched_calls_schedule. by eapply run_calls_prefix. Qed.

Lemma run_returned_plan config tr :
  run w config = (Returned, tr) → calls tr = call_plan w config.
Proof.
  intros H. destruct (run_returned w _ _ H) as [-> _].
  by rewrite calls_events_of, sched_calls_schedule.
Qed.

Lemma run_call_in_plan config o tr c r :
  run w config = (o, tr) → In (Ext c r) tr → In c (call_plan w config).
Proof.
  intros H Hin. destruct (run_calls_plan _ _ _ H) as [k ->].
  apply in_or_app. left. apply In_calls. by exists r.
Qed.

(** A process that makes any call but the first has read its rank, its
    world size and its device. *)
Lemma plan_reads config c :
  In c (call_plan w config) → c ≠ parse_config_or_kwargs config →
  ∃ rank world_size gpu,
    rank_of w = Some rank ∧ world_size_of w = Some world_size ∧ gpu_of w = Some gpu.
Proof.
  unfold call_plan. intros [->|Hin] Hc; [done|].
  destruct (rank_of w) as [rank|]; [|done].
  destruct (world_size_of w) as [world_size|]; [|done].
  destruct (gpu_of w) as [gpu|]; [|done].
  by exists rank, world_size, gpu.
Qed.

Lemma schedule_reads config rank world_size gpu :
  rank_of w = Some rank → world_size_of w = Some world_size → gpu_of w = Some gpu →
  schedule w config =
    [Do (parse_config_or_kwargs config); ReadEnv "LOCAL_RANK"; ReadEnv "WORLD_SIZE";
     SetEnv "CUDA_VISIBLE_DEVICES" (Py.str gpu); Do (init_process_group "nccl")] ++
    on_rank0 rank [MkdirOrExit (model_dir w)] ++ after_startup w rank world_size gpu.
Proof.
  unfold schedule, gpu_of, rank_of, world_size_of, mbind, option_bind, startup.
  destruct (w_environ w !! "LOCAL_RANK") as [rank_str|]; [|done].
  destruct (Py.int_of_str rank_str) as [rank'|]; [|done].
  destruct (w_environ w !! "WORLD_SIZE") as [world_size_str|]; [|done].
  destruct (Py.int_of_str world_size_str) as [world_size'|]; [|done].
  intros [= ->] [= ->] ->. reflexivity.
Qed.

End Plan.

(** Peeling the first action off a split [l1 ++ l2] of a known list. *)
Ltac peel Hl l1 :=
  destruct l1 as [|? l1]; cbn [app] in Hl; [subst | injection Hl as <- Hl].

(** ** The environment (lines 33-37) *)

(** C5. A process reaches [init_process_group] only after reading
    [LOCAL_RANK] and [WORLD_SIZE] from the environment and parsing both as
    integers: whenever the call is made, the trace starts with the
    configuration load, the two environment reads and the device
    assignment, in this order, and the call comes right after. *)
Theorem C5_rank_and_world_size_from_environment w config o tr r :
  run w config = (o, tr) →
  In (Ext (init_process_group "nccl") r) tr →
  ∃ rank_str world_size_str rank world_size gpu r' rest,
    w_environ w !! "LOCAL_RANK" = Some rank_str ∧ Py.int_of_str rank_str = Some rank ∧
    w_environ w !! "WORLD_SIZE" = Some world_size_str ∧
    Py.int_of_str world_size_str = Some world_size ∧
    Py.index (gpus (w_configs w)) rank = Some gpu ∧
    tr = [Ext (parse_config_or_kwargs config) None; Getenv "LOCAL_RANK";
          Getenv "WORLD_SIZE"; Setenv "CUDA_VISIBLE_DEVICES" (Py.str gpu);
          Ext (init_process_group "nccl") r'] ++ rest.
Proof.
  intros Hrun Hin.
  destruct (plan_reads w config _ (run_call_in_plan w _ _ _ _ _ Hrun Hin))
    as (rank & world_size & gpu & Hr & Hw & Hg); [done|].
  destruct (run_shape w _ _ _ Hrun) as (l1 & l2 & tail & Hl & -> & Hs & _).
  rewrite (schedule_reads w config _ _ _ Hr Hw Hg) in Hl. cbn [app] in Hl.
  assert (∃ rank_str world_size_str,
    w_environ w !! "LOCAL_RANK" = Some rank_str ∧ Py.int_of_str rank_str = Some rank ∧
    w_environ w !! "WORLD_SIZE" = Some world_size_str ∧
    Py.int_of_str world_size_str = Some world_size ∧
    Py.index (gpus (w_configs w)) rank = Some gpu) as (rs & wss & E1 & E2 & E3 & E4 & E5).
  { unfold gpu_of, rank_of, world_size_of, mbind, option_bind in *.
    destruct (w_environ w !! "LOCAL_RANK") as [rs|]; [|done].
    destruct (w_environ w !! "WORLD_SIZE") as [wss|]; [|done].
    rewrite Hr in Hg. by exists rs, wss. }
  exists rs, wss, rank, world_size, gpu. clear Hr Hw Hg.
  peel Hl l1; [inversion Hs; subst; simpl in Hin; intuition discriminate|].
  peel Hl l1; [inversion Hs|].
  peel Hl l1; [inversion Hs|].
  peel Hl l1; [inversion Hs|].
  peel Hl l1.
  - inversion Hs; subst. exists (Some e), []. by repeat split.
  - exists None. eexists. by repeat split.
Qed.

(** ** The model directory (lines 39-46) *)


(** ** Failures (the whole of [train]) *)

(** C7. A call that raises ends the run with that very exception, and is
    the last thing the process does; the one exception is an [OSError] out
    of [os.makedirs], which the handler of lines 43-45 catches. *)
Theorem C7_failures_propagate w config o tr c e :
  run w config = (o, tr) →
  In (Ext c (Some e)) tr →
  ¬ (∃ path, c = makedirs path ∧ Py.isinstance_IOError e = true) →
  o = Raised e ∧ ∃ pre, tr = pre ++ [Ext c (Some e)].
Proof.
  intros Hrun Hin Hnot.
  destruct (run_failure w _ _ _ _ _ Hrun Hin) as [H|(path & -> & He & _)]; [done|].
  destruct Hnot. by exists path.
Qed.

(** ** Traces and plans *)

Section Structure.

Variable w : World.

Lemma events_of_not_raised l : Forall (λ ev, raised_event ev = false) (events_of l).
Proof.
  apply Forall_forall. intros ev Hin. apply list_elem_of_In, In_events_of in Hin.
  destruct Hin as (a & _ & Ha). destruct a; by simplify_eq/=.
Qed.

(** Whatever comes before a call in a trace has not raised. *)
Lemma run_before_call config o tr t1 c r t2 :
  run w config = (o, tr) → tr = t1 ++ Ext c r :: t2 →
  Forall (λ ev, raised_event ev = false) t1.
Proof.
  intros Hrun Htr.
  destruct (run_shape w _ _ _ Hrun) as (l1 & l2 & tail & _ & Ht & Hs & _).
  rewrite Ht in Htr. clear Ht Hrun.
  pose proof (events_of_not_raised l1) as Hok. revert Htr Hok.
  generalize (events_of l1). intros ok Htr Hok.
  apply app_eq_inv in Htr as [(k & -> & Hk)|(k & -> & Hk)].
  - by apply Forall_app in Hok as [? _].
  - apply Forall_app. split; [done|].
    destruct Hs; simpl in Hk.
    + by destruct k.
    + destruct k as [|? [|]]; simplify_eq/=; constructor.
    + by destruct k.
    + destruct k as [|? [|]]; simplify_eq/=; constructor.
    + destruct k as [|? [|? [|]]]; simplify_eq/=; constructor.
Qed.

(** Whatever comes after an event in a trace is no returning call if the
    event raised. *)
Lemma count_app {A} (p : A → bool) l1 l2 : count p (l1 ++ l2) = (count p l1 + count p l2)%nat.
Proof. induction l1 as [|x l1 IH]; simpl; [done|]. rewrite IH. lia. Qed.

Lemma count_zero {A} (p : A → bool) l : Forall (λ x, p x = false) l → count p l = 0%nat.
Proof. induction 1 as [|x l Hx _ IH]; simpl; [done|]. by rewrite Hx, IH. Qed.

Lemma count_zero_inv {A} (p : A → bool) l : count p l = 0%nat → Forall (λ x, p x = false) l.
Proof.
  induction l as [|x l IH]; simpl; [constructor|].
  destruct (p x) eqn:E; [done|]. intros H. constructor; auto.
Qed.

(** Among events that did not raise, the barriers passed are the barrier
    calls. *)
Lemma count_barriers_calls t :
  Forall (λ ev, raised_event ev = false) t →
  count barrier_passed t = count is_barrier (calls t).
Proof.
  induction 1 as [|ev t Hev _ IH]; [done|].
  destruct ev as [c [e|]| | | |]; try done; simpl in *; unfold calls in *; simpl;
    rewrite <- IH; by try destruct c.
Qed.

Lemma count_barriers_le t : (count barrier_passed t ≤ count is_barrier (calls t))%nat.
Proof.
  induction t as [|ev t IH]; [done|].
  destruct ev as [c [e|]| | | |]; simpl in *; unfold calls in *; simpl;
    try destruct c; simpl; lia.
Qed.

End Structure.

Section Plan_facts.

Variable w : World.

Lemma app_eq_split {A} (p : A → bool) (h t l1 : list A) c l2 :
  h ++ t = l1 ++ c :: l2 → p c = true → count p h = 0%nat →
  ∃ x, l1 = h ++ x ∧ t = x ++ c :: l2.
Proof.
  intros Heq Hc Hh. apply app_eq_inv in Heq as [(k & -> & Hk)|(k & -> & Hk)].
  - destruct k as [|c' k]; simplify_eq/=.
    + exists []. by rewrite !app_nil_r.
    + rewrite count_app in Hh. simpl in Hh. rewrite Hc in Hh. lia.
  - by exists k.
Qed.

(** The plan of a process that read its environment and computed the
    number of epochs. *)
Lemma call_plan_ready config rank world_size gpu n :
  rank_of w = Some rank → world_size_of w = Some world_size → gpu_of w = Some gpu →
  scaled_num_epochs (w_configs w) = Some n →
  call_plan w config =
    setup_calls w config rank world_size n ++ loop_calls w rank n ++ final_calls w rank n.
Proof.
  intros Hr Hw Hg Hn. unfold call_plan, setup_calls. rewrite Hr, Hw, Hg, Hn.
  cbn [app]. by rewrite <- !app_assoc.
Qed.

(** Without the number of epochs the plan stops before the schedulers. *)
Lemma call_plan_unscaled config rank world_size gpu :
  rank_of w = Some rank → world_size_of w = Some world_size → gpu_of w = Some gpu →
  scaled_num_epochs (w_configs w) = None →
  call_plan w config =
    [parse_config_or_kwargs config; init_process_group "nccl"] ++
    on_rank0 rank [makedirs (model_dir w)] ++ data_calls w rank ++ build_calls w.
Proof.
  intros Hr Hw Hg Hn. unfold call_plan. rewrite Hr, Hw, Hg, Hn.
  cbn [app]. by rewrite !app_nil_r.
Qed.

Lemma call_plan_unread config :
  (rank_of w = None ∨ world_size_of w = None ∨ gpu_of w = None) →
  call_plan w config = [parse_config_or_kwargs config].
Proof.
  unfold call_plan. intros [->| [->| ->]]; [done| |].
  - by destruct (rank_of w).
  - by destruct (rank_of w), (world_size_of w).
Qed.

(** Barriers and epoch calls in the parts of the plan. *)
Lemma data_calls_counts rank :
  count is_barrier (data_calls w rank) = 1%nat ∧
  count epoch_call (data_calls w rank) = 0%nat.
Proof. done. Qed.

Lemma build_calls_counts :
  count is_barrier (build_calls w) = 0%nat ∧ count epoch_call (build_calls w) = 0%nat.
Proof.
  unfold build_calls. rewrite !count_app.
  destruct (model_init (with_feat_dim (w_configs w))); done.
Qed.

Lemma setup_calls_counts config rank world_size n :
  count is_barrier (setup_calls w config rank world_size n) = 3%nat ∧
  count epoch_call (setup_calls w config rank world_size n) = 0%nat.
Proof.
  unfold setup_calls, scheduler_calls, on_rank0. rewrite !count_app.
  destruct (data_calls_counts rank) as [-> ->].
  destruct build_calls_counts as [-> ->].
  destruct (rank =? 0); done.
Qed.

Lemma epoch_calls_counts rank n e :
  count is_barrier (epoch_calls w rank n e) = 0%nat.
Proof. unfold epoch_calls. by destruct (_ && _). Qed.

Lemma loop_calls_no_barrier rank n :
  count is_barrier (loop_calls w rank n ++ final_calls w rank n) = 0%nat.
Proof.
  rewrite count_app. unfold loop_calls, final_calls, on_rank0.
  assert (∀ l, count is_barrier (flat_map (epoch_calls w rank n) l) = 0%nat) as ->.
  { induction l as [|e l IH]; [done|]. cbn [flat_map].
    by rewrite count_app, epoch_calls_counts, IH. }
  by destruct (rank =? 0).
Qed.

Lemma count_In {A} (p : A → bool) l x : In x l → p x = true → (0 < count p l)%nat.
Proof.
  induction l as [|y l IH]; [done|]. intros [->|Hin] Hx; simpl.
  - rewrite Hx. lia.
  - specialize (IH Hin Hx). lia.
Qed.

(** A process that makes an epoch call has read its environment and
    computed the number of epochs. *)
Lemma plan_epoch_call config c :
  In c (call_plan w config) → epoch_call c = true →
  ∃ rank world_size gpu n,
    rank_of w = Some rank ∧ world_size_of w = Some world_size ∧ gpu_of w = Some gpu ∧
    scaled_num_epochs (w_configs w) = Some n.
Proof.
  intros Hin Hc.
  destruct (plan_reads w config c Hin) as (rank & world_size & gpu & Hr & Hw & Hg).
  { intros ->. done. }
  exists rank, world_size, gpu.
  destruct (scaled_num_epochs (w_configs w)) as [n|] eqn:Hn; [by exists n|].
  rewrite (call_plan_unscaled config _ _ _ Hr Hw Hg Hn) in Hin.
  pose proof (count_In epoch_call _ _ Hin Hc) as Hpos.
  rewrite !count_app in Hpos.
  destruct (data_calls_counts rank) as [_ H0]. destruct build_calls_counts as [_ H1].
  rewrite H0, H1 in Hpos. unfold on_rank0 in Hpos.
  destruct (rank =? 0); simpl in Hpos; lia.
Qed.

(** A run that returns has read its environment and computed the number
    of epochs. *)
Lemma returned_ready config tr :
  run w config = (Returned, tr) →
  ∃ rank world_size gpu n,
    rank_of w = Some rank ∧ world_size_of w = Some world_size ∧ gpu_of w = Some gpu ∧
    scaled_num_epochs (w_configs w) = Some n.
Proof.
  intros Hrun. destruct (run_returned w _ _ Hrun) as [_ Hp].
  assert (Hfail : ∀ l e l', ¬ Forall (passable w) (l ++ Fail e :: l')).
  { intros l e l' H. apply Forall_app in H as [_ H]. by apply Forall_cons in H as [? _]. }
  unfold schedule in Hp.
  unfold gpu_of, rank_of, world_size_of, mbind, option_bind.
  destruct (w_environ w !! "LOCAL_RANK") as [rank_str|];
    [|by apply (Hfail [_; _] _ []) in Hp].
  destruct (Py.int_of_str rank_str) as [rank|];
    [|by apply (Hfail [_; _] _ []) in Hp].
  destruct (w_environ w !! "WORLD_SIZE") as [world_size_str|];
    [|by apply (Hfail [_; _; _] _ []) in Hp].
  destruct (Py.int_of_str world_size_str) as [world_size|];
    [|by apply (Hfail [_; _; _] _ []) in Hp].
  destruct (Py.index (gpus (w_configs w)) rank) as [gpu|];
    [|by apply (Hfail [_; _; _] _ []) in Hp].
  exists rank, world_size, gpu. unfold after_startup in Hp.
  destruct (utt2spkid_total (w_scp w (train_label (dataset_args (w_configs w)))))
    as [d Hd]. rewrite Hd, configs_at_122_line_123 in Hp. unfold scaled_num_epochs.
  destruct (line_123 (w_configs w)) as [e|n]; [|by exists n].
  rewrite !app_assoc in Hp. by apply Hfail in Hp.
Qed.

End Plan_facts.

(** ** Barriers (lines 46, 145 and 151) *)

Section Barriers.

Variable w : World.

Lemma calls_split t1 c r t2 : calls (t1 ++ Ext c r :: t2) = calls t1 ++ c :: calls t2.
Proof. by rewrite calls_app. Qed.

Lemma epoch_event_not_barrier ev : epoch_event ev = true → barrier_passed ev = false.
Proof. destruct ev as [[] []| | | |]; done. Qed.

(** In every run, whatever precedes a call of the epoch loop contains
    exactly three barriers that returned, and none follows. *)
Lemma epoch_after_three_barriers config o tr t1 ev t2 :
  run w config = (o, tr) → tr = t1 ++ ev :: t2 → epoch_event ev = true →
  count barrier_passed t1 = 3%nat ∧ count barrier_passed t2 = 0%nat.
Proof.
  intros Hrun Htr Hev. destruct ev as [c r| | | |]; try done. simpl in Hev.
  pose proof (run_before_call w _ _ _ _ _ _ _ Hrun Htr) as Hok.
  destruct (run_calls_plan w _ _ _ Hrun) as [k Hplan].
  assert (Hin : In c (call_plan w config)).
  { rewrite Hplan, Htr, calls_split. apply in_or_app. left. apply in_or_app. right. by left. }
  destruct (plan_epoch_call w _ _ Hin Hev)
    as (rank & world_size & gpu & n & Hr & Hw & Hg & Hn).
  rewrite (call_plan_ready w config _ _ _ _ Hr Hw Hg Hn) in Hplan.
  rewrite Htr, calls_split, <- app_assoc in Hplan. cbn [app] in Hplan.
  destruct (setup_calls_counts w config rank world_size n) as [H3 H0].
  destruct (app_eq_split epoch_call _ _ _ _ _ Hplan Hev H0) as (x & Hx & Hloop).
  pose proof (loop_calls_no_barrier w rank n) as Hnb.
  rewrite Hloop, !count_app in Hnb. simpl in Hnb. rewrite count_app in Hnb.
  split.
  - rewrite (count_barriers_calls _ Hok), Hx, count_app, H3. lia.
  - pose proof (count_barriers_le t2). lia.
Qed.

End Barriers.

Section Group.

Variable config : string.

Lemma performed_advance p ev :
  next_event p = Some ev → performed (advance p) = performed p ++ [ev].
Proof. unfold performed, next_event. simpl. apply take_S_r. Qed.

Lemma in_step_local n p ev :
  in_step config n p → next_event p = Some ev → barrier_passed ev = false →
  in_step config n (advance p).
Proof.
  intros [Hn Hw] Hev Hb. split; [|exact Hw].
  rewrite (performed_advance _ _ Hev), count_app. simpl. rewrite Hb. lia.
Qed.

Lemma in_step_barrier n p : in_step config n p → at_barrier p → in_step config (S n) (advance p).
Proof.
  intros [Hn Hw] Hev. split; [|exact Hw].
  rewrite (performed_advance _ _ Hev), count_app. simpl. lia.
Qed.

Lemma reachable_in_step ws ps :
  reachable config ws ps → ∃ n, Forall (in_step config n) ps.
Proof.
  induction 1 as [|ps ps' _ [n IH] Hstep].
  - exists 0%nat. apply Forall_fmap, Forall_forall. intros w _. split; [done|].
    by exists w.
  - destruct Hstep as [ps i p ev Hi Hev Hb|ps Hall].
    + exists n. apply Forall_insert; [done|].
      eapply in_step_local; [|done..]. eapply Forall_lookup_1; done.
    + exists (S n). apply Forall_fmap, Forall_forall. intros q Hq.
      rewrite Forall_forall in IH, Hall. apply in_step_barrier; auto.
Qed.

(** A process that began an epoch has passed three barriers. *)
Lemma began_epoch_three n p :
  in_step config n p → began_epoch p → n = 3%nat.
Proof.
  intros [Hn [w Hw]] (ev & Hin & Hev).
  apply list_elem_of_split in Hin as (t1 & t2 & Hsplit).
  destruct (run w config) as [o tr] eqn:Hrun. simpl in Hw.
  assert (Htr : tr = t1 ++ ev :: (t2 ++ drop (p_done p) (p_trace p))).
  { rewrite <- Hw, <- (take_drop (p_done p) (p_trace p)) at 1.
    fold (performed p). rewrite Hsplit. by rewrite <- app_assoc. }
  destruct (epoch_after_three_barriers w _ _ _ _ _ _ Hrun Htr Hev) as [H3 H0].
  rewrite count_app in H0.
  rewrite Hsplit, count_app in Hn. simpl in Hn.
  rewrite (epoch_event_not_barrier _ Hev) in Hn. lia.
Qed.

End Group.

(** C2. The barriers sit at three fixed points, the same on every rank:
    (1) in a run that returns, the calls are the configuration load and the
    process-group initialisation, on rank 0 the creation of the model
    directory, the first barrier, the construction calls (ending, on rank 0,
    with the three calls that save the configuration), the second and the
    third barrier, and then the calls of the loop, with no other barrier
    anywhere; (2) in every run, a call of the epoch loop comes after exactly
    three barriers that returned; (3) in a group of processes that wait for
    each other at the barriers, once any process has begun an epoch every
    process has passed three barriers. *)
Theorem C2_barriers_at_fixed_points config :
  (∀ w tr rank, run w config = (Returned, tr) → rank_of w = Some rank →
     ∃ construction loop,
       calls tr = [parse_config_or_kwargs config; init_process_group "nccl"] ++
                  on_rank0 rank [makedirs (model_dir w)] ++ [barrier] ++
                  construction ++ [barrier; barrier] ++ loop ∧
       count is_barrier construction = 0%nat ∧ count epoch_call construction = 0%nat ∧
       count is_barrier loop = 0%nat ∧
       (rank = 0 → ∃ pre path c data,
          construction = pre ++ [open_w path; yaml_dump c; file_write data])) ∧
  (∀ w o tr t1 ev t2, run w config = (o, tr) → tr = t1 ++ ev :: t2 →
     epoch_event ev = true →
     count barrier_passed t1 = 3%nat ∧ count barrier_passed t2 = 0%nat) ∧
  (∀ ws ps p, reachable config ws ps → p ∈ ps → began_epoch p →
     ∀ q, q ∈ ps → count barrier_passed (performed q) = 3%nat).
Proof.
  split; [|split].
  - intros w tr rank Hrun Hrank.
    destruct (returned_ready w _ _ Hrun) as (rank' & world_size & gpu & n & Hr & Hw & Hg & Hn).
    assert (rank' = rank) as -> by congruence.
    rewrite (run_returned_plan w _ _ Hrun), (call_plan_ready w config _ _ _ _ Hr Hw Hg Hn).
    unfold setup_calls, data_calls, scheduler_calls.
    set (c := with_schedule w n world_size (configs_at_122 w (spk2id_dict w))).
    set (c' := final_configs w world_size n).
    exists ([genlogger (exp_dir (w_configs w)) "train.log";
             set_seed (seed (w_configs w) + rank);
             read_scp (train_scp (dataset_args (w_configs w)));
             read_scp (train_label (dataset_args (w_configs w)))] ++
            build_calls w ++
            [build_scheduler (scheduler c) (scheduler_args c);
             MarginScheduler (margin_update c')] ++
            on_rank0 rank
              [open_w (Py.path_join (exp_dir c') "config.yaml"); yaml_dump c';
               file_write (w_yaml w c')]),
           (loop_calls w rank n ++ final_calls w rank n).
    split; [by rewrite <- !app_assoc|].
    destruct (build_calls_counts w) as [Hb He].
    rewrite !count_app, Hb, He. unfold on_rank0.
    repeat split; try (by destruct (rank =? 0)).
    + rewrite <- count_app. apply loop_calls_no_barrier.
    + intros ->.
      exists ([genlogger (exp_dir (w_configs w)) "train.log";
               set_seed (seed (w_configs w) + 0);
               read_scp (train_scp (dataset_args (w_configs w)));
               read_scp (train_label (dataset_args (w_configs w)))] ++
              build_calls w ++
              [build_scheduler (scheduler c) (scheduler_args c);
               MarginScheduler (margin_update c')]),
             (Py.path_join (exp_dir c') "config.yaml"), c', (w_yaml w c').
      rewrite <- !app_assoc. reflexivity.
  - intros w o tr t1 ev t2. apply epoch_after_three_barriers.
  - intros ws ps p Hreach Hp Hbegan q Hq.
    destruct (reachable_in_step config ws ps Hreach) as [n Hall].
    rewrite Forall_forall in Hall.
    assert (n = 3%nat) as -> by (apply (began_epoch_three config n p (Hall p Hp) Hbegan)).
    by destruct (Hall q Hq).
Qed.

(** ** The epoch loop (lines 153-160) *)

Section Loop.

Variable w : World.

Lemma append_to_list s t :
  list_ascii_of_string (s +:+ t) = list_ascii_of_string s ++ list_ascii_of_string t.
Proof. induction s as [|a s IH]; [done|]. cbn. by rewrite <- IH. Qed.

Lemma append_inj_r s1 s2 t : s1 +:+ t = s2 +:+ t → s1 = s2.
Proof.
  intros H. apply (f_equal list_ascii_of_string) in H.
  rewrite !append_to_list in H. apply app_inv_tail in H.
  apply (f_equal string_of_list_ascii) in H.
  by rewrite !string_of_list_ascii_of_string in H.
Qed.

Lemma checkpoint_name_inj e1 e2 : checkpoint_name e1 = checkpoint_name e2 → e1 = e2.
Proof.
  unfold checkpoint_name, Py.str. intros H.
  apply (inj (String.app "model_")) in H. apply append_inj_r in H.
  by apply (inj pretty) in H.
Qed.

Lemma path_join_inj a e1 e2 :
  Py.path_join a (checkpoint_name e1) = Py.path_join a (checkpoint_name e2) → e1 = e2.
Proof.
  unfold Py.path_join.
  change (Py.startswith_sep (checkpoint_name e1)) with false.
  change (Py.startswith_sep (checkpoint_name e2)) with false. cbv iota.
  intros H. apply checkpoint_name_inj.
  destruct (_ || _).
  - by apply (inj (String.app a)) in H.
  - apply (inj (String.app a)) in H. by apply (inj (String.app "/")) in H.
Qed.

Lemma checkpoint_path_inj e1 e2 : checkpoint_path w e1 = checkpoint_path w e2 → e1 = e2.
Proof. apply path_join_inj. Qed.

Lemma In_range lo hi x : In x (Py.range lo hi) ↔ lo ≤ x < hi.
Proof. unfold Py.range. rewrite <- list_elem_of_In, elem_of_seqZ. lia. Qed.

(** What the parts of the plan consist of. *)
Lemma setup_calls_class config rank world_size n :
  Forall (λ c, epoch_call c = false ∧ is_symlink c = false)
         (setup_calls w config rank world_size n).
Proof.
  unfold setup_calls, data_calls, build_calls, scheduler_calls, on_rank0.
  repeat (apply Forall_app; split);
    try destruct (rank =? 0); try destruct (model_init _);
    repeat constructor.
Qed.

Lemma In_loop_calls rank n c :
  In c (loop_calls w rank n) ↔
  ∃ e, 1 ≤ e ≤ n ∧
    (c = set_epoch e ∨
     c = runepoch e (log_batch_interval (train_configs (w_configs w))) ∨
     (rank = 0 ∧ save_due w n e = true ∧ c = save_checkpoint (checkpoint_path w e))).
Proof.
  unfold loop_calls. rewrite in_flat_map. split.
  - intros (e & He & Hc). apply In_range in He. exists e. split; [lia|].
    unfold epoch_calls in Hc. destruct Hc as [<-|[<-|Hc]]; [auto..|].
    destruct (rank =? 0) eqn:Hr; [|done]. destruct (save_due w n e) eqn:Hs; [|done].
    destruct Hc as [<-|[]]. apply Z.eqb_eq in Hr. auto.
  - intros (e & He & Hc). exists e. split; [apply In_range; lia|].
    unfold epoch_calls. destruct Hc as [->|[->|(-> & -> & ->)]]; simpl; auto.
Qed.

Lemma loop_calls_class rank n :
  Forall (λ c, epoch_call c = true ∧ is_symlink c = false) (loop_calls w rank n).
Proof.
  apply Forall_forall. intros c Hc. apply list_elem_of_In, In_loop_calls in Hc.
  destruct Hc as (e & _ & [->|[->|(_ & _ & ->)]]); done.
Qed.

Lemma omap_none {A B} (f : A → option B) l :
  Forall (λ x, f x = None) l → omap f l = [].
Proof. induction 1 as [|x l Hx _ IH]; [done|]. simpl. by rewrite Hx. Qed.




Lemma returned_not_raised config tr :
  run w config = (Returned, tr) → Forall (λ ev, raised_event ev = false) tr.
Proof. intros H. destruct (run_returned w _ _ H) as [-> _]. apply events_of_not_raised. Qed.

(** The schedule of a process that read its environment and computed the
    number of epochs. *)
Lemma schedule_ready config rank world_size gpu n :
  rank_of w = Some rank → world_size_of w = Some world_size → gpu_of w = Some gpu →
  scaled_num_epochs (w_configs w) = Some n →
  ∃ setup,
    schedule w config =
      setup ++ epochs rank (model_dir w) (final_configs w world_size n) ++
      finish w rank (model_dir w) (final_configs w world_size n) ∧
    sched_calls setup = setup_calls w config rank world_size n.
Proof.
  intros Hr Hw Hg Hn.
  rewrite (schedule_reads w config _ _ _ Hr Hw Hg).
  unfold after_startup.
  destruct (utt2spkid_total (w_scp w (train_label (dataset_args (w_configs w)))))
    as [d Hd]. apply scaled_num_epochs_Some in Hn.
  rewrite Hd, configs_at_122_line_123, Hn.
  exists ([Do (parse_config_or_kwargs config); ReadEnv "LOCAL_RANK"; ReadEnv "WORLD_SIZE";
           SetEnv "CUDA_VISIBLE_DEVICES" (Py.str gpu); Do (init_process_group "nccl")] ++
          on_rank0 rank [MkdirOrExit (model_dir w)] ++
          read_data w rank world_size gpu ++
          build w rank (spk2id_dict w) d ++
          schedulers w rank
            (with_schedule w n world_size (configs_at_122 w (spk2id_dict w)))).
  split.
  - unfold final_configs, model_dir, spk2id_dict. rewrite <- !app_assoc. reflexivity.
  - unfold setup_calls.
    rewrite !sched_calls_app, sched_calls_on_rank0, sched_calls_read_data,
      sched_calls_build, sched_calls_schedulers.
    reflexivity.
Qed.

End Loop.

Section Loop_runs.

Variable w : World.

(** The calls before the schedulers belong neither to the loop nor to the
    end of the script. *)
Lemma early_calls_class config rank :
  Forall (λ c, epoch_call c = false ∧ is_symlink c = false)
         ([parse_config_or_kwargs config; init_process_group "nccl"] ++
          on_rank0 rank [makedirs (model_dir w)] ++ data_calls w rank ++ build_calls w).
Proof.
  unfold data_calls, build_calls, on_rank0.
  repeat (apply Forall_app; split);
    try destruct (rank =? 0); try destruct (model_init _);
    repeat constructor.
Qed.

Lemma final_calls_class rank n :
  Forall (λ c, epoch_call c = false ∧ is_symlink c = true) (final_calls w rank n).
Proof. unfold final_calls, on_rank0. destruct (rank =? 0); repeat constructor. Qed.

(** A call of the loop or the final symlink is made only by a process
    that read its environment and computed the number of epochs. *)
Lemma plan_late_call config c :
  In c (call_plan w config) → epoch_call c = true ∨ is_symlink c = true →
  ∃ rank world_size gpu n,
    rank_of w = Some rank ∧ world_size_of w = Some world_size ∧ gpu_of w = Some gpu ∧
    scaled_num_epochs (w_configs w) = Some n.
Proof.
  intros Hin Hc.
  destruct (plan_reads w config c Hin) as (rank & world_size & gpu & Hr & Hw & Hg).
  { intros ->. by destruct Hc. }
  exists rank, world_size, gpu.
  destruct (scaled_num_epochs (w_configs w)) as [n|] eqn:Hn; [by exists n|].
  rewrite (call_plan_unscaled w config _ _ _ Hr Hw Hg Hn) in Hin.
  pose proof (early_calls_class config rank) as Hcl.
  rewrite Forall_forall in Hcl. apply list_elem_of_In, Hcl in Hin as [H1 H2].
  destruct Hc; congruence.
Qed.

Lemma plan_epoch_member config c rank n :
  In c (call_plan w config) → epoch_call c = true →
  rank_of w = Some rank → scaled_num_epochs (w_configs w) = Some n →
  In c (loop_calls w rank n).
Proof.
  intros Hin Hc Hr Hn.
  destruct (plan_late_call config c Hin (or_introl Hc))
    as (rank' & world_size & gpu & n' & Hr' & Hw & Hg & Hn').
  assert (rank' = rank) as -> by congruence. assert (n' = n) as -> by congruence.
  rewrite (call_plan_ready w config _ _ _ _ Hr Hw Hg Hn) in Hin.
  apply in_app_or in Hin as [Hin|Hin]; [|apply in_app_or in Hin as [Hin|Hin]]; [|done|].
  - pose proof (setup_calls_class w config rank world_size n) as Hcl.
    rewrite Forall_forall in Hcl. apply list_elem_of_In, Hcl in Hin as [? ?]. congruence.
  - pose proof (final_calls_class rank n) as Hcl.
    rewrite Forall_forall in Hcl. apply list_elem_of_In, Hcl in Hin as [? ?]. congruence.
Qed.

Lemma count_class {A} (p q : A → bool) l :
  Forall (λ c, p c = false ∧ q c = false) l → count p l = 0%nat ∧ count q l = 0%nat.
Proof.
  intros H. split; apply count_zero; eapply Forall_impl; try exact H; by intros ? [? ?].
Qed.

(** Where the symlink call sits: after the whole loop, on rank 0. *)
Lemma symlink_position config o tr rank n t1 s d r t2 :
  run w config = (o, tr) →
  rank_of w = Some rank → scaled_num_epochs (w_configs w) = Some n →
  tr = t1 ++ Ext (symlink s d) r :: t2 →
  rank = 0 ∧
  symlink s d = symlink (checkpoint_name n) (Py.path_join (model_dir w) "final_model.pt") ∧
  ∃ world_size, calls t1 = setup_calls w config rank world_size n ++ loop_calls w rank n.
Proof.
  intros Hrun Hr Hn Htr.
  destruct (run_calls_plan w _ _ _ Hrun) as [k Hplan].
  assert (Hin : In (symlink s d) (call_plan w config)).
  { rewrite Hplan, Htr, calls_split. apply in_or_app. left. apply in_or_app. right. by left. }
  destruct (plan_late_call config _ Hin (or_intror eq_refl))
    as (rank' & world_size & gpu & n' & Hr' & Hw & Hg & Hn').
  assert (rank' = rank) as -> by congruence. assert (n' = n) as -> by congruence.
  rewrite (call_plan_ready w config _ _ _ _ Hr Hw Hg Hn) in Hplan.
  rewrite Htr, calls_split, <- app_assoc in Hplan. cbn [app] in Hplan.
  rewrite app_assoc in Hplan.
  assert (H0 : count is_symlink
                 (setup_calls w config rank world_size n ++ loop_calls w rank n) = 0%nat).
  { rewrite count_app.
    destruct (count_class epoch_call is_symlink _ (setup_calls_class w config rank world_size n))
      as [_ ->].
    rewrite (count_zero is_symlink (loop_calls w rank n)); [done|].
    eapply Forall_impl; [apply loop_calls_class|]. by intros ? [? ?]. }
  destruct (app_eq_split is_symlink _ _ _ _ _ Hplan eq_refl H0) as (x & Hx & Hfin).
  unfold final_calls, on_rank0 in Hfin.
  destruct (rank =? 0) eqn:Hrank; [|by destruct x].
  apply Z.eqb_eq in Hrank. destruct x as [|? [|]]; simplify_eq/=.
  repeat split. exists world_size. by rewrite app_nil_r in Hx.
Qed.

(** In a run that returns, every iteration of the loop got through. *)
Lemma returned_epoch_passable config tr rank world_size n e :
  run w config = (Returned, tr) →
  rank_of w = Some rank → world_size_of w = Some world_size →
  scaled_num_epochs (w_configs w) = Some n → 1 ≤ e ≤ n →
  Forall (passable w) (epoch_actions (final_configs w world_size n) rank (model_dir w) e).
Proof.
  intros Hrun Hr Hw Hn He.
  destruct (returned_ready w _ _ Hrun) as (rank' & ws' & gpu & n' & Hr' & Hw' & Hg & Hn').
  assert (rank' = rank) as -> by congruence. assert (n' = n) as -> by congruence.
  assert (ws' = world_size) as -> by congruence.
  destruct (run_returned w _ _ Hrun) as [_ Hp].
  destruct (schedule_ready w config _ _ _ _ Hr Hw Hg Hn) as (setup & Hs & _).
  rewrite Hs in Hp. apply Forall_app in Hp as [_ Hp]. apply Forall_app in Hp as [Hp _].
  rewrite Forall_forall in Hp. apply Forall_forall. intros a Ha. apply Hp.
  apply list_elem_of_In. unfold epochs. apply in_flat_map. exists e. split.
  - apply In_range. rewrite final_configs_num_epochs. lia.
  - by apply list_elem_of_In.
Qed.

(** On rank 0, then, the modulus of line 159 did not fail. *)
Lemma returned_interval config tr n e :
  run w config = (Returned, tr) → rank_of w = Some 0 →
  scaled_num_epochs (w_configs w) = Some n → 1 ≤ e ≤ n →
  save_epoch_interval (train_configs (w_configs w)) ≠ 0.
Proof.
  intros Hrun Hr Hn He Hz.
  destruct (returned_ready w _ _ Hrun) as (rank' & ws & gpu & n' & Hr' & Hw & Hg & Hn').
  pose proof (returned_epoch_passable config tr 0 ws n e Hrun Hr Hw Hn He) as Hp.
  unfold epoch_actions in Hp. rewrite final_configs_save_condition in Hp.
  unfold Py.mod_ in Hp. rewrite Hz in Hp. simpl in Hp.
  apply Forall_cons in Hp as [_ Hp]. apply Forall_cons in Hp as [_ Hp].
  by apply Forall_cons in Hp as [Hp _].
Qed.

Lemma save_due_true n e :
  save_due w n e = true ↔
  save_epoch_interval (train_configs (w_configs w)) ≠ 0 ∧
  (e mod save_epoch_interval (train_configs (w_configs w)) = 0 ∨
   n - num_avg (w_configs w) ≤ e).
Proof.
  unfold save_due, Py.mod_.
  destruct (Z.eqb_spec (save_epoch_interval (train_configs (w_configs w))) 0) as [E|E].
  - split; [done|]. by intros [? _].
  - rewrite orb_true_iff, Z.eqb_eq, Z.leb_le. tauto.
Qed.

(** The symlink is made only in a run that returns. *)
Lemma symlink_returned config o tr s d :
  run w config = (o, tr) → In (Ext (symlink s d) None) tr → o = Returned.
Proof.
  intros Hrun Hin.
  destruct (plan_late_call config _ (run_call_in_plan w _ _ _ _ _ Hrun Hin)
              (or_intror eq_refl))
    as (rank & world_size & gpu & n & Hr & Hw & Hg & Hn).
  destruct (run_success w _ _ _ _ Hrun Hin)
    as (l1 & l2 & tail & Hl & _ & Hs & _ & a & Ha & Hcall).
  destruct (schedule_ready w config _ _ _ _ Hr Hw Hg Hn) as (setup & Hsched & Hsetup).
  rewrite Hsched, app_assoc in Hl.
  assert (Hno : ∀ l, In a l → sched_calls l = setup_calls w config rank world_size n ++
                                               loop_calls w rank n → False).
  { intros l Hal Hcalls.
    assert (Hc : In (symlink s d) (sched_calls l)) by (apply In_sched_calls; eauto).
    rewrite Hcalls in Hc. apply in_app_or in Hc as [Hc|Hc].
    - pose proof (setup_calls_class w config rank world_size n) as Hcl.
      rewrite Forall_forall in Hcl. by apply list_elem_of_In, Hcl in Hc as [? ?].
    - pose proof (loop_calls_class w rank n) as Hcl.
      rewrite Forall_forall in Hcl. by apply list_elem_of_In, Hcl in Hc as [? ?]. }
  assert (Hcalls : sched_calls (setup ++ epochs rank (model_dir w) (final_configs w world_size n))
                   = setup_calls w config rank world_size n ++ loop_calls w rank n).
  { by rewrite sched_calls_app, Hsetup, sched_calls_epochs. }
  apply app_eq_inv in Hl as [(k & Hk1 & Hk2)|(k & Hk1 & Hk2)].
  - exfalso. apply (Hno (l1 ++ k)); [apply in_or_app; by left|]. by rewrite <- Hk1.
  - unfold finish, on_rank0 in Hk2. destruct (rank =? 0).
    + destruct k as [|? [|? [|]]]; simplify_eq/=.
      * exfalso. apply (Hno _ Ha). by rewrite app_nil_r.
      * inversion Hs.
      * by inversion Hs.
    + destruct k; [|done]. simplify_eq/=. exfalso. apply (Hno _ Ha). by rewrite app_nil_r.
Qed.

End Loop_runs.

(** ** Checkpoints (lines 158-160) *)

(** C3. With [rank] the rank read from the environment and [n] the
    [num_epochs] of line 123: the checkpoint of an epoch is saved only on
    rank 0, for an epoch of the loop that is divisible by
    [save_epoch_interval] or at least [n - num_avg]; in a run that returns,
    rank 0 saves every such checkpoint; and no other rank ever calls
    [save_checkpoint]. *)
Theorem C3_checkpoint_saved_iff w config o tr rank n epoch :
  run w config = (o, tr) →
  rank_of w = Some rank →
  scaled_num_epochs (w_configs w) = Some n →
  (In (Ext (save_checkpoint (checkpoint_path w epoch)) None) tr →
     rank = 0 ∧ 1 ≤ epoch ≤ n ∧
     save_epoch_interval (train_configs (w_configs w)) ≠ 0 ∧
     (epoch mod save_epoch_interval (train_configs (w_configs w)) = 0 ∨
      n - num_avg (w_configs w) ≤ epoch)) ∧
  (o = Returned → rank = 0 → 1 ≤ epoch ≤ n →
     (epoch mod save_epoch_interval (train_configs (w_configs w)) = 0 ∨
      n - num_avg (w_configs w) ≤ epoch) →
     In (Ext (save_checkpoint (checkpoint_path w epoch)) None) tr) ∧
  (rank ≠ 0 → ∀ path r, ¬ In (Ext (save_checkpoint path) r) tr).
Proof.
  intros Hrun Hr Hn. split; [|split].
  - intros Hin.
    pose proof (plan_epoch_member w config _ rank n
                  (run_call_in_plan w _ _ _ _ _ Hrun Hin) eq_refl Hr Hn) as Hloop.
    apply In_loop_calls in Hloop as (e & He & [Hc|[Hc|(-> & Hdue & Hc)]]); try done.
    injection Hc as Hc. apply checkpoint_path_inj in Hc as ->.
    apply save_due_true in Hdue. tauto.
  - intros -> -> He Hdue.
    pose proof (returned_interval w config tr n epoch Hrun Hr Hn He) as Hint.
    destruct (returned_ready w _ _ Hrun) as (rank' & ws & gpu & n' & Hr' & Hw & Hg & Hn').
    assert (Hin : In (save_checkpoint (checkpoint_path w epoch)) (calls tr)).
    { rewrite (run_returned_plan w _ _ Hrun), (call_plan_ready w config _ _ _ _ Hr Hw Hg Hn).
      apply in_or_app. right. apply in_or_app. left. apply In_loop_calls.
      exists epoch. split; [done|]. right. right. repeat split.
      by apply save_due_true. }
    apply In_calls in Hin as [[e|] Hin]; [|done].
    pose proof (returned_not_raised w _ _ Hrun) as Hok.
    rewrite Forall_forall in Hok. by apply list_elem_of_In, Hok in Hin.
  - intros Hrank path r Hin.
    pose proof (plan_epoch_member w config _ rank n
                  (run_call_in_plan w _ _ _ _ _ Hrun Hin) eq_refl Hr Hn) as Hloop.
    apply In_loop_calls in Hloop as (e & He & [Hc|[Hc|(? & _)]]); done.
Qed.

(** ** The final symlink (lines 162-163) *)


(** C9, as amended.  Whenever the symlink is made, with [num_avg >= 0] and
    at least one epoch ([n >= 1] for the [num_epochs] [n] of line 123), it
    points to [model_n.pt] and the checkpoint [model_n.pt] of the model
    directory was saved before. *)
Theorem C9_final_checkpoint_saved w config o tr s d n :
  run w config = (o, tr) →
  In (Ext (symlink s d) None) tr →
  scaled_num_epochs (w_configs w) = Some n →
  0 ≤ num_avg (w_configs w) →
  1 ≤ n →
  s = checkpoint_name n ∧
  ∃ t1 t2, tr = t1 ++ Ext (symlink s d) None :: t2 ∧
    In (Ext (save_checkpoint (Py.path_join (model_dir w) s)) None) t1.
Proof.
  intros Hrun Hin Hn Havg Hn1.
  pose proof (symlink_returned w _ _ _ _ _ Hrun Hin) as ->.
  destruct (returned_ready w _ _ Hrun) as (rank & ws & gpu & n' & Hr & Hw & Hg & Hn').
  apply in_split in Hin as (t1 & t2 & Htr).
  destruct (symlink_position w _ _ _ _ _ _ _ _ _ _ Hrun Hr Hn Htr) as (-> & [= -> ->] & ws' & Hc).
  split; [done|]. exists t1, t2. split; [done|].
  assert (Hsave : In (save_checkpoint (checkpoint_path w n)) (calls t1)).
  { rewrite Hc. apply in_or_app. right. apply In_loop_calls.
    exists n. split; [lia|]. right. right. repeat split.
    apply save_due_true. split; [|right; lia].
    apply (returned_interval w config tr n n Hrun Hr Hn). lia. }
  apply In_calls in Hsave as [[e|] Hsave]; [|done].
  pose proof (run_before_call w _ _ _ _ _ _ _ Hrun Htr) as Hok.
  rewrite Forall_forall in Hok. by apply list_elem_of_In, Hok in Hsave.
Qed.

(** ** The number of epochs (lines 122-126 and 153) *)

(** *** Floats: integers below [2^53] and division by [1.0] *)

Lemma digits2_pos_iter p k :
  digits2_pos (Pos.iter xO p k) = (digits2_pos p + k)%positive.
Proof.
  induction k as [|k IH] using Pos.peano_ind.
  - simpl. lia.
  - rewrite Pos.iter_succ. simpl. rewrite IH. lia.
Qed.

Lemma Zpos_iter p k : Z.pos (Pos.iter xO p k) = Z.pos p * 2 ^ Z.pos k.
Proof.
  induction k as [|k IH] using Pos.peano_ind.
  - simpl. lia.
  - rewrite Pos.iter_succ, Pos2Z.inj_xO, IH, Pos2Z.inj_succ, Z.pow_succ_r by lia. lia.
Qed.

Lemma digits2_pos_le p k : Z.pos p < 2 ^ k → 0 ≤ k → Z.pos (digits2_pos p) ≤ k.
Proof.
  revert k. induction p as [p IH|p IH|]; intros k Hp Hk; cbn [digits2_pos].
  - assert (k ≠ 0) by (intros ->; simpl in Hp; lia).
    specialize (IH (k - 1)). replace k with (Z.succ (k - 1)) in Hp by lia.
    rewrite Z.pow_succ_r in Hp by lia. lia.
  - assert (k ≠ 0) by (intros ->; simpl in Hp; lia).
    specialize (IH (k - 1)). replace k with (Z.succ (k - 1)) in Hp by lia.
    rewrite Z.pow_succ_r in Hp by lia. lia.
  - assert (k ≠ 0) by (intros ->; simpl in Hp; lia). lia.
Qed.

Lemma div_eucl_eq a b : Z.div_eucl a b = (a / b, a mod b).
Proof. unfold Z.div, Z.modulo. by destruct (Z.div_eucl a b). Qed.

(** A mantissa of 53 bits with an exponent in the normal range is not
    shifted, and rounds to itself. *)
Lemma shr_fexp_exact m e :
  Z.pos (digits2_pos m) = 53 → -1074 ≤ e →
  shr_fexp Py.prec Py.emax (Z.pos m) e loc_Exact =
    ({| shr_m := Z.pos m; shr_r := false; shr_s := false |}, e).
Proof.
  intros Hd He. unfold shr_fexp, fexp, emin, Py.prec, Py.emax.
  cbn [Zdigits2 shr_record_of_loc]. rewrite Hd.
  replace (Z.max (53 + e - 53) (3 - 1024 - 53) - e) with 0 by lia. reflexivity.
Qed.

Lemma binary_round_aux_exact s m e :
  Z.pos (digits2_pos m) = 53 → -1074 ≤ e ≤ 971 →
  binary_round_aux Py.prec Py.emax s (Z.pos m) e loc_Exact = S754_finite s m e.
Proof.
  intros Hd He. unfold binary_round_aux.
  rewrite (shr_fexp_exact m e Hd) by lia.
  cbn [shr_m loc_of_shr_record round_nearest_even].
  rewrite (shr_fexp_exact m e Hd) by lia.
  cbn [shr_m]. unfold Py.prec, Py.emax.
  destruct (Z.leb_spec e (1024 - 53)); [reflexivity|lia].
Qed.

(** The quotient by the mantissa of [1.0] is exact, with one more bit. *)
Lemma div_core_by_one m e :
  Z.pos (digits2_pos m) = 53 → -1073 ≤ e →
  SFdiv_core_binary Py.prec Py.emax (Z.pos m) e 4503599627370496 (-52) =
    (Z.pos m~0, e - 1, loc_Exact).
Proof.
  intros Hd He. unfold SFdiv_core_binary. cbn [Zdigits2]. rewrite Hd.
  change (Z.pos (digits2_pos 4503599627370496)) with 53.
  assert (He' : Z.min (fexp Py.prec Py.emax (53 + e - (53 + -52))) (e - -52) = e - 1).
  { unfold fexp, emin, Py.prec, Py.emax. lia. }
  cbv zeta. rewrite He'.
  replace (e - -52 - (e - 1)) with 53 by lia. cbv iota.
  replace (Z.shiftl (Z.pos m) 53) with (Z.pos m~0 * 4503599627370496)
    by (rewrite Z.shiftl_mul_pow2 by lia; lia).
  rewrite div_eucl_eq, Z.div_mul, Z.mod_mul by lia.
  reflexivity.
Qed.

(** [x / 1.0 = x] for a normal float [x]. *)
Lemma div_by_one s m e :
  Z.pos (digits2_pos m) = 53 → -1073 ≤ e ≤ 971 →
  SFdiv Py.prec Py.emax (S754_finite s m e) Py.float_one = S754_finite s m e.
Proof.
  intros Hd He. unfold SFdiv, Py.float_one.
  rewrite (div_core_by_one m e Hd) by lia.
  unfold binary_round_aux.
  assert (Hs : shr_fexp Py.prec Py.emax (Z.pos m~0) (e - 1) loc_Exact =
               ({| shr_m := Z.pos m; shr_r := false; shr_s := false |}, e)).
  { unfold shr_fexp, fexp, emin, Py.prec, Py.emax.
    cbn [Zdigits2 digits2_pos shr_record_of_loc].
    rewrite Pos2Z.inj_succ, Hd.
    replace (Z.max (Z.succ 53 + (e - 1) - 53) (3 - 1024 - 53) - (e - 1)) with 1 by lia.
    unfold shr. cbn [SpecFloat.iter_pos shr_1 orb]. f_equal. lia. }
  rewrite Hs. cbn [shr_m loc_of_shr_record round_nearest_even].
  rewrite (shr_fexp_exact m e Hd) by lia.
  cbn [shr_m]. unfold Py.prec, Py.emax.
  destruct (Z.leb_spec e (1024 - 53)); [by destruct s|lia].
Qed.

(** The float of an integer of at most 53 bits is the integer, shifted to
    53 bits. *)
Lemma binary_round_small s p :
  Z.pos (digits2_pos p) ≤ 53 →
  binary_round Py.prec Py.emax s p 0 =
    S754_finite s (Z.to_pos (Z.pos p * 2 ^ (53 - Z.pos (digits2_pos p))))
                (Z.pos (digits2_pos p) - 53).
Proof.
  intros Hd. unfold binary_round.
  assert (Hf : fexp Py.prec Py.emax (Z.pos (digits2_pos p) + 0) =
               Z.pos (digits2_pos p) - 53).
  { unfold fexp, emin, Py.prec, Py.emax. lia. }
  rewrite Hf. unfold shl_align. rewrite Z.sub_0_r.
  destruct (Z.pos (digits2_pos p) - 53) as [|k|k] eqn:Hk; [|lia|].
  - replace (53 - Z.pos (digits2_pos p)) with 0 by lia.
    rewrite Z.mul_1_r. cbn [Z.to_pos].
    apply binary_round_aux_exact; lia.
  - replace (53 - Z.pos (digits2_pos p)) with (Z.pos k) by lia.
    rewrite <- Zpos_iter. cbn [Z.to_pos].
    apply binary_round_aux_exact; [|lia].
    rewrite digits2_pos_iter. lia.
Qed.

(** [int(n / 1.0) = n] for an integer [n] below [2^53] in absolute
    value. *)
Lemma int_div_one s p :
  Z.pos p < 2 ^ 53 →
  ∃ x, binary_round Py.prec Py.emax s p 0 = x ∧
       match x with S754_finite _ _ _ => True | _ => False end ∧
       Py.int_of_float (SFdiv Py.prec Py.emax x Py.float_one) =
         inr (cond_Zopp s (Z.pos p)).
Proof.
  intros Hp. pose proof (digits2_pos_le p 53 Hp ltac:(lia)) as Hd.
  eexists. split; [apply (binary_round_small s p Hd)|]. split; [done|].
  set (k := 53 - Z.pos (digits2_pos p)).
  assert (Hk : 0 ≤ k ≤ 52) by lia.
  assert (Hm : Z.pos (Z.to_pos (Z.pos p * 2 ^ k)) = Z.pos p * 2 ^ k).
  { apply Z2Pos.id. apply Z.mul_pos_pos; [lia|]. apply Z.pow_pos_nonneg; lia. }
  rewrite div_by_one.
  - unfold Py.int_of_float. do 2 f_equal. rewrite Hm.
    replace (Z.pos (digits2_pos p) - 53) with (- k) by lia.
    rewrite Z.shiftl_opp_r, Z.shiftr_div_pow2 by lia.
    apply Z.div_mul. apply Z.pow_nonzero; lia.
  - destruct (Z.eq_dec k 0) as [Hk0|Hk0].
    + rewrite Hk0, Z.mul_1_r. cbn [Z.to_pos]. lia.
    + destruct k as [|k'|k'] eqn:E; [done| |lia].
      rewrite <- Zpos_iter. cbn [Z.to_pos]. rewrite digits2_pos_iter. lia.
  - lia.
Qed.

(** *** Line 123 *)

(** Without augmentation the number of epochs is the configured one, as
    long as it converts to a float exactly. *)
Lemma line_123_no_aug (c : Config) :
  Py.is_zero (aug_prob (dataset_args c)) = true →
  Z.abs (num_epochs (train_configs c)) ≤ 2 ^ 53 →
  line_123 c = inr (num_epochs (train_configs c)).
Proof.
  unfold line_123, Py.truediv, Py.float_of_int, Py.fsub.
  generalize (num_epochs (train_configs c)). intros n Haug Hn.
  destruct (aug_prob (dataset_args c)) as [sa| | |]; try discriminate Haug.
  change (SFsub Py.prec Py.emax Py.float_one (S754_zero sa)) with Py.float_one.
  change (Py.is_zero Py.float_one) with false. cbv iota.
  assert (Hcase : Z.abs n = 2 ^ 53 ∨ n = 0 ∨ 0 < Z.abs n < 2 ^ 53) by lia.
  destruct Hcase as [H53|[->|Hlt]].
  - assert (n = 9007199254740992 ∨ n = -9007199254740992) as [-> | ->] by lia;
      vm_compute; reflexivity.
  - reflexivity.
  - destruct n as [|p|p]; [lia| |]; unfold binary_normalize.
    + destruct (int_div_one false p) as (x & -> & Hx & Hint); [lia|].
      destruct x; try done.
    + destruct (int_div_one true p) as (x & -> & Hx & Hint); [lia|].
      destruct x; try done.
Qed.

Lemma scaled_num_epochs_no_aug (c : Config) :
  Py.is_zero (aug_prob (dataset_args c)) = true →
  Z.abs (num_epochs (train_configs c)) ≤ 2 ^ 53 →
  scaled_num_epochs c = Some (num_epochs (train_configs c)).
Proof.
  intros Haug Hn. unfold scaled_num_epochs. by rewrite line_123_no_aug.
Qed.



(** ** The order of the steps *)

Section Order.

Variable w : World.




Lemma omap_prefix {A B} (f : A → option B) l1 l2 :
  l1 `prefix_of` l2 → omap f l1 `prefix_of` omap f l2.
Proof. intros [k ->]. rewrite omap_app. by eexists. Qed.

End Order.


(** ** The projection head (lines 90-101) *)

(** Membership in an explicit list, one element after the other. *)
Ltac in_list H :=
  cbv zeta in H; cbn [In app] in H;
  repeat match type of H with
         | _ ∨ _ => destruct H as [H|H]; [try discriminate H|]
         | False => destruct H
         end.

Section Projection.

Variable w : World.

(** The parts of the plan a call can belong to. *)
Lemma plan_cases config c :
  In c (call_plan w config) →
  c = parse_config_or_kwargs config ∨
  ∃ rank world_size,
    rank_of w = Some rank ∧ world_size_of w = Some world_size ∧
    (c = init_process_group "nccl" ∨ c = makedirs (model_dir w) ∨
     In c (data_calls w rank) ∨ In c (build_calls w) ∨
     ∃ n, scaled_num_epochs (w_configs w) = Some n ∧
          (In c (scheduler_calls w rank world_size n) ∨ In c (loop_calls w rank n) ∨
           In c (final_calls w rank n))).
Proof.
  unfold call_plan. intros [<-|Hin]; [by left|]. right.
  destruct (rank_of w) as [rank|]; [|done].
  destruct (world_size_of w) as [world_size|]; [|done].
  destruct (gpu_of w) as [gpu|]; [|done].
  exists rank, world_size. split; [done|]. split; [done|].
  cbn [app] in Hin. destruct Hin as [<-|Hin]; [by left|].
  apply in_app_or in Hin as [Hin|Hin].
  { unfold on_rank0 in Hin. destruct (rank =? 0); [|done].
    destruct Hin as [<-|[]]. auto. }
  apply in_app_or in Hin as [Hin|Hin]; [auto|].
  apply in_app_or in Hin as [Hin|Hin]; [auto|].
  destruct (scaled_num_epochs (w_configs w)) as [n|]; [|done].
  do 4 right. exists n. split; [done|].
  apply in_app_or in Hin as [Hin|Hin]; [auto|].
  apply in_app_or in Hin as [Hin|Hin]; auto.
Qed.

Lemma with_projection_args n_spk c :
  projection_args (with_projection n_spk c) =
  {| pa_embed_dim := Some (embed_dim (model_args c));
     num_class := Some (if speed_perturb (dataset_args c) then n_spk * 3 else n_spk) |}.
Proof. unfold with_projection. simpl. by destruct (speed_perturb (dataset_args c)). Qed.

Lemma final_configs_projection_args world_size n path :
  model_init (w_configs w) = Some path →
  projection_args (final_configs w world_size n) = projection_args (w_configs w).
Proof.
  intros H. unfold final_configs, configs_at_122.
  change (model_init (with_feat_dim (w_configs w))) with (model_init (w_configs w)).
  by rewrite H.
Qed.

(** Where the projection calls are. *)
Lemma plan_get_projection config pa :
  In (get_projection pa) (call_plan w config) →
  model_init (w_configs w) = None ∧
  pa = projection_args (with_projection (dict_len (spk2id_dict w))
                                        (with_feat_dim (w_configs w))).
Proof.
  intros Hin. apply plan_cases in Hin as [|(rank & ws & _ & _ & Hin)]; [done|].
  destruct Hin as [|[|[Hin|[Hin|(n & _ & [Hin|[Hin|Hin]])]]]]; try done.
  - unfold data_calls in Hin. in_list Hin.
  - unfold build_calls in Hin.
    change (model_init (with_feat_dim (w_configs w))) with (model_init (w_configs w)) in Hin.
    destruct (model_init (w_configs w)); in_list Hin.
    by injection Hin as <-.
  - unfold scheduler_calls, on_rank0 in Hin. destruct (rank =? 0); in_list Hin.
  - apply In_loop_calls in Hin as (e & _ & [?|[?|(_ & _ & ?)]]); done.
  - unfold final_calls, on_rank0 in Hin. destruct (rank =? 0); in_list Hin.
Qed.

Lemma plan_add_module config name :
  In (add_module name) (call_plan w config) → model_init (w_configs w) = None.
Proof.
  intros Hin. apply plan_cases in Hin as [|(rank & ws & _ & _ & Hin)]; [done|].
  destruct Hin as [|[|[Hin|[Hin|(n & _ & [Hin|[Hin|Hin]])]]]]; try done.
  - unfold data_calls in Hin. in_list Hin.
  - unfold build_calls in Hin.
    change (model_init (with_feat_dim (w_configs w))) with (model_init (w_configs w)) in Hin.
    destruct (model_init (w_configs w)); in_list Hin. done.
  - unfold scheduler_calls, on_rank0 in Hin. destruct (rank =? 0); in_list Hin.
  - apply In_loop_calls in Hin as (e & _ & [?|[?|(_ & _ & ?)]]); done.
  - unfold final_calls, on_rank0 in Hin. destruct (rank =? 0); in_list Hin.
Qed.

Lemma plan_yaml_dump config c :
  In (yaml_dump c) (call_plan w config) →
  ∃ world_size n, c = final_configs w world_size n.
Proof.
  intros Hin. apply plan_cases in Hin as [|(rank & ws & _ & _ & Hin)]; [done|].
  destruct Hin as [|[|[Hin|[Hin|(n & _ & [Hin|[Hin|Hin]])]]]]; try done.
  - unfold data_calls in Hin. in_list Hin.
  - unfold build_calls in Hin. destruct (model_init _); in_list Hin.
  - unfold scheduler_calls, on_rank0 in Hin. destruct (rank =? 0); in_list Hin.
    injection Hin as <-. by exists ws, n.
  - apply In_loop_calls in Hin as (e & _ & [?|[?|(_ & _ & ?)]]); done.
  - unfold final_calls, on_rank0 in Hin. destruct (rank =? 0); in_list Hin.
Qed.

End Projection.

(** C10. [get_projection] is called only when [model_init] is [None], and
    then with [num_class] equal to the number of distinct speakers of the
    label file, times 3 exactly when [speed_perturb] is set (and with the
    model's [embed_dim]); a run from scratch that returns has made the call
    and added the module.  With a [model_init], neither [get_projection] nor
    [add_module] is ever called, and the configuration written out still has
    the [projection_args] it was loaded with. *)
Theorem C10_projection_classes w config o tr :
  run w config = (o, tr) →
  (∀ pa r, In (Ext (get_projection pa) r) tr →
     model_init (w_configs w) = None ∧
     num_class pa = Some (if speed_perturb (dataset_args (w_configs w))
                          then len (speakers w) * 3 else len (speakers w)) ∧
     pa_embed_dim pa = Some (embed_dim (model_args (w_configs w)))) ∧
  (o = Returned → model_init (w_configs w) = None →
     (∃ pa, In (Ext (get_projection pa) None) tr) ∧
     In (Ext (add_module "projection") None) tr) ∧
  (∀ path, model_init (w_configs w) = Some path →
     (∀ pa r, ¬ In (Ext (get_projection pa) r) tr) ∧
     (∀ name r, ¬ In (Ext (add_module name) r) tr) ∧
     (∀ c r, In (Ext (yaml_dump c) r) tr →
        projection_args c = projection_args (w_configs w))).
Proof.
  intros Hrun. split; [|split].
  - intros pa r Hin.
    apply (run_call_in_plan w _ _ _ _ _ Hrun), plan_get_projection in Hin as [Hinit ->].
    rewrite with_projection_args, spk2id_len. by repeat split.
  - intros -> Hinit.
    destruct (returned_ready w _ _ Hrun) as (rank & ws & gpu & n & Hr & Hw & Hg & Hn).
    pose proof (run_returned_plan w _ _ Hrun) as Hcalls.
    rewrite (call_plan_ready w config _ _ _ _ Hr Hw Hg Hn) in Hcalls.
    pose proof (returned_not_raised w _ _ Hrun) as Hok. rewrite Forall_forall in Hok.
    assert (Hb : ∀ c, In c (build_calls w) → In (Ext c None) tr).
    { intros c Hc.
      assert (Hin : In c (calls tr)).
      { rewrite Hcalls. unfold setup_calls. apply in_or_app. left.
        apply in_or_app. right. apply in_or_app. right. apply in_or_app. right.
        apply in_or_app. by left. }
      apply In_calls in Hin as [[e|] Hin]; [|done].
      by apply list_elem_of_In, Hok in Hin. }
    unfold build_calls in Hb.
    change (model_init (with_feat_dim (w_configs w))) with (model_init (w_configs w)) in Hb.
    rewrite Hinit in Hb. split.
    + eexists. apply Hb. simpl. do 4 right. left. reflexivity.
    + apply Hb. simpl. do 5 right. left. reflexivity.
  - intros path Hinit. repeat split.
    + intros pa r Hin.
      apply (run_call_in_plan w _ _ _ _ _ Hrun), plan_get_projection in Hin as [? _].
      congruence.
    + intros name r Hin.
      apply (run_call_in_plan w _ _ _ _ _ Hrun), plan_add_module in Hin. congruence.
    + intros c r Hin.
      apply (run_call_in_plan w _ _ _ _ _ Hrun), plan_yaml_dump in Hin as (ws & n & ->).
      by eapply final_configs_projection_args.
Qed.

(** ** The theorems at the sample worlds *)

Ltac in_trace := vm_compute; repeat (first [left; reflexivity | right]).

(** The run of a sample world, as the pair the theorems take. *)
Lemma run_pair w config : run w config = ((run w config).1, (run w config).2).
Proof. apply surjective_pairing. Qed.



(** The calls of rank 0's successful run, around its three barriers. *)
Lemma C2_witness :
  ∃ construction loop,
    calls (run rank0_world sample_config_path).2 =
      [parse_config_or_kwargs sample_config_path; init_process_group "nccl"] ++
      on_rank0 0 [makedirs (model_dir rank0_world)] ++ [barrier] ++
      construction ++ [barrier; barrier] ++ loop ∧
    count is_barrier construction = 0%nat ∧ count epoch_call construction = 0%nat ∧
    count is_barrier loop = 0%nat ∧
    (0 = 0 → ∃ pre path c data,
       construction = pre ++ [open_w path; yaml_dump c; file_write data]).
Proof.
  apply (proj1 (C2_barriers_at_fixed_points sample_config_path) rank0_world _ 0).
  - rewrite (run_pair rank0_world sample_config_path) at 1. f_equal.
  - reflexivity.
Defined.

(** Rank 0 saves the checkpoint of epoch 2 of 3 (interval 2, one averaged). *)
Lemma C3_witness :
  rank_of rank0_world = Some 0 ∧
  scaled_num_epochs (w_configs rank0_world) = Some 3 ∧
  In (Ext (save_checkpoint (checkpoint_path rank0_world 2)) None)
     (run rank0_world sample_config_path).2.
Proof.
  split; [reflexivity|]. split; [reflexivity|].
  apply (proj1 (proj2 (C3_checkpoint_saved_iff rank0_world sample_config_path _ _ 0 3 2
                         (run_pair _ _) eq_refl eq_refl))).
  - reflexivity.
  - reflexivity.
  - lia.
  - left. reflexivity.
Defined.


(** Rank 1 reads both variables, then initialises the group. *)
Lemma C5_witness :
  ∃ rank_str world_size_str rank world_size gpu r' rest,
    w_environ rank1_world !! "LOCAL_RANK" = Some rank_str ∧
    Py.int_of_str rank_str = Some rank ∧
    w_environ rank1_world !! "WORLD_SIZE" = Some world_size_str ∧
    Py.int_of_str world_size_str = Some world_size ∧
    Py.index (gpus (w_configs rank1_world)) rank = Some gpu ∧
    (run rank1_world sample_config_path).2 =
      [Ext (parse_config_or_kwargs sample_config_path) None; Getenv "LOCAL_RANK";
       Getenv "WORLD_SIZE"; Setenv "CUDA_VISIBLE_DEVICES" (Py.str gpu);
       Ext (init_process_group "nccl") r'] ++ rest.
Proof.
  apply (C5_rank_and_world_size_from_environment rank1_world sample_config_path
           _ _ None (run_pair _ _)).
  in_trace.
Defined.


(** The executor's failure in the second epoch ends rank 1's run. *)
Lemma C7_witness :
  (run rank1_out_of_memory sample_config_path).1 =
    Raised (Py.Err Py.RuntimeError "CUDA out of memory") ∧
  ∃ pre, (run rank1_out_of_memory sample_config_path).2 =
           pre ++ [Ext (runepoch 2 100)
                       (Some (Py.Err Py.RuntimeError "CUDA out of memory"))].
Proof.
  apply (C7_failures_propagate rank1_out_of_memory sample_config_path _ _ _ _
           (run_pair _ _)).
  - in_trace.
  - intros (path & Hc & _). discriminate Hc.
Defined.



(** The checkpoint of epoch 3 is saved before the symlink to it is made. *)
Lemma C9_witness :
  "model_3.pt" = checkpoint_name 3 ∧
  ∃ t1 t2,
    (run rank0_world sample_config_path).2 =
      t1 ++ Ext (symlink "model_3.pt" "exp/run1/models/final_model.pt") None :: t2 ∧
    In (Ext (save_checkpoint (Py.path_join (model_dir rank0_world) "model_3.pt")) None) t1.
Proof.
  apply (C9_final_checkpoint_saved rank0_world sample_config_path _ _ _ _ 3 (run_pair _ _)).
  - in_trace.
  - reflexivity.
  - vm_compute. discriminate.
  - lia.
Defined.

(** With no epoch to run ([num_epochs] 0, [num_avg] 1), rank 0 links
    [final_model.pt] to [model_0.pt], a checkpoint that no call saved. *)
Lemma C9_counterexample :
  0 ≤ num_avg (w_configs rank0_no_epochs) ∧
  scaled_num_epochs (w_configs rank0_no_epochs) = Some 0 ∧
  (run rank0_no_epochs sample_config_path).1 = Returned ∧
  In (Ext (symlink "model_0.pt" "exp/run1/models/final_model.pt") None)
     (run rank0_no_epochs sample_config_path).2 ∧
  count (λ ev, match ev with Ext (save_checkpoint _) _ => true | _ => false end)
        (run rank0_no_epochs sample_config_path).2 = 0%nat.
Proof.
  split; [vm_compute; discriminate|]. split; [reflexivity|]. split; [reflexivity|].
  split; [in_trace|reflexivity].
Qed.

(** Two speakers and speed perturbation give a projection over six classes. *)
Lemma C10_witness :
  model_init (w_configs rank0_world) = None ∧
  num_class {| pa_embed_dim := Some 256; num_class := Some 6 |} =
    Some (if speed_perturb (dataset_args (w_configs rank0_world))
          then len (speakers rank0_world) * 3 else len (speakers rank0_world)) ∧
  pa_embed_dim {| pa_embed_dim := Some 256; num_class := Some 6 |} =
    Some (embed_dim (model_args (w_configs rank0_world))).
Proof.
  apply (proj1 (C10_projection_classes rank0_world sample_config_path _ _ (run_pair _ _))
               {| pa_embed_dim := Some 256; num_class := Some 6 |} None).
  in_trace.
Defined.

(** * Further properties of [train] *)

(** ** Start-up failures (lines 30-37) *)

Section Startup.

Variable w : World.

(** The run of a process whose configuration loads, over a schedule that is
    known. *)
Lemma run_loaded config :
  w_raises w [] (parse_config_or_kwargs config) = None →
  run w config =
    let (r, s) := exec w (tl (schedule w config))
                    {| trace := [Ext (parse_config_or_kwargs config) None];
                       environ := w_environ w |} in
    (outcome_of r, trace s).
Proof.
  intros Hload. unfold run. rewrite train_schedule.
  unfold schedule. cbn [app tl]. unfold exec at 1. cbn [for_each act].
  unfold bind at 1. unfold ext, init_state. cbn [trace]. rewrite Hload.
  reflexivity.
Qed.

Lemma run_no_rank config :
  w_raises w [] (parse_config_or_kwargs config) = None →
  w_environ w !! "LOCAL_RANK" = None →
  run w config = (Raised (Py.Err Py.KeyError "LOCAL_RANK"),
                  [Ext (parse_config_or_kwargs config) None; Getenv "LOCAL_RANK"]).
Proof.
  intros Hload Henv. rewrite (run_loaded _ Hload).
  unfold schedule. rewrite Henv. reflexivity.
Qed.

Lemma run_bad_rank config rank_str :
  w_raises w [] (parse_config_or_kwargs config) = None →
  w_environ w !! "LOCAL_RANK" = Some rank_str →
  Py.int_of_str rank_str = None →
  run w config = (Raised (Py.Err Py.ValueError rank_str),
                  [Ext (parse_config_or_kwargs config) None; Getenv "LOCAL_RANK"]).
Proof.
  intros Hload Henv Hint. rewrite (run_loaded _ Hload).
  unfold schedule. rewrite Henv, Hint. reflexivity.
Qed.

Lemma run_no_world_size config rank :
  w_raises w [] (parse_config_or_kwargs config) = None →
  rank_of w = Some rank →
  w_environ w !! "WORLD_SIZE" = None →
  run w config = (Raised (Py.Err Py.KeyError "WORLD_SIZE"),
                  [Ext (parse_config_or_kwargs config) None; Getenv "LOCAL_RANK";
                   Getenv "WORLD_SIZE"]).
Proof.
  intros Hload Hrank Henv. rewrite (run_loaded _ Hload).
  unfold schedule. unfold rank_of, mbind, option_bind in Hrank.
  destruct (w_environ w !! "LOCAL_RANK") as [rank_str|]; [|done].
  rewrite Hrank, Henv. reflexivity.
Qed.

Lemma run_bad_world_size config rank world_size_str :
  w_raises w [] (parse_config_or_kwargs config) = None →
  rank_of w = Some rank →
  w_environ w !! "WORLD_SIZE" = Some world_size_str →
  Py.int_of_str world_size_str = None →
  run w config = (Raised (Py.Err Py.ValueError world_size_str),
                  [Ext (parse_config_or_kwargs config) None; Getenv "LOCAL_RANK";
                   Getenv "WORLD_SIZE"]).
Proof.
  intros Hload Hrank Henv Hint. rewrite (run_loaded _ Hload).
  unfold schedule. unfold rank_of, mbind, option_bind in Hrank.
  destruct (w_environ w !! "LOCAL_RANK") as [rank_str|]; [|done].
  rewrite Hrank, Henv, Hint. reflexivity.
Qed.

Lemma run_no_device config rank world_size :
  w_raises w [] (parse_config_or_kwargs config) = None →
  rank_of w = Some rank → world_size_of w = Some world_size →
  Py.index (gpus (w_configs w)) rank = None →
  run w config = (Raised (Py.Err Py.IndexError "list index out of range"),
                  [Ext (parse_config_or_kwargs config) None; Getenv "LOCAL_RANK";
                   Getenv "WORLD_SIZE"]).
Proof.
  intros Hload Hrank Hws Hgpu. rewrite (run_loaded _ Hload).
  unfold schedule. unfold rank_of, world_size_of, mbind, option_bind in Hrank, Hws.
  destruct (w_environ w !! "LOCAL_RANK") as [rank_str|]; [|done].
  destruct (w_environ w !! "WORLD_SIZE") as [world_size_str|]; [|done].
  rewrite Hrank, Hws, Hgpu. reflexivity.
Qed.

(** [l[i]] fails exactly outside [-len(l) .. len(l) - 1]. *)
Lemma index_None {A} (l : list A) i :
  Py.index l i = None ↔ i < - len l ∨ len l ≤ i.
Proof.
  unfold Py.index, len.
  destruct (0 <=? i) eqn:E0; [|destruct (- Z.of_nat (length l) <=? i) eqn:E1].
  - apply Z.leb_le in E0. rewrite lookup_ge_None. lia.
  - apply Z.leb_gt in E0. apply Z.leb_le in E1. rewrite lookup_ge_None. lia.
  - apply Z.leb_gt in E0. apply Z.leb_gt in E1. split; [lia|done].
Qed.

End Startup.

(** X1. Started without [LOCAL_RANK] in the environment (with a
    configuration that loads), [train] raises [KeyError('LOCAL_RANK')] right
    after loading the configuration; with [LOCAL_RANK] an integer and
    [WORLD_SIZE] missing it raises [KeyError('WORLD_SIZE')].  In both cases
    the process has only read the environment: it made no other call. *)
Theorem X1_missing_variable_is_a_KeyError w config :
  w_raises w [] (parse_config_or_kwargs config) = None →
  (w_environ w !! "LOCAL_RANK" = None →
     run w config = (Raised (Py.Err Py.KeyError "LOCAL_RANK"),
                     [Ext (parse_config_or_kwargs config) None; Getenv "LOCAL_RANK"])) ∧
  (∀ rank, rank_of w = Some rank → w_environ w !! "WORLD_SIZE" = None →
     run w config = (Raised (Py.Err Py.KeyError "WORLD_SIZE"),
                     [Ext (parse_config_or_kwargs config) None; Getenv "LOCAL_RANK";
                      Getenv "WORLD_SIZE"])).
Proof.
  intros Hload. split.
  - apply run_no_rank, Hload.
  - intros rank. apply run_no_world_size, Hload.
Qed.

(** X2. A [LOCAL_RANK] or [WORLD_SIZE] that [int] does not accept makes
    [train] raise [ValueError] on that text, before the device is chosen and
    before the process group is initialised. *)
Theorem X2_malformed_variable_is_a_ValueError w config :
  w_raises w [] (parse_config_or_kwargs config) = None →
  (∀ rank_str, w_environ w !! "LOCAL_RANK" = Some rank_str →
     Py.int_of_str rank_str = None →
     run w config = (Raised (Py.Err Py.ValueError rank_str),
                     [Ext (parse_config_or_kwargs config) None; Getenv "LOCAL_RANK"])) ∧
  (∀ rank world_size_str, rank_of w = Some rank →
     w_environ w !! "WORLD_SIZE" = Some world_size_str →
     Py.int_of_str world_size_str = None →
     run w config = (Raised (Py.Err Py.ValueError world_size_str),
                     [Ext (parse_config_or_kwargs config) None; Getenv "LOCAL_RANK";
                      Getenv "WORLD_SIZE"])).
Proof.
  intros Hload. split.
  - intros rank_str. apply run_bad_rank, Hload.
  - intros rank world_size_str. apply run_bad_world_size, Hload.
Qed.

(** X3. A rank outside [-len(gpus) .. len(gpus) - 1] makes [train] raise
    [IndexError] at [configs['gpus'][rank]]: [CUDA_VISIBLE_DEVICES] is not
    set and the process group is not initialised. *)
Theorem X3_rank_without_device_is_an_IndexError w config rank world_size :
  w_raises w [] (parse_config_or_kwargs config) = None →
  rank_of w = Some rank → world_size_of w = Some world_size →
  rank < - len (gpus (w_configs w)) ∨ len (gpus (w_configs w)) ≤ rank →
  run w config = (Raised (Py.Err Py.IndexError "list index out of range"),
                  [Ext (parse_config_or_kwargs config) None; Getenv "LOCAL_RANK";
                   Getenv "WORLD_SIZE"]).
Proof.
  intros Hload Hrank Hws Hout.
  apply (run_no_device w config rank world_size Hload Hrank Hws).
  apply index_None, Hout.
Qed.

(** ** The handler of lines 41-45 and the processes left behind *)

Section Handler.

Variable w : World.

(** Only rank 0 calls [os.makedirs], and only on the model directory. *)
Lemma plan_makedirs config path :
  In (makedirs path) (call_plan w config) → rank_of w = Some 0 ∧ path = model_dir w.
Proof.
  unfold call_plan. intros [|Hin]; [done|].
  destruct (rank_of w) as [rank|]; [|done].
  destruct (world_size_of w) as [world_size|]; [|done].
  destruct (gpu_of w) as [gpu|]; [|done].
  cbn [app] in Hin. destruct Hin as [|Hin]; [done|].
  apply in_app_or in Hin as [Hin|Hin].
  { unfold on_rank0 in Hin. destruct (rank =? 0) eqn:E; [|done].
    apply Z.eqb_eq in E as ->. by destruct Hin as [[= <-]|[]]. }
  exfalso.
  apply in_app_or in Hin as [Hin|Hin]; [unfold data_calls in Hin; in_list Hin|].
  apply in_app_or in Hin as [Hin|Hin].
  { unfold build_calls in Hin. destruct (model_init _); in_list Hin. }
  destruct (scaled_num_epochs (w_configs w)) as [n|]; [|done].
  apply in_app_or in Hin as [Hin|Hin].
  { unfold scheduler_calls, on_rank0 in Hin. destruct (rank =? 0); in_list Hin. }
  apply in_app_or in Hin as [Hin|Hin].
  - apply In_loop_calls in Hin as (e & _ & [?|[?|(_ & _ & ?)]]); done.
  - unfold final_calls, on_rank0 in Hin. destruct (rank =? 0); in_list Hin.
Qed.

(** Nothing is printed before the last event of a run. *)
Lemma printed_events_of l : printed (events_of l) = [].
Proof.
  unfold printed, events_of. induction l as [|a l IH]; [done|].
  destruct a; simpl; exact IH.
Qed.

Lemma printed_app t1 t2 : printed (t1 ++ t2) = printed t1 ++ printed t2.
Proof. apply omap_app. Qed.

(** A run prints nothing, unless it ends in the handler of line 43. *)
Lemma run_printed config o tr :
  run w config = (o, tr) →
  printed tr = [] ∨
  ∃ e pre, Py.isinstance_IOError e = true ∧ o = Raised (Py.SystemExit 1) ∧
    tr = pre ++ [Ext (makedirs (model_dir w)) (Some e); Print (exists_msg (model_dir w))] ∧
    printed pre = [].
Proof.
  intros Hrun.
  destruct (run_shape w _ _ _ Hrun) as (l1 & l2 & tail & Hl & -> & Hs & _).
  rewrite printed_app, printed_events_of.
  destruct Hs as [|c e l|e l|path e l He Hex|path e l He Hex]; try by left.
  right. exists e, (events_of l1).
  assert (path = model_dir w) as ->.
  { apply (plan_makedirs config). rewrite <- sched_calls_schedule, Hl, sched_calls_app.
    apply in_or_app. right. by left. }
  repeat split; [done|apply printed_events_of].
Qed.

(** [os.makedirs] is only called under the [try]. *)
Lemma guarded_infos lines : Forall (λ a, guarded a = true) (map Info lines).
Proof. induction lines; by constructor. Qed.

Lemma guarded_schedule config : Forall (λ a, guarded a = true) (schedule w config).
Proof.
  unfold schedule.
  repeat (apply Forall_app; split); try by repeat constructor.
  destruct (w_environ w !! "LOCAL_RANK") as [rank_str|]; [|by repeat constructor].
  destruct (Py.int_of_str rank_str) as [rank|]; [|by repeat constructor].
  apply Forall_app; split; [by repeat constructor|].
  destruct (w_environ w !! "WORLD_SIZE") as [world_size_str|]; [|by repeat constructor].
  destruct (Py.int_of_str world_size_str) as [world_size|]; [|by repeat constructor].
  destruct (Py.index (gpus (w_configs w)) rank) as [gpu|]; [|by repeat constructor].
  unfold startup, after_startup, read_data, build, schedulers, epochs, finish, on_rank0.
  destruct (utt2spkid _ _) as [d|];
    [destruct (line_123 _) as [e|n]|];
    repeat (apply Forall_app; split);
    try destruct (rank =? 0) eqn:Hr; try destruct (1 <? world_size);
    try destruct (model_init _);
    repeat (apply Forall_app; split);
    try apply guarded_infos; try by repeat constructor.
  all: apply Forall_flat_map, Forall_forall; intros e _;
    unfold epoch_actions; rewrite Hr; try destruct (save_condition _ _) as [[]|];
    by repeat constructor.
Qed.


End Handler.

(** X4. [except IOError] catches every [OSError] of [os.makedirs], not only
    [FileExistsError]: whenever the call fails with one (a refused permission
    as well), the process is of rank 0, the path is the model directory, the
    process prints that the directory "already exists !!!" and exits with
    status 1; these are the last two events of the run, and nothing was
    printed before. *)
Theorem X4_makedirs_failure_prints_and_exits w config o tr path e :
  run w config = (o, tr) →
  In (Ext (makedirs path) (Some e)) tr →
  Py.isinstance_IOError e = true →
  rank_of w = Some 0 ∧ path = model_dir w ∧ o = Raised (Py.SystemExit 1) ∧
  ∃ pre, tr = pre ++ [Ext (makedirs path) (Some e); Print (path +:+ " already exists !!!")] ∧
         printed pre = [].
Proof.
  intros Hrun Hin He.
  destruct (plan_makedirs w config path (run_call_in_plan w _ _ _ _ _ Hrun Hin))
    as [Hrank ->].
  split; [done|]. split; [done|].
  destruct (run_shape w _ _ _ Hrun) as (l1 & l2 & tail & Hl & -> & Hs & _).
  apply in_app_or in Hin as [Hin|Hin]; [by apply events_of_no_failure in Hin|].
  destruct Hs as [|c e' l|e' l|p e' l He' Hex|p e' l He' Hex].
  - destruct Hin.
  - destruct Hin as [[= -> ->]|[]].
    pose proof (guarded_schedule w config) as Hg. rewrite Hl in Hg.
    apply Forall_app in Hg as [_ Hg]. by apply Forall_cons in Hg as [? _].
  - destruct Hin.
  - destruct Hin as [[= -> ->]|[]]. congruence.
  - destruct Hin as [[= -> ->]|[[=]|[]]].
    split; [done|]. exists (events_of l1). split; [done|apply printed_events_of].
Qed.

Section Left_behind.

Variable config : string.




End Left_behind.


(** ** A save interval of zero (line 159) *)

Section Interval.

Variable w : World.

Lemma range_cons lo hi : lo < hi → Py.range lo hi = lo :: Py.range (lo + 1) hi.
Proof.
  intros H. unfold Py.range. rewrite seqZ_cons by lia. do 2 f_equal; lia.
Qed.

(** With the interval 0, rank 0's schedule has a failure right after the
    first call of the executor. *)
Lemma schedule_interval_zero config world_size gpu n :
  rank_of w = Some 0 → world_size_of w = Some world_size → gpu_of w = Some gpu →
  scaled_num_epochs (w_configs w) = Some n → 1 ≤ n →
  save_epoch_interval (train_configs (w_configs w)) = 0 →
  ∃ setup post,
    schedule w config =
      (setup ++ [Do (set_epoch 1);
                 Do (runepoch 1 (log_batch_interval (train_configs (w_configs w))))]) ++
      Fail (zero_division "integer division or modulo by zero") :: post ∧
    sched_calls setup = setup_calls w config 0 world_size n.
Proof.
  intros Hr Hw Hg Hn Hn1 H0.
  destruct (schedule_ready w config _ _ _ _ Hr Hw Hg Hn) as (setup & Hs & Hc).
  exists setup. eexists. split; [|exact Hc].
  rewrite Hs. unfold epochs. rewrite final_configs_num_epochs.
  rewrite (range_cons 1 (n + 1)) by lia. cbn [flat_map].
  unfold epoch_actions at 1.
  rewrite final_configs_save_condition, final_configs_log_interval, H0.
  change (Py.mod_ 1 0) with (@None Z). cbn [fmap option_fmap option_map Z.eqb app].
  rewrite <- !app_assoc. cbn [app]. reflexivity.
Qed.

Lemma In_setup_not_epoch config rank world_size n setup c :
  sched_calls setup = setup_calls w config rank world_size n →
  In (Do c) setup → epoch_call c = false.
Proof.
  intros Hc Hin.
  assert (Hin' : In c (sched_calls setup)).
  { apply In_sched_calls. by exists (Do c). }
  rewrite Hc in Hin'.
  pose proof (setup_calls_class w config rank world_size n) as Hcl.
  rewrite Forall_forall in Hcl. by apply list_elem_of_In, Hcl in Hin' as [? _].
Qed.

End Interval.

(** X6. With [save_epoch_interval] 0, the condition of line 159 divides by
    zero on rank 0: whenever the executor returns from an epoch on rank 0,
    that epoch is the first, the run ends there with [ZeroDivisionError], and
    no checkpoint has been saved. *)
Theorem X6_zero_save_interval_fails_after_first_epoch w config o tr epoch li :
  run w config = (o, tr) →
  rank_of w = Some 0 →
  save_epoch_interval (train_configs (w_configs w)) = 0 →
  In (Ext (runepoch epoch li) None) tr →
  epoch = 1 ∧
  o = Raised (Py.Err Py.ZeroDivisionError "integer division or modulo by zero") ∧
  (∃ pre, tr = pre ++ [Ext (runepoch epoch li) None]) ∧
  saved tr = [].
Proof.
  intros Hrun Hrank H0 Hin.
  destruct (plan_epoch_call w config _ (run_call_in_plan w _ _ _ _ _ Hrun Hin) eq_refl)
    as (rank & ws & gpu & n & Hr & Hw & Hg & Hn).
  assert (rank = 0) as -> by congruence.
  assert (Hn1 : 1 ≤ n).
  { pose proof (run_call_in_plan w _ _ _ _ _ Hrun Hin) as Hp.
    apply (plan_epoch_member w config _ 0 n) in Hp; [|done..].
    apply In_loop_calls in Hp as (e & He & _). lia. }
  destruct (schedule_interval_zero w config ws gpu n Hr Hw Hg Hn Hn1 H0)
    as (setup & post & Hsched & Hc).
  destruct (run_success w _ _ _ _ Hrun Hin)
    as (l1 & l2 & tail & Hl & -> & Hs & Hp & a & Ha & Hac).
  destruct a; try done. injection Hac as ->.
  rewrite Hsched in Hl.
  assert (Hl1 : l1 = setup ++ [Do (set_epoch 1);
                  Do (runepoch 1 (log_batch_interval (train_configs (w_configs w))))] ∧
                l2 = Fail (zero_division "integer division or modulo by zero") :: post).
  { apply app_eq_inv in Hl as [(k & Hk1 & Hk2)|(k & Hk1 & Hk2)].
    - (* the run stopped within the first epoch or before *)
      destruct k as [|a k]; [rewrite app_nil_r in Hk1; by subst|].
      exfalso.
      assert (Hpre : ∃ k', setup ++ [Do (set_epoch 1)] = l1 ++ k').
      { destruct (exists_last (A:=action) (l:=a :: k)) as (k' & z & Hz); [done|].
        rewrite Hz in Hk1.
        change (setup ++ [Do (set_epoch 1);
                  Do (runepoch 1 (log_batch_interval (train_configs (w_configs w))))])
          with (setup ++ [Do (set_epoch 1)] ++
                  [Do (runepoch 1 (log_batch_interval (train_configs (w_configs w))))])
          in Hk1.
        rewrite !app_assoc in Hk1. apply app_inj_tail in Hk1 as [Hk1 _].
        by exists k'. }
      destruct Hpre as (k' & Hk').
      assert (Hin' : In (Do (runepoch epoch li)) (setup ++ [Do (set_epoch 1)])).
      { rewrite Hk'. apply in_or_app. by left. }
      apply in_app_or in Hin' as [Hin'|[|[]]]; [|done].
      by apply (In_setup_not_epoch w _ _ _ _ _ _ Hc) in Hin'.
    - destruct k as [|a k]; [rewrite app_nil_r in Hk1; simpl in Hk2; by subst|].
      exfalso. injection Hk2 as <- Hk2. subst l1.
      rewrite Forall_app in Hp. destruct Hp as [_ Hp].
      by apply Forall_cons in Hp as [? _]. }
  destruct Hl1 as [-> ->].
  inversion Hs; subst.
  assert (epoch = 1 ∧ li = log_batch_interval (train_configs (w_configs w))) as [-> ->].
  { apply in_app_or in Ha as [Ha|Ha].
    - by apply (In_setup_not_epoch w _ _ _ _ _ _ Hc) in Ha.
    - destruct Ha as [|[[= -> ->]|[]]]; done. }
  split; [done|]. split; [done|]. split.
  - exists (events_of (setup ++ [Do (set_epoch 1)])).
    rewrite app_nil_r, !events_of_app. by rewrite <- app_assoc.
  - unfold saved. rewrite app_nil_r, calls_events_of, sched_calls_app, Hc, omap_app.
    rewrite (omap_none save_of (setup_calls _ _ _ _ _)); [done|].
    eapply Forall_impl; [apply setup_calls_class|].
    intros c [Hc' _]. by destruct c.
Qed.

(** ** The checkpoint files (line 160) *)

Section Checkpoints.

Variable w : World.

Lemma NoDup_range lo hi : NoDup (Py.range lo hi).
Proof. apply NoDup_seqZ. Qed.

(** The checkpoints the loop saves: one per epoch that is due. *)
Lemma save_of_loop_calls rank n l :
  omap save_of (flat_map (epoch_calls w rank n) l) =
  checkpoint_path w <$> filter (λ e, (rank =? 0) && save_due w n e = true) l.
Proof.
  induction l as [|e l IH]; [done|].
  cbn [flat_map]. rewrite omap_app, IH, filter_cons. unfold epoch_calls.
  destruct ((rank =? 0) && save_due w n e) eqn:E.
  - rewrite decide_True by done. reflexivity.
  - rewrite decide_False by congruence. reflexivity.
Qed.

Lemma save_of_none l :
  Forall (λ c, epoch_call c = false) l → omap save_of l = [].
Proof.
  intros H. apply omap_none. eapply Forall_impl; [exact H|].
  intros c Hc. by destruct c.
Qed.

(** The number of epochs of line 123 bounds the loop; without one there is
    no loop. *)
Lemma save_of_plan config :
  ∃ epochs,
    omap save_of (call_plan w config) = checkpoint_path w <$> epochs ∧
    epochs `sublist_of` match scaled_num_epochs (w_configs w) with
                        | Some n => Py.range 1 (n + 1)
                        | None => []
                        end.
Proof.
  assert (Hnone : ∀ l, omap save_of l = [] →
            ∃ epochs, omap save_of l = checkpoint_path w <$> epochs ∧
              epochs `sublist_of` match scaled_num_epochs (w_configs w) with
                                  | Some n => Py.range 1 (n + 1)
                                  | None => []
                                  end).
  { intros l ->. exists []. split; [done|apply sublist_nil_l]. }
  destruct (rank_of w) as [rank|] eqn:Hr;
    [destruct (world_size_of w) as [ws|] eqn:Hw;
     [destruct (gpu_of w) as [gpu|] eqn:Hg|]|].
  - destruct (scaled_num_epochs (w_configs w)) as [n|] eqn:Hn.
    + exists (filter (λ e, (rank =? 0) && save_due w n e = true) (Py.range 1 (n + 1))).
      split; [|apply sublist_filter].
      rewrite (call_plan_ready w config _ _ _ _ Hr Hw Hg Hn), !omap_app.
      rewrite (save_of_none (setup_calls _ _ _ _ _)), (save_of_none (final_calls _ _ _)).
      * rewrite app_nil_r. apply save_of_loop_calls.
      * eapply Forall_impl; [apply final_calls_class|]. by intros c [? _].
      * eapply Forall_impl; [apply setup_calls_class|]. by intros c [? _].
    + exists []. split; [|done].
      rewrite (call_plan_unscaled w config _ _ _ Hr Hw Hg Hn).
      apply save_of_none.
      eapply Forall_impl; [apply early_calls_class|]. by intros c [? _].
  - apply Hnone. by rewrite call_plan_unread by auto.
  - apply Hnone. by rewrite call_plan_unread by auto.
  - apply Hnone. by rewrite call_plan_unread by auto.
Qed.

End Checkpoints.

(** X7. No run saves two checkpoints to the same file: the paths given to
    [save_checkpoint] are pairwise distinct.  They are the files
    [model_{e}.pt] of the model directory for some of the epochs [1 .. n], in
    the order of the epochs, [n] being the number of epochs of line 123; when
    line 123 fails, none is saved. *)
Theorem X7_checkpoints_go_to_distinct_files w config o tr :
  run w config = (o, tr) →
  NoDup (saved tr) ∧
  ∃ epochs, saved tr = checkpoint_path w <$> epochs ∧
            epochs `sublist_of` match scaled_num_epochs (w_configs w) with
                                | Some n => Py.range 1 (n + 1)
                                | None => []
                                end.
Proof.
  intros Hrun.
  pose proof (omap_prefix save_of _ _ (run_calls_plan w _ _ _ Hrun)) as Hp.
  destruct (save_of_plan w config) as (epochs & Hplan & Hsub).
  rewrite Hplan in Hp. fold (saved tr) in Hp. clear Hplan.
  destruct Hp as [k Hk].
  apply fmap_app_inv in Hk as (e1 & e2 & He1 & He2 & ->).
  assert (Hsub1 : e1 `sublist_of` match scaled_num_epochs (w_configs w) with
                                  | Some n => Py.range 1 (n + 1)
                                  | None => []
                                  end).
  { etrans; [|exact Hsub]. apply sublist_inserts_r. reflexivity. }
  split; [|by exists e1].
  rewrite He1. apply NoDup_fmap_2.
  - intros x y. apply checkpoint_path_inj.
  - eapply sublist_NoDup; [|exact Hsub1].
    destruct (scaled_num_epochs _); [apply NoDup_range|constructor].
Qed.

(** ** The arguments of the calls (lines 60-142) *)

(** The part of the plan a call is in, case by case. *)
Ltac plan_search Hin rank ws n :=
  let Hr := fresh "Hr" in
  let Hw := fresh "Hw" in
  let Hn := fresh "Hn" in
  apply plan_cases in Hin as [Hin|(rank & ws & Hr & Hw & Hin)]; [discriminate Hin|];
  destruct Hin as [Hin|[Hin|[Hin|[Hin|(n & Hn & [Hin|[Hin|Hin]])]]]];
  [ discriminate Hin
  | discriminate Hin
  | unfold data_calls in Hin; in_list Hin
  | unfold build_calls in Hin;
    match type of Hin with
    | context [model_init (with_feat_dim (w_configs ?w))] =>
        change (model_init (with_feat_dim (w_configs w)))
          with (model_init (w_configs w)) in Hin;
        destruct (model_init (w_configs w)) eqn:?; in_list Hin
    end
  | unfold scheduler_calls, on_rank0 in Hin; destruct (rank =? 0) eqn:?; in_list Hin
  | apply In_loop_calls in Hin as (? & _ & [Hin|[Hin|(_ & _ & Hin)]]); discriminate Hin
  | unfold final_calls, on_rank0 in Hin; destruct (rank =? 0); in_list Hin ].

Lemma Config_eq (c c' : Config) :
  exp_dir c = exp_dir c' → gpus c = gpus c' → seed c = seed c' → model c = model c' →
  model_init c = model_init c' → loss c = loss c' → optimizer c = optimizer c' →
  scheduler c = scheduler c' → num_avg c = num_avg c' →
  dataset_args c = dataset_args c' → feature_args c = feature_args c' →
  model_args c = model_args c' → projection_args c = projection_args c' →
  optimizer_args c = optimizer_args c' → scheduler_args c = scheduler_args c' →
  train_configs c = train_configs c' → margin_update c = margin_update c' →
  c = c'.
Proof. destruct c, c'. simpl. by intros; subst. Qed.

Section Arguments.

Variable w : World.

(** The configuration when the loop starts is the one loaded, but for the
    keys the script assigns. *)
Lemma final_configs_eq world_size n :
  final_configs w world_size n =
  let c := w_configs w in
  {| exp_dir := exp_dir c; gpus := gpus c; seed := seed c; model := model c;
     model_init := model_init c; loss := loss c; optimizer := optimizer c;
     scheduler := scheduler c; num_avg := num_avg c;
     dataset_args := dataset_args c;
     feature_args := {| fa_feat_dim := Some (feat_dim (model_args c)) |};
     model_args := model_args c;
     projection_args :=
       match model_init c with
       | Some _ => projection_args c
       | None => {| pa_embed_dim := Some (embed_dim (model_args c));
                    num_class := Some (if speed_perturb (dataset_args c)
                                       then len (speakers w) * 3 else len (speakers w)) |}
       end;
     optimizer_args := {| lr := Some (initial_lr (scheduler_args c)) |};
     scheduler_args := {| initial_lr := initial_lr (scheduler_args c);
                          sa_num_epochs := Some n;
                          sa_epoch_iter := Some (w_epoch_iter w);
                          process_num := Some world_size |};
     train_configs := {| num_epochs := n;
                         log_batch_interval := log_batch_interval (train_configs c);
                         save_epoch_interval := save_epoch_interval (train_configs c) |};
     margin_update := {| mu_epoch_iter := Some (w_epoch_iter w) |} |}.
Proof.
  cbv zeta. apply Config_eq.
  all: unfold final_configs, configs_at_122, with_margin, with_schedule, with_lr,
         with_projection, with_feat_dim.
  all: change (model_init (set_feature_args _ (w_configs w)))
         with (model_init (w_configs w)).
  all: rewrite ?spk2id_len.
  all: destruct (model_init (w_configs w)) eqn:E; simpl; rewrite ?E; try reflexivity.
  all: destruct (speed_perturb (dataset_args (w_configs w))); simpl; rewrite ?E;
         reflexivity.
Qed.

Lemma plan_set_seed config s :
  In (set_seed s) (call_plan w config) →
  ∃ rank, rank_of w = Some rank ∧ s = seed (w_configs w) + rank.
Proof.
  intros Hin. plan_search Hin rank ws n.
  injection Hin as <-. by exists rank.
Qed.

Lemma plan_build_optimizer config name oa :
  In (build_optimizer name oa) (call_plan w config) →
  name = optimizer (w_configs w) ∧
  oa = {| lr := Some (initial_lr (scheduler_args (w_configs w))) |}.
Proof.
  intros Hin. plan_search Hin rank ws n.
  - by injection Hin as <- <-.
  - injection Hin as <- <-. unfold with_projection. cbv zeta.
    change (speed_perturb (dataset_args (set_projection_args _ _)))
      with (speed_perturb (dataset_args (w_configs w))).
    by destruct (speed_perturb (dataset_args (w_configs w))).
Qed.

Lemma plan_dataset config fa da :
  In (FeatList_LableDict_Dataset fa da) (call_plan w config) →
  fa = {| fa_feat_dim := Some (feat_dim (model_args (w_configs w))) |} ∧
  da = dataset_args (w_configs w).
Proof.
  intros Hin. plan_search Hin rank ws n; by injection Hin as <- <-.
Qed.

Lemma plan_build_model config name ma :
  In (build_model name ma) (call_plan w config) →
  name = model (w_configs w) ∧ ma = model_args (w_configs w).
Proof.
  intros Hin. plan_search Hin rank ws n; by injection Hin as <- <-.
Qed.

Lemma plan_load_checkpoint config path :
  In (load_checkpoint path) (call_plan w config) → model_init (w_configs w) = Some path.
Proof.
  intros Hin. plan_search Hin rank ws n. by injection Hin as <-.
Qed.

Lemma plan_build_scheduler config name sa :
  In (build_scheduler name sa) (call_plan w config) →
  ∃ world_size n,
    world_size_of w = Some world_size ∧ scaled_num_epochs (w_configs w) = Some n ∧
    name = scheduler (w_configs w) ∧
    sa = {| initial_lr := initial_lr (scheduler_args (w_configs w));
            sa_num_epochs := Some n;
            sa_epoch_iter := Some (w_epoch_iter w);
            process_num := Some world_size |}.
Proof.
  intros Hin. plan_search Hin rank ws n.
  all: injection Hin as <- <-; exists ws, n; split; [done|]; split; [done|].
  all: destruct (model_init (w_configs w)); [by split|].
  all: unfold with_projection; cbv zeta.
  all: change (speed_perturb (dataset_args (set_projection_args _ _)))
         with (speed_perturb (dataset_args (w_configs w))).
  all: by destruct (speed_perturb (dataset_args (w_configs w))).
Qed.

Lemma plan_margin_scheduler config mu :
  In (MarginScheduler mu) (call_plan w config) →
  mu = {| mu_epoch_iter := Some (w_epoch_iter w) |}.
Proof.
  intros Hin. plan_search Hin rank ws n; by injection Hin as <-.
Qed.

Lemma plan_config_save config c :
  In c (call_plan w config) →
  (∃ path, c = open_w path) ∨ (∃ c', c = yaml_dump c') ∨ (∃ data, c = file_write data) →
  rank_of w = Some 0 ∧
  ∃ world_size n,
    world_size_of w = Some world_size ∧ scaled_num_epochs (w_configs w) = Some n ∧
    (c = open_w (Py.path_join (exp_dir (w_configs w)) "config.yaml") ∨
     c = yaml_dump (final_configs w world_size n) ∨
     c = file_write (w_yaml w (final_configs w world_size n))).
Proof.
  intros Hin Hc.
  assert (Hexp : ∀ ws n, exp_dir (final_configs w ws n) = exp_dir (w_configs w)).
  { intros ws n. by rewrite final_configs_eq. }
  destruct Hc as [[path ->]|[[c' ->]|[data ->]]]; plan_search Hin rank ws n.
  all: match goal with H : (_ =? 0) = true |- _ => apply Z.eqb_eq in H as -> end.
  all: split; [done|]; eexists _, _; split; [eassumption|]; split; [eassumption|].
  all: injection Hin as <-; first [left; do 2 f_equal; exact (Hexp ws n) | auto].
Qed.

End Arguments.

(** X8. Every process seeds its generators with [configs['seed'] + rank]:
    two processes that share the configured seed use the same seed exactly
    when they have the same rank. *)
Theorem X8_seed_is_offset_by_rank w1 w2 config o1 tr1 o2 tr2 s1 s2 r1 r2 :
  run w1 config = (o1, tr1) → run w2 config = (o2, tr2) →
  In (Ext (set_seed s1) r1) tr1 → In (Ext (set_seed s2) r2) tr2 →
  seed (w_configs w1) = seed (w_configs w2) →
  (∃ rank, rank_of w1 = Some rank ∧ s1 = seed (w_configs w1) + rank) ∧
  (s1 = s2 ↔ rank_of w1 = rank_of w2).
Proof.
  intros Hrun1 Hrun2 Hin1 Hin2 Hseed.
  destruct (plan_set_seed w1 config s1 (run_call_in_plan w1 _ _ _ _ _ Hrun1 Hin1))
    as (rank1 & Hr1 & ->).
  destruct (plan_set_seed w2 config s2 (run_call_in_plan w2 _ _ _ _ _ Hrun2 Hin2))
    as (rank2 & Hr2 & ->).
  split; [by exists rank1|].
  rewrite Hr1, Hr2, Hseed. split; [intros H; f_equal; lia | by intros [= ->]].
Qed.

(** X9. The optimizer is built with [lr] set to the scheduler's
    [initial_lr], whatever [optimizer_args] said (line 116), and is the class
    the configuration names. *)
Theorem X9_optimizer_starts_at_initial_lr w config o tr name oa r :
  run w config = (o, tr) →
  In (Ext (build_optimizer name oa) r) tr →
  name = optimizer (w_configs w) ∧
  lr oa = Some (initial_lr (scheduler_args (w_configs w))).
Proof.
  intros Hrun Hin.
  destruct (plan_build_optimizer w config name oa (run_call_in_plan w _ _ _ _ _ Hrun Hin))
    as [-> ->].
  done.
Qed.

(** X10. The learning-rate scheduler is built with [num_epochs] the number
    of epochs of line 123, [epoch_iter] the length of the dataloader and
    [process_num] the world size read from [WORLD_SIZE], keeping the
    configured [initial_lr]; the margin scheduler is built with the same
    [epoch_iter]. *)
Theorem X10_scheduler_arguments w config o tr :
  run w config = (o, tr) →
  (∀ name sa r, In (Ext (build_scheduler name sa) r) tr →
     ∃ world_size n,
       world_size_of w = Some world_size ∧ scaled_num_epochs (w_configs w) = Some n ∧
       name = scheduler (w_configs w) ∧
       sa = {| initial_lr := initial_lr (scheduler_args (w_configs w));
               sa_num_epochs := Some n;
               sa_epoch_iter := Some (w_epoch_iter w);
               process_num := Some world_size |}) ∧
  (∀ mu r, In (Ext (MarginScheduler mu) r) tr →
     mu = {| mu_epoch_iter := Some (w_epoch_iter w) |}).
Proof.
  intros Hrun. split.
  - intros name sa r Hin.
    apply (plan_build_scheduler w config), (run_call_in_plan w _ _ _ _ _ Hrun Hin).
  - intros mu r Hin.
    apply (plan_margin_scheduler w config), (run_call_in_plan w _ _ _ _ _ Hrun Hin).
Qed.

(** X11. The dataset is built with [feat_dim] overwritten by the model's
    [feat_dim] (line 79) and with the configured [dataset_args]; the model is
    the class the configuration names, built with the configured
    [model_args]: features and model agree on the dimension. *)
Theorem X11_dataset_has_the_feature_dimension_of_the_model w config o tr :
  run w config = (o, tr) →
  (∀ fa da r, In (Ext (FeatList_LableDict_Dataset fa da) r) tr →
     fa_feat_dim fa = Some (feat_dim (model_args (w_configs w))) ∧
     da = dataset_args (w_configs w)) ∧
  (∀ name ma r, In (Ext (build_model name ma) r) tr →
     name = model (w_configs w) ∧ ma = model_args (w_configs w)).
Proof.
  intros Hrun. split.
  - intros fa da r Hin.
    destruct (plan_dataset w config fa da (run_call_in_plan w _ _ _ _ _ Hrun Hin))
      as [-> ->].
    done.
  - intros name ma r Hin.
    apply (plan_build_model w config), (run_call_in_plan w _ _ _ _ _ Hrun Hin).
Qed.

(** X12. Only rank 0 writes [config.yaml], into the experiment directory,
    and what it dumps is the configuration as the script has changed it: the
    loaded one with [feat_dim], the projection arguments (when training from
    scratch), [lr], the scheduler's [num_epochs], [epoch_iter] and
    [process_num], the margin scheduler's [epoch_iter], and with
    [train_configs.num_epochs] replaced by the number of epochs of line
    123. *)
Theorem X12_saved_configuration w config o tr c r :
  run w config = (o, tr) →
  In (Ext c r) tr →
  (∃ path, c = open_w path) ∨ (∃ c', c = yaml_dump c') ∨ (∃ data, c = file_write data) →
  rank_of w = Some 0 ∧
  ∃ world_size n saved_configs,
    world_size_of w = Some world_size ∧ scaled_num_epochs (w_configs w) = Some n ∧
    (c = open_w (Py.path_join (exp_dir (w_configs w)) "config.yaml") ∨
     c = yaml_dump saved_configs ∨ c = file_write (w_yaml w saved_configs)) ∧
    saved_configs =
      {| exp_dir := exp_dir (w_configs w); gpus := gpus (w_configs w);
         seed := seed (w_configs w); model := model (w_configs w);
         model_init := model_init (w_configs w); loss := loss (w_configs w);
         optimizer := optimizer (w_configs w); scheduler := scheduler (w_configs w);
         num_avg := num_avg (w_configs w);
         dataset_args := dataset_args (w_configs w);
         feature_args := {| fa_feat_dim := Some (feat_dim (model_args (w_configs w))) |};
         model_args := model_args (w_configs w);
         projection_args :=
           match model_init (w_configs w) with
           | Some _ => projection_args (w_configs w)
           | None =>
               {| pa_embed_dim := Some (embed_dim (model_args (w_configs w)));
                  num_class := Some (if speed_perturb (dataset_args (w_configs w))
                                     then len (speakers w) * 3 else len (speakers w)) |}
           end;
         optimizer_args := {| lr := Some (initial_lr (scheduler_args (w_configs w))) |};
         scheduler_args := {| initial_lr := initial_lr (scheduler_args (w_configs w));
                              sa_num_epochs := Some n;
                              sa_epoch_iter := Some (w_epoch_iter w);
                              process_num := Some world_size |};
         train_configs :=
           {| num_epochs := n;
              log_batch_interval := log_batch_interval (train_configs (w_configs w));
              save_epoch_interval := save_epoch_interval (train_configs (w_configs w)) |};
         margin_update := {| mu_epoch_iter := Some (w_epoch_iter w) |} |}.
Proof.
  intros Hrun Hin Hc.
  destruct (plan_config_save w config c (run_call_in_plan w _ _ _ _ _ Hrun Hin) Hc)
    as (Hr & ws & n & Hw & Hn & Hc').
  split; [done|]. exists ws, n, (final_configs w ws n).
  split; [done|]. split; [done|]. split; [done|].
  apply final_configs_eq.
Qed.

Section Initial_model.

Variable w : World.

Lemma In_calls_returned config tr c :
  run w config = (Returned, tr) → In c (call_plan w config) → In (Ext c None) tr.
Proof.
  intros Hrun Hin. rewrite <- (run_returned_plan w _ _ Hrun) in Hin.
  apply In_calls in Hin as [[e|] Hin]; [|done].
  pose proof (returned_not_raised w _ _ Hrun) as Hok.
  rewrite Forall_forall in Hok. by apply list_elem_of_In, Hok in Hin.
Qed.

Lemma plan_has_build_calls config rank world_size gpu c :
  rank_of w = Some rank → world_size_of w = Some world_size → gpu_of w = Some gpu →
  In c (build_calls w) → In c (call_plan w config).
Proof.
  intros Hr Hw Hg Hin. unfold call_plan. rewrite Hr, Hw, Hg.
  right. apply in_or_app. right. apply in_or_app. right.
  apply in_or_app. right. apply in_or_app. by left.
Qed.

End Initial_model.

(** X13. [load_checkpoint] is called only with the configured [model_init],
    and a run that returns with a [model_init] has called it: the initial
    model is loaded exactly when one is configured. *)
Theorem X13_initial_model_is_loaded_when_configured w config o tr :
  run w config = (o, tr) →
  (∀ path r, In (Ext (load_checkpoint path) r) tr → model_init (w_configs w) = Some path) ∧
  (o = Returned → ∀ path, model_init (w_configs w) = Some path →
     In (Ext (load_checkpoint path) None) tr).
Proof.
  intros Hrun. split.
  - intros path r Hin.
    apply (plan_load_checkpoint w config), (run_call_in_plan w _ _ _ _ _ Hrun Hin).
  - intros -> path Hinit.
    destruct (returned_ready w _ _ Hrun) as (rank & ws & gpu & n & Hr & Hw & Hg & Hn).
    apply (In_calls_returned w config _ _ Hrun).
    apply (plan_has_build_calls w config _ _ _ _ Hr Hw Hg).
    unfold build_calls.
    change (model_init (with_feat_dim (w_configs w))) with (model_init (w_configs w)).
    rewrite Hinit. cbv zeta. cbn [app In]. auto 10.
Qed.

(** X14. A process whose rank is not 0 makes none of the script's
    file-system calls: it never calls [os.makedirs], [open], [yaml.dump],
    [write], [save_checkpoint] or [os.symlink]; and it prints nothing. *)
Theorem X14_other_ranks_make_no_file_calls w config o tr rank :
  run w config = (o, tr) →
  rank_of w = Some rank → rank ≠ 0 →
  (∀ c r, In (Ext c r) tr → writes_files c = false) ∧ printed tr = [].
Proof.
  intros Hrun Hrank Hne.
  assert (Hw : ∀ c r, In (Ext c r) tr → writes_files c = false).
  { intros c r Hin. apply (run_call_in_plan w _ _ _ _ _ Hrun) in Hin.
    destruct (writes_files c) eqn:Hc; [exfalso|done].
    destruct c; try discriminate Hc.
    - apply plan_makedirs in Hin as [? _]. congruence.
    - destruct (plan_config_save w config _ Hin) as [? _]; [eauto|congruence].
    - destruct (plan_config_save w config _ Hin) as [? _]; [eauto|congruence].
    - destruct (plan_config_save w config _ Hin) as [? _]; [eauto 6|congruence].
    - destruct (plan_late_call w config _ Hin (or_introl eq_refl))
        as (rank' & ws & gpu & n & Hr & _ & _ & Hn).
      apply (plan_epoch_member w config _ rank' n) in Hin; [|done..].
      apply In_loop_calls in Hin as (e & _ & [?|[?|(? & _)]]); congruence.
    - destruct (plan_late_call w config _ Hin (or_intror eq_refl))
        as (rank' & ws & gpu & n & Hr & Hws & Hg & Hn).
      rewrite (call_plan_ready w config _ _ _ _ Hr Hws Hg Hn) in Hin.
      apply in_app_or in Hin as [Hin|Hin]; [|apply in_app_or in Hin as [Hin|Hin]].
      + pose proof (setup_calls_class w config rank' ws n) as Hcl.
        rewrite Forall_forall in Hcl. by apply list_elem_of_In, Hcl in Hin as [_ ?].
      + pose proof (loop_calls_class w rank' n) as Hcl.
        rewrite Forall_forall in Hcl. by apply list_elem_of_In, Hcl in Hin as [_ ?].
      + unfold final_calls, on_rank0 in Hin.
        destruct (rank' =? 0) eqn:E; [|done]. apply Z.eqb_eq in E. congruence. }
  split; [exact Hw|].
  destruct (run_printed w _ _ _ Hrun) as [Hp|(e & pre & _ & _ & -> & _)]; [done|].
  exfalso. specialize (Hw (makedirs (model_dir w)) (Some e)). simpl in Hw.
  assert (true = false); [|done]. apply Hw, in_or_app. right. by left.
Qed.

(** ** What the other ranks log *)

Section Logging.

Variable w : World.







End Logging.


(** ** Line 123 in floating point *)

(** *** Digits and shifts *)

Lemma digits2_pos_upper p : Z.pos p < 2 ^ Z.pos (digits2_pos p).
Proof.
  induction p as [p IH|p IH|]; cbn [digits2_pos];
    rewrite ?Pos2Z.inj_succ, ?Z.pow_succ_r by lia; lia.
Qed.

Lemma digits2_pos_lower p : 2 ^ (Z.pos (digits2_pos p) - 1) ≤ Z.pos p.
Proof.
  induction p as [p IH|p IH|]; cbn [digits2_pos]; [| |done].
  all: rewrite Pos2Z.inj_succ.
  all: replace (Z.succ (Z.pos (digits2_pos p)) - 1)
         with (Z.succ (Z.pos (digits2_pos p) - 1)) by lia.
  all: rewrite Z.pow_succ_r by lia; lia.
Qed.

Lemma digits2_pos_unique p k :
  2 ^ (k - 1) ≤ Z.pos p < 2 ^ k → 1 ≤ k → Z.pos (digits2_pos p) = k.
Proof.
  intros [Hlo Hhi] Hk.
  pose proof (digits2_pos_le p k Hhi ltac:(lia)) as Hle.
  pose proof (digits2_pos_upper p) as Hup.
  destruct (Z.eq_dec (Z.pos (digits2_pos p)) k) as [|Hne]; [done|exfalso].
  assert (2 ^ Z.pos (digits2_pos p) ≤ 2 ^ (k - 1)) by (apply Z.pow_le_mono_r; lia).
  lia.
Qed.

Lemma shr_m_of_loc m l : shr_m (shr_record_of_loc m l) = m.
Proof. by destruct l as [|[]]. Qed.

Lemma shr_1_m mrs : 0 ≤ shr_m mrs → shr_m (shr_1 mrs) = shr_m mrs / 2.
Proof.
  destruct mrs as [m r s]. cbn [shr_m]. intros Hm.
  destruct m as [|[p|p|]|p]; cbn [shr_1 shr_m]; try lia.
  - reflexivity.
  - apply (Z.div_unique _ _ _ 1); lia.
  - apply (Z.div_unique _ _ _ 0); lia.
  - reflexivity.
Qed.

Lemma iter_shr_1_m n mrs :
  0 ≤ shr_m mrs → shr_m (SpecFloat.iter_pos shr_1 n mrs) = shr_m mrs / 2 ^ Z.pos n.
Proof.
  revert mrs. induction n as [n IH|n IH|]; intros mrs Hm; cbn [SpecFloat.iter_pos].
  - assert (H1 : 0 ≤ shr_m (shr_1 mrs)).
    { rewrite shr_1_m by done. apply Z.div_pos; lia. }
    assert (H2 : 0 ≤ shr_m (SpecFloat.iter_pos shr_1 n (shr_1 mrs))).
    { rewrite IH by done. apply Z.div_pos; lia. }
    rewrite IH, IH, shr_1_m by done.
    rewrite !Z.div_div by lia. f_equal.
    replace (Z.pos n~1) with (1 + Z.pos n + Z.pos n) by lia.
    rewrite !Z.pow_add_r by lia. ring.
  - assert (H2 : 0 ≤ shr_m (SpecFloat.iter_pos shr_1 n mrs)).
    { rewrite IH by done. apply Z.div_pos; lia. }
    rewrite IH, IH by done.
    rewrite !Z.div_div by lia. f_equal.
    replace (Z.pos n~0) with (Z.pos n + Z.pos n) by lia.
    by rewrite Z.pow_add_r by lia.
  - by rewrite shr_1_m.
Qed.

Lemma round_nearest_even_cases m l :
  round_nearest_even m l = m ∨ round_nearest_even m l = m + 1.
Proof. destruct l as [|[]]; cbn; try destruct (Z.even m); auto. Qed.

(** *** Rounding a mantissa of at least 53 bits, in the normal range

    The result has 53 bits; it is the mantissa without its low bits, or the
    next one. *)
Lemma binary_round_aux_normal s p e l :
  53 ≤ Z.pos (digits2_pos p) →
  -1074 ≤ e + (Z.pos (digits2_pos p) - 53) < 971 →
  ∃ mf ef,
    binary_round_aux Py.prec Py.emax s (Z.pos p) e l = S754_finite s mf ef ∧
    Z.pos (digits2_pos mf) = 53 ∧
    e + (Z.pos (digits2_pos p) - 53) ≤ ef ∧
    Z.pos p / 2 ^ (Z.pos (digits2_pos p) - 53)
      ≤ Z.pos mf * 2 ^ (ef - (e + (Z.pos (digits2_pos p) - 53)))
      ≤ Z.pos p / 2 ^ (Z.pos (digits2_pos p) - 53) + 1.
Proof.
  set (n := Z.pos (digits2_pos p) - 53). intros Hd He.
  pose proof (digits2_pos_upper p) as Hup. pose proof (digits2_pos_lower p) as Hlo.
  assert (Hn : 0 ≤ n) by lia.
  (* the first shift *)
  assert (H1 : ∃ mrs, shr_fexp Py.prec Py.emax (Z.pos p) e l = (mrs, e + n) ∧
                      shr_m mrs = Z.pos p / 2 ^ n).
  { unfold shr_fexp, fexp, emin, Py.prec, Py.emax. cbn [Zdigits2].
    replace (Z.max (Z.pos (digits2_pos p) + e - 53) (3 - 1024 - 53) - e) with n by lia.
    unfold shr. destruct n as [|pn|pn] eqn:En; [|  |lia].
    - eexists. split; [by rewrite Z.add_0_r|]. by rewrite shr_m_of_loc, Z.div_1_r.
    - eexists. split; [done|]. rewrite iter_shr_1_m; rewrite shr_m_of_loc; [done|lia]. }
  destruct H1 as (mrs & Hshr & Hm).
  set (m1 := Z.pos p / 2 ^ n) in *.
  assert (Hm1 : 2 ^ 52 ≤ m1 < 2 ^ 53).
  { unfold m1. split.
    - apply Z.div_le_lower_bound; [lia|].
      rewrite <- Z.pow_add_r by lia. replace (n + 52) with (Z.pos (digits2_pos p) - 1) by lia.
      done.
    - apply Z.div_lt_upper_bound; [lia|].
      rewrite <- Z.pow_add_r by lia. replace (n + 53) with (Z.pos (digits2_pos p)) by lia.
      done. }
  unfold binary_round_aux. rewrite Hshr, Hm.
  (* rounding *)
  destruct (round_nearest_even_cases m1 (loc_of_shr_record mrs)) as [Hr|Hr]; rewrite Hr.
  - (* down *)
    destruct m1 as [|p1|p1] eqn:E1; try lia.
    assert (Hd1 : Z.pos (digits2_pos p1) = 53) by (apply digits2_pos_unique; lia).
    rewrite (shr_fexp_exact p1 (e + n) Hd1) by lia. cbn [shr_m].
    unfold Py.prec, Py.emax. destruct (Z.leb_spec (e + n) (1024 - 53)); [|lia].
    exists p1, (e + n). rewrite Z.sub_diag, Z.mul_1_r.
    split; [done|]. split; [done|]. lia.
  - (* up *)
    destruct (Z.eq_dec (m1 + 1) (2 ^ 53)) as [Hc|Hc].
    + (* the carry gives one more bit *)
      rewrite Hc. change (2 ^ 53) with (Z.pos 9007199254740992).
      assert (Hs : shr_fexp Py.prec Py.emax (Z.pos 9007199254740992) (e + n) loc_Exact =
                   ({| shr_m := Z.pos 4503599627370496; shr_r := false; shr_s := false |},
                    e + n + 1)).
      { unfold shr_fexp, fexp, emin, Py.prec, Py.emax. cbn [Zdigits2 shr_record_of_loc].
        change (Z.pos (digits2_pos 9007199254740992)) with 54.
        replace (Z.max (54 + (e + n) - 53) (3 - 1024 - 53) - (e + n)) with 1 by lia.
        reflexivity. }
      rewrite Hs. cbn [shr_m]. unfold Py.prec, Py.emax.
      destruct (Z.leb_spec (e + n + 1) (1024 - 53)); [|lia].
      exists 4503599627370496%positive, (e + n + 1).
      replace (e + n + 1 - (e + n)) with 1 by lia.
      split; [done|]. split; [done|]. lia.
    + destruct (m1 + 1) as [|p2|p2] eqn:E2; try lia.
      assert (Hd2 : Z.pos (digits2_pos p2) = 53) by (apply digits2_pos_unique; lia).
      rewrite (shr_fexp_exact p2 (e + n) Hd2) by lia. cbn [shr_m].
      unfold Py.prec, Py.emax. destruct (Z.leb_spec (e + n) (1024 - 53)); [|lia].
      exists p2, (e + n). rewrite Z.sub_diag, Z.mul_1_r.
      split; [done|]. split; [done|]. lia.
Qed.

(** *** The float of a number of epochs *)

(** An integer of at most [2^53] converts exactly, to a mantissa of 53
    bits. *)
Lemma float_of_int_small n :
  0 < n ≤ 2 ^ 53 →
  ∃ mx ex, Py.float_of_int n = inr (S754_finite false mx ex) ∧
           Z.pos (digits2_pos mx) = 53 ∧ -52 ≤ ex ≤ 1 ∧
           Z.shiftl (Z.pos mx) ex = n.
Proof.
  intros Hn. destruct (Z.eq_dec n (2 ^ 53)) as [->|Hne].
  { exists 4503599627370496%positive, 1. by vm_compute. }
  destruct n as [|p|p]; try lia.
  assert (Hp : Z.pos p < 2 ^ 53) by lia.
  pose proof (digits2_pos_le p 53 Hp ltac:(lia)) as Hd.
  unfold Py.float_of_int, binary_normalize. rewrite (binary_round_small false p Hd).
  set (k := 53 - Z.pos (digits2_pos p)).
  assert (Hk : 0 ≤ k ≤ 52) by lia.
  assert (Hm : Z.pos (Z.to_pos (Z.pos p * 2 ^ k)) = Z.pos p * 2 ^ k).
  { apply Z2Pos.id. apply Z.mul_pos_pos; [lia|]. apply Z.pow_pos_nonneg; lia. }
  eexists _, _. split; [reflexivity|]. split; [|split; [lia|]].
  - destruct (Z.eq_dec k 0) as [Hk0|Hk0].
    + rewrite Hk0, Z.mul_1_r. cbn [Z.to_pos]. lia.
    + destruct k as [|k'|k'] eqn:E; [done| |lia].
      rewrite <- Zpos_iter. cbn [Z.to_pos]. rewrite digits2_pos_iter. lia.
  - rewrite Hm. replace (Z.pos (digits2_pos p) - 53) with (- k) by lia.
    rewrite Z.shiftl_opp_r, Z.shiftr_div_pow2 by lia.
    apply Z.div_mul. apply Z.pow_nonzero; lia.
Qed.

(** [int] of a float is monotone in the mantissa and the exponent. *)
Lemma shiftl_le a b e : a ≤ b → Z.shiftl a e ≤ Z.shiftl b e.
Proof.
  intros Hab. destruct (Z.le_gt_cases 0 e) as [He|He].
  - rewrite !Z.shiftl_mul_pow2 by done. apply Z.mul_le_mono_nonneg_r; [|done].
    apply Z.pow_nonneg; lia.
  - replace e with (- - e) by lia. rewrite !Z.shiftl_opp_r, !Z.shiftr_div_pow2 by lia.
    apply Z.div_le_mono; [|done]. apply Z.pow_pos_nonneg; lia.
Qed.

Lemma int_of_float_le mx ex mf ef :
  ex ≤ ef → Z.pos mx ≤ Z.pos mf * 2 ^ (ef - ex) →
  Z.shiftl (Z.pos mx) ex ≤ Z.shiftl (Z.pos mf) ef.
Proof.
  intros He Hm. replace ef with ((ef - ex) + ex) at 1 by lia.
  rewrite <- Z.shiftl_shiftl by lia. rewrite (Z.shiftl_mul_pow2 _ (ef - ex)) by lia.
  by apply shiftl_le.
Qed.

(** *** Dividing by a float below one *)

Lemma digits2_pos_53 p : Z.pos (digits2_pos p) = 53 → 2 ^ 52 ≤ Z.pos p < 2 ^ 53.
Proof.
  intros Hd. pose proof (digits2_pos_upper p) as Hup.
  pose proof (digits2_pos_lower p) as Hlo. rewrite Hd in Hup, Hlo. done.
Qed.

(** The quotient of a float by a float below one, both with 53 bits: the
    result is not below the dividend. *)
Lemma div_grows mx ex md ed :
  Z.pos (digits2_pos mx) = 53 → Z.pos (digits2_pos md) = 53 →
  -52 ≤ ex ≤ 1 → -105 ≤ ed ≤ -53 →
  ∃ mf ef,
    SFdiv Py.prec Py.emax (S754_finite false mx ex) (S754_finite false md ed) =
      S754_finite false mf ef ∧
    ex ≤ ef ∧ Z.pos mx ≤ Z.pos mf * 2 ^ (ef - ex).
Proof.
  intros Hdx Hdd Hex Hed.
  pose proof (digits2_pos_53 mx Hdx) as Hmx. pose proof (digits2_pos_53 md Hdd) as Hmd.
  unfold SFdiv, SFdiv_core_binary. cbn [Zdigits2 xorb]. rewrite Hdx, Hdd.
  assert (He' : Z.min (fexp Py.prec Py.emax (53 + ex - (53 + ed))) (ex - ed) = ex - ed - 53).
  { unfold fexp, emin, Py.prec, Py.emax. lia. }
  cbv zeta. rewrite He'.
  replace (ex - ed - (ex - ed - 53)) with 53 by lia. cbv iota.
  rewrite Z.shiftl_mul_pow2, div_eucl_eq by lia.
  set (q := Z.pos mx * 2 ^ 53 / Z.pos md).
  assert (Hq : Z.pos mx ≤ q < 2 ^ 54).
  { unfold q. split.
    - apply Z.div_le_lower_bound; [lia|]. nia.
    - apply Z.div_lt_upper_bound; [lia|]. nia. }
  destruct q as [|pq|pq] eqn:Eq; try lia.
  pose proof (digits2_pos_upper pq) as Hup. pose proof (digits2_pos_lower pq) as Hlo.
  pose proof (digits2_pos_le pq 54 ltac:(lia) ltac:(lia)) as Hle.
  assert (Hge : 53 ≤ Z.pos (digits2_pos pq)).
  { destruct (Z.le_gt_cases 53 (Z.pos (digits2_pos pq))) as [|Hlt]; [done|].
    assert (2 ^ Z.pos (digits2_pos pq) ≤ 2 ^ 52) by (apply Z.pow_le_mono_r; lia). lia. }
  pose proof (λ l, binary_round_aux_normal false pq (ex - ed - 53) l Hge ltac:(lia))
    as Hround.
  match goal with
  | |- context [binary_round_aux _ _ _ _ _ ?l] =>
      destruct (Hround l) as (mf & ef & -> & Hdf & Hef & Hlow & _)
  end.
  exists mf, ef. split; [done|]. split; [lia|].
  set (n := Z.pos (digits2_pos pq) - 53) in *.
  set (e0 := ex - ed - 53 + n) in *.
  replace (ef - ex) with ((ef - e0) + (e0 - ex)) by lia.
  rewrite Z.pow_add_r, Z.mul_assoc by lia.
  assert (Hpow : 2 ^ n ≤ 2 ^ (e0 - ex)) by (apply Z.pow_le_mono_r; lia).
  assert (Hfl : Z.pos mx ≤ Z.pos pq / 2 ^ n * 2 ^ n).
  { assert (Hn : n = 0 ∨ n = 1) by lia. destruct Hn as [Hn|Hn]; rewrite Hn.
    - rewrite Z.div_1_r. lia.
    - assert (H53 : 2 ^ 53 ≤ Z.pos pq).
      { replace 53 with (Z.pos (digits2_pos pq) - 1) by lia. done. }
      change (2 ^ 1) with 2. pose proof (Z.div_mod (Z.pos pq) 2 ltac:(lia)).
      pose proof (Z.mod_pos_bound (Z.pos pq) 2 ltac:(lia)). lia. }
  assert (H0 : 0 ≤ Z.pos pq / 2 ^ n) by (apply Z.div_pos; lia).
  assert (H2n : 0 < 2 ^ n) by (apply Z.pow_pos_nonneg; lia).
  nia.
Qed.

(** *** [1.0 - aug_prob] *)

(** A mantissa of fewer than 53 bits is shifted to the left. *)
Lemma binary_round_shl s p e :
  Z.pos (digits2_pos p) ≤ 53 → -1074 ≤ e + Z.pos (digits2_pos p) - 53 ≤ 971 →
  binary_round Py.prec Py.emax s p e =
    S754_finite s (Z.to_pos (Z.pos p * 2 ^ (53 - Z.pos (digits2_pos p))))
                (e + Z.pos (digits2_pos p) - 53).
Proof.
  intros Hd He. unfold binary_round.
  assert (Hf : fexp Py.prec Py.emax (Z.pos (digits2_pos p) + e) =
               e + Z.pos (digits2_pos p) - 53).
  { unfold fexp, emin, Py.prec, Py.emax. lia. }
  rewrite Hf. unfold shl_align.
  destruct (e + Z.pos (digits2_pos p) - 53 - e) as [|k|k] eqn:Hk; [|lia|].
  - replace (53 - Z.pos (digits2_pos p)) with 0 by lia.
    rewrite Z.mul_1_r. cbn [Z.to_pos].
    replace (e + Z.pos (digits2_pos p) - 53) with e by lia.
    apply binary_round_aux_exact; lia.
  - replace (53 - Z.pos (digits2_pos p)) with (Z.pos k) by lia.
    rewrite <- Zpos_iter. cbn [Z.to_pos].
    apply binary_round_aux_exact; [|lia].
    rewrite digits2_pos_iter. lia.
Qed.

Lemma digits2_pos_shl p :
  Z.pos (digits2_pos p) ≤ 53 →
  Z.pos (digits2_pos (Z.to_pos (Z.pos p * 2 ^ (53 - Z.pos (digits2_pos p))))) = 53.
Proof.
  intros Hd. destruct (53 - Z.pos (digits2_pos p)) as [|k|k] eqn:Hk; [| |lia].
  - rewrite Z.mul_1_r. cbn [Z.to_pos]. lia.
  - rewrite <- Zpos_iter. cbn [Z.to_pos]. rewrite digits2_pos_iter. lia.
Qed.

(** The subtraction is the rounding of the exact difference, a multiple of
    the unit in the last place of the probability. *)
Lemma one_minus_exact ma ea :
  ea ≤ -53 →
  Py.fsub Py.float_one (S754_finite false ma ea) =
    binary_normalize Py.prec Py.emax (2 ^ (- ea) - Z.pos ma) ea false.
Proof.
  intros Hea. unfold Py.fsub, SFsub, Py.float_one. cbv zeta.
  rewrite Z.min_r by lia. unfold shl_align. rewrite Z.sub_diag.
  destruct (ea - -52) as [|k|k] eqn:Ek; try lia.
  cbn [fst cond_Zopp]. change 4503599627370496%positive with (2 ^ 52)%positive.
  rewrite Zpos_iter. f_equal. f_equal.
  change (Z.pos (2 ^ 52)) with (2 ^ 52). rewrite <- Z.pow_add_r by lia. f_equal. lia.
Qed.

(** For a probability in (0, 1) the difference is [1.0] again (the
    probability is below half a unit in the last place of one) or a float of
    53 bits below one, and at least [2^-53]. *)
Lemma one_minus (aug : Py.float) :
  valid_binary Py.prec Py.emax aug = true →
  SFleb Py.float_zero aug = true → SFltb aug Py.float_one = true →
  Py.is_zero aug = false →
  Py.fsub Py.float_one aug = Py.float_one ∨
  ∃ md ed, Py.fsub Py.float_one aug = S754_finite false md ed ∧
           Z.pos (digits2_pos md) = 53 ∧ -105 ≤ ed ≤ -53.
Proof.
  intros Hv Hle Hlt Hz.
  destruct aug as [s|s| |s ma ea]; try discriminate; try (destruct s; discriminate).
  destruct s; [discriminate|]. clear Hle Hz.
  pose proof (digits2_pos_upper ma) as Hup. pose proof (digits2_pos_lower ma) as Hlo.
  (* the probability is canonical, with an exponent below that of one *)
  apply andb_prop in Hv as [Hc _]. apply Z.eqb_eq in Hc.
  unfold fexp, emin, Py.prec, Py.emax in Hc.
  assert (Hea : -1074 ≤ ea ≤ -53).
  { unfold SFltb, SFcompare, Py.float_one in Hlt.
    destruct (Z.compare_spec ea (-52)) as [He|He|He]; try discriminate; [|lia].
    assert (Z.pos (digits2_pos ma) = 53) by lia.
    pose proof (digits2_pos_53 ma ltac:(done)).
    rewrite Pos.compare_cont_spec in Hlt. cbn [Pos.switch_Eq] in Hlt.
    destruct (Pos.compare_spec ma 4503599627370496) as [Hm|Hm|Hm]; try discriminate.
    apply Pos2Z.pos_lt_pos in Hm. change (Z.pos 4503599627370496) with (2 ^ 52) in Hm.
    clear -Hm H0. lia. }
  clear Hlt.
  assert (Hma : Z.pos ma < 2 ^ 53).
  { assert (2 ^ Z.pos (digits2_pos ma) ≤ 2 ^ 53) by (apply Z.pow_le_mono_r; lia). lia. }
  rewrite one_minus_exact by lia.
  assert (H53 : 2 ^ 53 ≤ 2 ^ (- ea)) by (apply Z.pow_le_mono_r; lia).
  destruct (2 ^ (- ea) - Z.pos ma) as [|pm|pm] eqn:EM; try lia.
  unfold binary_normalize.
  pose proof (digits2_pos_upper pm) as HupM. pose proof (digits2_pos_lower pm) as HloM.
  destruct (Z.eq_dec ea (-53)) as [->|Hne].
  - (* the difference has at most 53 bits: it is exact *)
    right. assert (Hdma : Z.pos (digits2_pos ma) = 53) by lia.
    pose proof (digits2_pos_53 ma Hdma) as Hma2.
    change (2 ^ (- -53)) with (2 ^ 53) in EM.
    assert (HdM : Z.pos (digits2_pos pm) ≤ 53) by (apply digits2_pos_le; lia).
    rewrite binary_round_shl by lia.
    eexists _, _. split; [reflexivity|]. split; [by apply digits2_pos_shl|lia].
  - (* the difference has as many bits as the exponent says: it is rounded *)
    assert (Hhalf : 2 ^ (- ea) = 2 * 2 ^ (- ea - 1)).
    { rewrite <- Z.pow_succ_r by lia. f_equal. lia. }
    assert (H54 : 2 ^ 53 ≤ 2 ^ (- ea - 1)) by (apply Z.pow_le_mono_r; lia).
    assert (HdM : Z.pos (digits2_pos pm) = - ea) by (apply digits2_pos_unique; lia).
    unfold binary_round.
    assert (Hf : fexp Py.prec Py.emax (Z.pos (digits2_pos pm) + ea) = -53).
    { unfold fexp, emin, Py.prec, Py.emax. lia. }
    rewrite Hf. unfold shl_align.
    destruct (-53 - ea) as [|k|k] eqn:Ek; try lia.
    destruct (binary_round_aux_normal false pm ea loc_Exact ltac:(lia) ltac:(lia))
      as (mf & ef & -> & Hdf & Hef & Hlow & Hhigh).
    rewrite HdM in Hef, Hlow, Hhigh.
    replace (ea + (- ea - 53)) with (-53) in * by lia.
    pose proof (digits2_pos_53 mf Hdf) as Hmf.
    assert (Hq : Z.pos pm / 2 ^ (- ea - 53) < 2 ^ 53).
    { apply Z.div_lt_upper_bound; [apply Z.pow_pos_nonneg; lia|].
      rewrite <- Z.pow_add_r by lia. replace (- ea - 53 + 53) with (- ea) by lia. lia. }
    assert (Hef2 : ef - -53 ≤ 1).
    { destruct (Z.le_gt_cases (ef - -53) 1) as [|Hgt]; [done|].
      assert (2 ^ 2 ≤ 2 ^ (ef - -53)) by (apply Z.pow_le_mono_r; lia). nia. }
    assert (Hcase : ef = -53 ∨ ef = -52) by lia. destruct Hcase as [-> | ->].
    + right. exists mf, (-53). split; [done|]. split; [done|lia].
    + left. change (2 ^ (-52 - -53)) with 2 in Hhigh.
      assert (Z.pos mf = 2 ^ 52) as Hone by lia.
      change (2 ^ 52) with (Z.pos 4503599627370496) in Hone.
      injection Hone as ->. reflexivity.
Qed.

(** *** Augmentation never shortens the training *)

(** X16. Line 123 in binary64: for an augmentation probability that is a
    float in [0, 1) and a number of epochs between [0] and [2^53] (the
    integers Python converts to a float exactly), line 123 succeeds and the
    resulting number of epochs is at least the configured one. The division
    by [1.0 - aug_prob] and the truncation of [int] are the ones of IEEE 754,
    rounding to nearest, ties to even. *)
Theorem X16_augmentation_never_shortens_training (c : Config) :
  valid_binary Py.prec Py.emax (aug_prob (dataset_args c)) = true →
  SFleb Py.float_zero (aug_prob (dataset_args c)) = true →
  SFltb (aug_prob (dataset_args c)) Py.float_one = true →
  0 ≤ num_epochs (train_configs c) ≤ 2 ^ 53 →
  ∃ n, scaled_num_epochs c = Some n ∧ num_epochs (train_configs c) ≤ n.
Proof.
  intros Hv Hle Hlt Hn.
  destruct (Py.is_zero (aug_prob (dataset_args c))) eqn:Hz.
  { exists (num_epochs (train_configs c)). split; [|done].
    apply scaled_num_epochs_no_aug; [done|lia]. }
  unfold scaled_num_epochs, line_123, Py.truediv.
  revert Hn. generalize (num_epochs (train_configs c)). intros n Hn.
  destruct (Z.eq_dec n 0) as [->|Hn0].
  { (* no epoch: zero divided by a positive float *)
    exists 0. split; [|done].
    change (Py.float_of_int 0) with (inr Py.float_zero : Py.exn + Py.float).
    destruct (one_minus _ Hv Hle Hlt Hz) as [-> | (md & ed & -> & _ & _)]; reflexivity. }
  destruct (float_of_int_small n ltac:(lia)) as (mx & ex & -> & Hdx & Hex & Hx).
  destruct (one_minus _ Hv Hle Hlt Hz) as [-> | (md & ed & -> & Hdd & Hed)].
  - (* the difference rounds to one *)
    change (Py.is_zero Py.float_one) with false. cbv iota.
    rewrite div_by_one by lia. cbn [Py.int_of_float cond_Zopp].
    exists n. by rewrite Hx.
  - cbn [Py.is_zero].
    destruct (div_grows mx ex md ed Hdx Hdd Hex Hed) as (mf & ef & -> & Hef & Hm).
    cbn [Py.int_of_float cond_Zopp]. eexists. split; [reflexivity|].
    rewrite <- Hx. by apply int_of_float_le.
Qed.

(** ** The label dictionary (line 73) *)

Section Labels.

Variable spk2id_dict : gmap string Z.

Lemma utt2spkid_snoc l us :
  utt2spkid spk2id_dict (l ++ [us]) = add_utt spk2id_dict (utt2spkid spk2id_dict l) us.
Proof. unfold utt2spkid. by rewrite foldl_app. Qed.

Lemma utt2spkid_spec l :
  match utt2spkid spk2id_dict l with
  | Some d =>
      Forall (λ us, is_Some (spk2id_dict !! us.2)) l ∧
      (∀ utt, utt ∉ l.*1 → d !! utt = None) ∧
      (∀ l1 utt spk l2, l = l1 ++ (utt, spk) :: l2 → utt ∉ l2.*1 →
         d !! utt = spk2id_dict !! spk)
  | None => Exists (λ us, spk2id_dict !! us.2 = None) l
  end.
Proof.
  induction l as [|[utt0 spk0] l IH] using rev_ind.
  { change (utt2spkid spk2id_dict []) with (Some (∅ : gmap string Z)).
    split; [constructor|]. split; [done|]. by intros [|??] ??? [=]. }
  rewrite utt2spkid_snoc. unfold add_utt.
  destruct (utt2spkid spk2id_dict l) as [d|]; [|apply Exists_app; by left].
  cbn [snd fst]. destruct (spk2id_dict !! spk0) as [i|] eqn:Hi;
    [|apply Exists_app; right; by constructor].
  destruct IH as (Hall & Hnone & Hlast). split; [|split].
  - apply Forall_app. split; [done|]. constructor; [by eexists|constructor].
  - intros utt Hutt. rewrite fmap_app, elem_of_app in Hutt.
    rewrite lookup_insert_ne; [apply Hnone; tauto|].
    intros ->. apply Hutt. right. by left.
  - intros l1 utt spk l2 Hl Hutt.
    destruct l2 as [|x l2 _] using rev_ind.
    + apply (app_inj_tail l l1) in Hl as [-> [= <- <-]].
      by rewrite lookup_insert_eq.
    + rewrite app_comm_cons, app_assoc in Hl. apply app_inj_tail in Hl as [-> <-].
      rewrite fmap_app, elem_of_app in Hutt.
      rewrite lookup_insert_ne; [apply (Hlast l1 utt spk l2); tauto|].
      intros <-. apply Hutt. right. by left.
Qed.

End Labels.

(** The last line of an utterance in the list. *)
Lemma last_line (l : list (string * string)) utt :
  utt ∈ l.*1 → ∃ l1 spk l2, l = l1 ++ (utt, spk) :: l2 ∧ utt ∉ l2.*1.
Proof.
  induction l as [|[u s] l IH]; [by intros ?%elem_of_nil|].
  intros Hin. destruct (decide (utt ∈ l.*1)) as [Hl|Hl].
  - destruct (IH Hl) as (l1 & spk & l2 & -> & Hn). by exists ((u, s) :: l1), spk, l2.
  - apply elem_of_cons in Hin as [->|Hin]; [|done]. by exists [], s, l.
Qed.

(** X17. The dictionary comprehension of line 73, for any speaker
    dictionary: it raises [KeyError] exactly when a line of the label list
    names a speaker without an id; otherwise its keys are the utterances of
    the list, and every utterance is mapped to the id of the speaker on its
    last line. *)
Theorem X17_label_dictionary (spk2id_dict : gmap string Z) (l : list (string * string)) :
  (utt2spkid spk2id_dict l = None ↔ ∃ us, us ∈ l ∧ spk2id_dict !! us.2 = None) ∧
  (∀ d, utt2spkid spk2id_dict l = Some d →
     (∀ utt, is_Some (d !! utt) ↔ utt ∈ l.*1) ∧
     (∀ l1 utt spk l2, l = l1 ++ (utt, spk) :: l2 → utt ∉ l2.*1 →
        d !! utt = spk2id_dict !! spk)).
Proof.
  pose proof (utt2spkid_spec spk2id_dict l) as Hspec.
  destruct (utt2spkid spk2id_dict l) as [d|].
  - destruct Hspec as (Hall & Hnone & Hlast). split.
    + split; [done|]. intros (us & Hin & Hus).
      rewrite Forall_forall in Hall. apply Hall in Hin. rewrite Hus in Hin.
      by destruct Hin.
    + intros ? [= <-]. split; [|exact Hlast].
      intros utt. split.
      * intros Hsome. destruct (decide (utt ∈ l.*1)) as [|Hn]; [done|].
        apply Hnone in Hn. rewrite Hn in Hsome. by destruct Hsome.
      * intros Hin. destruct (last_line l utt Hin) as (l1 & spk & l2 & Hl & Hn).
        rewrite (Hlast _ _ _ _ Hl Hn). rewrite Forall_forall in Hall.
        apply (Hall (utt, spk)). rewrite Hl. apply elem_of_app. right. by left.
  - split; [|done]. split; [|done]. intros _.
    apply Exists_exists in Hspec. exact Hspec.
Qed.

(** ** The sampler's epoch (line 154) *)

Section Sampler.

Variable w : World.

(** In the calls of the loop, the executor comes right after the sampler was
    given the same epoch. *)
Lemma loop_calls_paired rank n es c1 e li c2 :
  flat_map (epoch_calls w rank n) es = c1 ++ runepoch e li :: c2 →
  ∃ c0, c1 = c0 ++ [set_epoch e].
Proof.
  revert c1. induction es as [|e' es IH]; intros c1 H.
  { by destruct c1. }
  cbn [flat_map] in H. unfold epoch_calls at 1 in H. cbn [app] in H.
  destruct c1 as [|x [|y c1]]; cbn [app] in H.
  - discriminate H.
  - injection H as <- <- _ _. by exists [].
  - injection H as <- <- H.
    assert (Hrest : ∃ z, flat_map (epoch_calls w rank n) es = z ++ runepoch e li :: c2 ∧
                         ∃ z', c1 = z' ++ z).
    { destruct ((rank =? 0) && save_due w n e'); cbn [app] in H.
      - destruct c1 as [|s c1]; cbn [app] in H; [discriminate H|].
        injection H as <- H. exists c1. split; [done|]. by exists [save_checkpoint (checkpoint_path w e')].
      - exists c1. split; [done|]. by exists []. }
    destruct Hrest as (z & Hz & z' & ->).
    destruct (IH z Hz) as (c0 & ->).
    exists (set_epoch e' :: runepoch e' (log_batch_interval (train_configs (w_configs w)))
              :: z' ++ c0).
    cbn [app]. by rewrite <- app_assoc.
Qed.

Lemma plan_paired config c1 e li c2 :
  call_plan w config = c1 ++ runepoch e li :: c2 → ∃ c0, c1 = c0 ++ [set_epoch e].
Proof.
  intros H.
  assert (Hin : In (runepoch e li) (call_plan w config)).
  { rewrite H. apply in_or_app. right. by left. }
  destruct (plan_epoch_call w config _ Hin eq_refl)
    as (rank & ws & gpu & n & Hr & Hw & Hg & Hn).
  rewrite (call_plan_ready w config _ _ _ _ Hr Hw Hg Hn) in H.
  destruct (app_eq_split epoch_call _ _ _ _ _ H eq_refl) as (x & -> & Hx).
  { apply setup_calls_counts. }
  apply app_eq_inv in Hx as [(k & Hl & Hk)|(k & -> & Hk)].
  - destruct k as [|c k].
    + exfalso. cbn [app] in Hk. unfold final_calls, on_rank0 in Hk.
      destruct (rank =? 0); discriminate Hk.
    + cbn [app] in Hk. injection Hk as <- Hk. unfold loop_calls in Hl.
      destruct (loop_calls_paired _ _ _ _ _ _ _ Hl) as (c0 & ->).
      exists (setup_calls w config rank ws n ++ c0). by rewrite app_assoc.
  - exfalso. unfold final_calls, on_rank0 in Hk.
    destruct (rank =? 0); [|by destruct k].
    destruct k as [|? [|? k]]; discriminate Hk.
Qed.

End Sampler.

(** X18. In every run, each call of the executor for an epoch comes
    directly after the call that sets the sampler to that same epoch: no call
    lies between [train_sampler.set_epoch(epoch)] and [runepoch(..., epoch,
    ...)]. *)
Theorem X18_sampler_epoch_set_before_each_epoch w config o tr c1 epoch li c2 :
  run w config = (o, tr) →
  calls tr = c1 ++ runepoch epoch li :: c2 →
  ∃ c0, c1 = c0 ++ [set_epoch epoch].
Proof.
  intros Hrun Hc. destruct (run_calls_plan w _ _ _ Hrun) as [k Hk].
  apply (plan_paired w config c1 epoch li (c2 ++ k)).
  rewrite Hk, Hc, <- app_assoc. reflexivity.
Qed.

(** ** The environment (lines 33-36) *)

Section Environment.

Variable w : World.







End Environment.


(** ** The further properties at the sample worlds *)

(** Started by hand, without [LOCAL_RANK]. *)
Lemma X1_witness :
  run unlaunched_world sample_config_path =
    (Raised (Py.Err Py.KeyError "LOCAL_RANK"),
     [Ext (parse_config_or_kwargs sample_config_path) None; Getenv "LOCAL_RANK"]).
Proof.
  apply (proj1 (X1_missing_variable_is_a_KeyError unlaunched_world sample_config_path
                  eq_refl)).
  reflexivity.
Defined.

(** [LOCAL_RANK] set to a device name. *)
Lemma X2_witness :
  run misnamed_rank_world sample_config_path =
    (Raised (Py.Err Py.ValueError "cuda:0"),
     [Ext (parse_config_or_kwargs sample_config_path) None; Getenv "LOCAL_RANK"]).
Proof.
  apply (proj1 (X2_malformed_variable_is_a_ValueError misnamed_rank_world
                  sample_config_path eq_refl) "cuda:0"); reflexivity.
Defined.

(** A third process with two devices configured. *)
Lemma X3_witness :
  run rank2_world sample_config_path =
    (Raised (Py.Err Py.IndexError "list index out of range"),
     [Ext (parse_config_or_kwargs sample_config_path) None; Getenv "LOCAL_RANK";
      Getenv "WORLD_SIZE"]).
Proof.
  apply (X3_rank_without_device_is_an_IndexError rank2_world sample_config_path 2 2
           eq_refl eq_refl eq_refl).
  right. vm_compute. discriminate.
Defined.

(** A refused permission is reported as an existing directory. *)
Lemma X4_witness :
  rank_of rank0_permission_denied = Some 0 ∧
  "exp/run1/models" = model_dir rank0_permission_denied ∧
  (run rank0_permission_denied sample_config_path).1 = Raised (Py.SystemExit 1) ∧
  ∃ pre, (run rank0_permission_denied sample_config_path).2 =
           pre ++ [Ext (makedirs "exp/run1/models")
                       (Some (Py.Err Py.PermissionError "exp/run1/models"));
                   Print ("exp/run1/models" +:+ " already exists !!!")] ∧
         printed pre = [].
Proof.
  apply (X4_makedirs_failure_prints_and_exits rank0_permission_denied sample_config_path
           _ _ _ _ (run_pair _ _)).
  - in_trace.
  - reflexivity.
Defined.


(** Checkpoints every 0 epochs: the first epoch is the last. *)
Lemma X6_witness :
  1 = 1 ∧
  (run rank0_no_interval sample_config_path).1 =
    Raised (Py.Err Py.ZeroDivisionError "integer division or modulo by zero") ∧
  (∃ pre, (run rank0_no_interval sample_config_path).2 =
            pre ++ [Ext (runepoch 1 100) None]) ∧
  saved (run rank0_no_interval sample_config_path).2 = [].
Proof.
  apply (X6_zero_save_interval_fails_after_first_epoch rank0_no_interval
           sample_config_path _ _ 1 100 (run_pair _ _)).
  - reflexivity.
  - reflexivity.
  - in_trace.
Defined.

Lemma X7_witness :
  NoDup (saved (run rank0_world sample_config_path).2) ∧
  ∃ epochs, saved (run rank0_world sample_config_path).2 =
              checkpoint_path rank0_world <$> epochs ∧
            epochs `sublist_of`
              match scaled_num_epochs (w_configs rank0_world) with
              | Some n => Py.range 1 (n + 1)
              | None => []
              end.
Proof.
  apply (X7_checkpoints_go_to_distinct_files rank0_world sample_config_path _ _
           (run_pair _ _)).
Defined.

(** Ranks 0 and 1 seed with 42 and 43. *)
Lemma X8_witness :
  (∃ rank, rank_of rank0_world = Some rank ∧ 42 = seed (w_configs rank0_world) + rank) ∧
  (42 = 43 ↔ rank_of rank0_world = rank_of rank1_world).
Proof.
  apply (X8_seed_is_offset_by_rank rank0_world rank1_world sample_config_path
           _ _ _ _ 42 43 None None (run_pair _ _) (run_pair _ _)).
  - in_trace.
  - in_trace.
  - reflexivity.
Defined.

(** A configured [lr] of 0.001 gives way to the [initial_lr] 0.1. *)
Lemma X9_witness :
  "SGD" = optimizer (w_configs rank1_with_lr) ∧
  lr {| lr := Some (1 # 10) |} = Some (initial_lr (scheduler_args (w_configs rank1_with_lr))).
Proof.
  apply (X9_optimizer_starts_at_initial_lr rank1_with_lr sample_config_path _ _
           "SGD" {| lr := Some (1 # 10) |} None (run_pair _ _)).
  in_trace.
Defined.

Lemma X10_witness :
  ∃ world_size n,
    world_size_of rank1_world = Some world_size ∧
    scaled_num_epochs (w_configs rank1_world) = Some n ∧
    "ExponentialDecrease" = scheduler (w_configs rank1_world) ∧
    {| initial_lr := 1 # 10; sa_num_epochs := Some 3; sa_epoch_iter := Some 10;
       process_num := Some 2 |} =
    {| initial_lr := initial_lr (scheduler_args (w_configs rank1_world));
       sa_num_epochs := Some n;
       sa_epoch_iter := Some (w_epoch_iter rank1_world);
       process_num := Some world_size |}.
Proof.
  apply (proj1 (X10_scheduler_arguments rank1_world sample_config_path _ _ (run_pair _ _))
           "ExponentialDecrease"
           {| initial_lr := 1 # 10; sa_num_epochs := Some 3; sa_epoch_iter := Some 10;
              process_num := Some 2 |} None).
  in_trace.
Defined.

Lemma X11_witness :
  fa_feat_dim {| fa_feat_dim := Some 80 |} =
    Some (feat_dim (model_args (w_configs rank1_world))) ∧
  dataset_args sample_configs = dataset_args (w_configs rank1_world).
Proof.
  apply (proj1 (X11_dataset_has_the_feature_dimension_of_the_model rank1_world
                  sample_config_path _ _ (run_pair _ _))
           {| fa_feat_dim := Some 80 |} (dataset_args sample_configs) None).
  in_trace.
Defined.

Lemma X12_witness :
  rank_of rank0_world = Some 0 ∧
  ∃ world_size n saved_configs,
    world_size_of rank0_world = Some world_size ∧
    scaled_num_epochs (w_configs rank0_world) = Some n ∧
    (yaml_dump (final_configs rank0_world 2 3) =
       open_w (Py.path_join (exp_dir (w_configs rank0_world)) "config.yaml") ∨
     yaml_dump (final_configs rank0_world 2 3) = yaml_dump saved_configs ∨
     yaml_dump (final_configs rank0_world 2 3) =
       file_write (w_yaml rank0_world saved_configs)) ∧
    saved_configs =
      {| exp_dir := exp_dir (w_configs rank0_world); gpus := gpus (w_configs rank0_world);
         seed := seed (w_configs rank0_world); model := model (w_configs rank0_world);
         model_init := model_init (w_configs rank0_world);
         loss := loss (w_configs rank0_world);
         optimizer := optimizer (w_configs rank0_world);
         scheduler := scheduler (w_configs rank0_world);
         num_avg := num_avg (w_configs rank0_world);
         dataset_args := dataset_args (w_configs rank0_world);
         feature_args :=
           {| fa_feat_dim := Some (feat_dim (model_args (w_configs rank0_world))) |};
         model_args := model_args (w_configs rank0_world);
         projection_args :=
           match model_init (w_configs rank0_world) with
           | Some _ => projection_args (w_configs rank0_world)
           | None =>
               {| pa_embed_dim := Some (embed_dim (model_args (w_configs rank0_world)));
                  num_class :=
                    Some (if speed_perturb (dataset_args (w_configs rank0_world))
                          then len (speakers rank0_world) * 3
                          else len (speakers rank0_world)) |}
           end;
         optimizer_args :=
           {| lr := Some (initial_lr (scheduler_args (w_configs rank0_world))) |};
         scheduler_args :=
           {| initial_lr := initial_lr (scheduler_args (w_configs rank0_world));
              sa_num_epochs := Some n;
              sa_epoch_iter := Some (w_epoch_iter rank0_world);
              process_num := Some world_size |};
         train_configs :=
           {| num_epochs := n;
              log_batch_interval := log_batch_interval (train_configs (w_configs rank0_world));
              save_epoch_interval :=
                save_epoch_interval (train_configs (w_configs rank0_world)) |};
         margin_update := {| mu_epoch_iter := Some (w_epoch_iter rank0_world) |} |}.
Proof.
  apply (X12_saved_configuration rank0_world sample_config_path _ _
           (yaml_dump (final_configs rank0_world 2 3)) None (run_pair _ _)).
  - in_trace.
  - right. left. by eexists.
Defined.

(** Fine-tuning on rank 1 loads the initial model. *)
Lemma X13_witness :
  In (Ext (load_checkpoint "exp/run0/models/final_model.pt") None)
     (run rank1_fine_tuning sample_config_path).2.
Proof.
  apply (proj2 (X13_initial_model_is_loaded_when_configured rank1_fine_tuning
                  sample_config_path _ _ (run_pair _ _))); reflexivity.
Defined.

Lemma X14_witness :
  (∀ c r, In (Ext c r) (run rank1_world sample_config_path).2 → writes_files c = false) ∧
  printed (run rank1_world sample_config_path).2 = [].
Proof.
  apply (X14_other_ranks_make_no_file_calls rank1_world sample_config_path _ _ 1
           (run_pair _ _)).
  - reflexivity.
  - discriminate.
Defined.


(** 150 epochs with a probability of 0.7. *)
Lemma X16_witness :
  ∃ n, scaled_num_epochs (sample_configs_with 150 seven_tenths None) = Some n ∧
       num_epochs (train_configs (sample_configs_with 150 seven_tenths None)) ≤ n.
Proof.
  apply (X16_augmentation_never_shortens_training
           (sample_configs_with 150 seven_tenths None)).
  - reflexivity.
  - reflexivity.
  - reflexivity.
  - split; vm_compute; discriminate.
Defined.

(** The second epoch of rank 1. *)
Lemma X18_witness :
  ∃ c0, take 25 (calls (run rank1_world sample_config_path).2) = c0 ++ [set_epoch 2].
Proof.
  apply (X18_sampler_epoch_set_before_each_epoch rank1_world sample_config_path _ _
           _ 2 100 (drop 26 (calls (run rank1_world sample_config_path).2))
           (run_pair _ _)).
  vm_compute. reflexivity.
Defined.

